(** * A classifier-driven chat-completion router: shallow embedding

    The development follows the layout of the JavaScript sources:
    [Js] holds the fragment of the language runtime the program relies on
    (strings, JSON values, [JSON.stringify], [encodeURIComponent]);
    [Utils], [Cache], [Classifier], [Config], [Providers] and [Server]
    embed the modules of the same names; [Log] and [Eff] carry the trace
    of a run and the monad of computations that log, touch the cache and
    throw.  Network peers, the parser of JSON, the clock and the digest
    primitive are parameters of the model.  The properties come after the
    embedding, one module of facts per source module. *)

From Stdlib Require Import ZArith List String Ascii Bool Lia DecimalString.
From stdpp Require Import base gmap strings.
Import ListNotations.
Local Open Scope Z_scope.
#[local] Set Warnings "-register-all".

(* ===================================================================== *)
(** * The JavaScript fragment *)
(* ===================================================================== *)

Module Js.

(** ** Strings

    A JavaScript string is modelled by a Rocq [string]: a sequence of
    bytes holding the UTF-8 encoding of the text, a lone surrogate being
    written like a character of three bytes.  The program compares,
    searches and cuts strings at ASCII characters, which the encoding keeps
    apart; where it counts characters ([length], [slice] in [truncate]) the
    count is in UTF-16 code units, see [length16] and [slice16]. *)

Definition dquote : ascii := "034"%char.
Definition backslash : ascii := "092"%char.
Definition newline : ascii := "010"%char.

Definition is_empty (s : string) : bool :=
  match s with EmptyString => true | String _ _ => false end.

(** [s.startsWith(p)] *)
Fixpoint startsWith (s p : string) {struct p} : bool :=
  match p with
  | EmptyString => true
  | String c p' =>
      match s with
      | EmptyString => false
      | String d s' => Ascii.eqb c d && startsWith s' p'
      end
  end.

(** [s.slice(n)] for [0 <= n] *)
Fixpoint slice_from (n : nat) (s : string) : string :=
  match n, s with
  | O, _ => s
  | S _, EmptyString => EmptyString
  | S n', String _ r => slice_from n' r
  end.

(** [s.slice(0, n)] for [0 <= n] *)
Fixpoint slice_to (n : nat) (s : string) : string :=
  match n, s with
  | O, _ => EmptyString
  | S _, EmptyString => EmptyString
  | S n', String c r => String c (slice_to n' r)
  end.

(** The UTF-16 code units that a byte of the encoding stands for: none
    for a continuation byte, two for the first byte of a sequence of four
    (a character outside the basic plane, a surrogate pair for
    JavaScript), one for every other first byte. *)
Definition units (c : ascii) : nat :=
  let n := nat_of_ascii c in
  if (n <? 128)%nat then 1%nat
  else if (n <? 192)%nat then 0%nat
  else if (n <? 240)%nat then 1%nat
  else 2%nat.

(** [s.length] *)
Fixpoint length16 (s : string) : nat :=
  match s with
  | EmptyString => 0%nat
  | String c r => (units c + length16 r)%nat
  end.

(** The payload of the [i]-th byte of [s], if it is there *)
Definition payloadAt (i : nat) (s : string) : nat :=
  match String.get i s with
  | Some c => (nat_of_ascii c mod 64)%nat
  | None => 0%nat
  end.

(** The high surrogate of the character whose sequence of four bytes
    starts with [c] and goes on with [r], in three bytes: the surrogate
    is [0xD800 + w] where [w] is the character, less [0x10000], without
    its ten low bits. *)
Definition highSurrogate (c : ascii) (r : string) : string :=
  let w := ((nat_of_ascii c mod 8) * 256 + payloadAt 0 r * 4 + payloadAt 1 r / 16 - 64)%nat in
  String (ascii_of_nat 237)
    (String (ascii_of_nat (160 + (w / 64) mod 16))
       (String (ascii_of_nat (128 + w mod 64)) EmptyString)).

(** [s.slice(0, n)] for [0 <= n], counted in UTF-16 code units; a cut
    between the two surrogates of a character leaves the high one. *)
Fixpoint slice16 (n : nat) (s : string) : string :=
  match s with
  | EmptyString => EmptyString
  | String c r =>
      match units c with
      | O => String c (slice16 n r)
      | S O =>
          match n with
          | O => EmptyString
          | S n' => String c (slice16 n' r)
          end
      | S (S _) =>
          match n with
          | O => EmptyString
          | S O => highSurrogate c r
          | S (S n') => String c (slice16 n' r)
          end
      end
  end.

(** [s.includes(sub)] *)
Fixpoint includes (s sub : string) : bool :=
  startsWith s sub ||
  match s with
  | EmptyString => false
  | String _ r => includes r sub
  end.

Definition lower_ascii (c : ascii) : ascii :=
  let n := nat_of_ascii c in
  if ((65 <=? n) && (n <=? 90))%nat then ascii_of_nat (n + 32) else c.

(** [s.toLowerCase()], on the ASCII letters *)
Fixpoint toLowerCase (s : string) : string :=
  match s with
  | EmptyString => EmptyString
  | String c r => String (lower_ascii c) (toLowerCase r)
  end.

Definition is_slash (c : ascii) : bool := Ascii.eqb c "/"%char.

(** [s.replace(/\/+$/, empty)]: drop the run of slashes that ends the string *)
Fixpoint stripTrailingSlashes (s : string) : string :=
  match s with
  | EmptyString => EmptyString
  | String c r =>
      let r' := stripTrailingSlashes r in
      if is_slash c && is_empty r' then EmptyString else String c r'
  end.

(** The white space removed by [trim], among the ASCII characters: tab,
    line feed, vertical tab, form feed, carriage return and space. *)
Definition is_space (c : ascii) : bool :=
  let n := nat_of_ascii c in
  ((9 <=? n) && (n <=? 13) || (n =? 32))%nat.

Fixpoint trimStart (s : string) : string :=
  match s with
  | EmptyString => EmptyString
  | String c r => if is_space c then trimStart r else s
  end.

Fixpoint trimEnd (s : string) : string :=
  match s with
  | EmptyString => EmptyString
  | String c r =>
      let r' := trimEnd r in
      if is_space c && is_empty r' then EmptyString else String c r'
  end.

(** [s.trim()] *)
Definition trim (s : string) : string := trimEnd (trimStart s).

(** [s.split("\n")]: never empty, the last piece is what follows the last
    line feed. *)
Fixpoint splitLines (s : string) : list string :=
  match s with
  | EmptyString => [EmptyString]
  | String c r =>
      if Ascii.eqb c newline then EmptyString :: splitLines r
      else match splitLines r with
           | [] => [String c EmptyString]
           | l :: ls => String c l :: ls
           end
  end.

Definition is_digit (c : ascii) : bool :=
  let n := nat_of_ascii c in ((48 <=? n) && (n <=? 57))%nat.

Definition digit_value (c : ascii) : Z := Z.of_nat (nat_of_ascii c) - 48.

(** The number spelled by the longest run of decimal digits that starts
    [s]; [acc] is the value read so far, [None] before the first digit. *)
Fixpoint digitsPrefix (s : string) (acc : option Z) : option Z :=
  match s with
  | EmptyString => acc
  | String c r =>
      if is_digit c then digitsPrefix r (Some (10 * default 0 acc + digit_value c))
      else acc
  end.

(** [Number.parseInt(s, 10)]; [None] is [NaN]. *)
Definition parseInt10 (s : string) : option Z :=
  match trimStart s with
  | String c r =>
      if Ascii.eqb c "-"%char then option_map Z.opp (digitsPrefix r None)
      else if Ascii.eqb c "+"%char then digitsPrefix r None
      else digitsPrefix (String c r) None
  | EmptyString => None
  end.

(** [String(n)] for an integer [n] *)
Definition Z_to_string (n : Z) : string :=
  NilZero.string_of_int (Z.to_int n).

Definition hexDigit (upper : bool) (n : nat) : ascii :=
  if (n <? 10)%nat then ascii_of_nat (48 + n)
  else ascii_of_nat ((if upper then 55 else 87) + n).

Definition hex2 (upper : bool) (c : ascii) : string :=
  let n := nat_of_ascii c in
  String (hexDigit upper (n / 16)) (String (hexDigit upper (n mod 16)) EmptyString).

(** ** Values

    The values that [JSON.parse] produces, plus [undefined].  Numbers are
    the integers from [-2^53] to [2^53], which a double holds exactly and
    which print as their decimal digits; the fields of an object come in its
    property order.  In a well-formed object no key occurs twice. *)

Inductive JsVal : Type :=
| JUndefined
| JNull
| JBool (b : bool)
| JNum (n : Z)
| JStr (s : string)
| JArr (items : list JsVal)
| JObj (fields : list (string * JsVal)).

(** Truthiness, as in [if (v)], [!v], [a || b] *)
Definition truthy (v : JsVal) : bool :=
  match v with
  | JUndefined | JNull => false
  | JBool b => b
  | JNum n => negb (n =? 0)
  | JStr s => negb (is_empty s)
  | JArr _ | JObj _ => true
  end.

(** [a || b] *)
Definition or_else (a b : JsVal) : JsVal := if truthy a then a else b.

Definition nullish (v : JsVal) : bool :=
  match v with JUndefined | JNull => true | _ => false end.

(** [a ?? b] *)
Definition coalesce (a b : JsVal) : JsVal := if nullish a then b else a.

Fixpoint assoc (k : string) (fields : list (string * JsVal)) : JsVal :=
  match fields with
  | [] => JUndefined
  | (k', v) :: rest => if String.eqb k k' then v else assoc k rest
  end.

(** [v?.k]: the own property [k] of an object, [undefined] elsewhere. *)
Definition prop (v : JsVal) (k : string) : JsVal :=
  match v with
  | JObj fields => assoc k fields
  | _ => JUndefined
  end.

(** [v?.[i]] *)
Definition at_index (v : JsVal) (i : nat) : JsVal :=
  match v with
  | JArr items => nth i items JUndefined
  | _ => JUndefined
  end.


(** ** [JSON.stringify] *)

Definition escape_char (c : ascii) : string :=
  let n := nat_of_ascii c in
  if Ascii.eqb c dquote then String backslash (String dquote EmptyString)
  else if Ascii.eqb c backslash then String backslash (String backslash EmptyString)
  else if (n =? 8)%nat then String backslash "b"
  else if (n =? 9)%nat then String backslash "t"
  else if (n =? 10)%nat then String backslash "n"
  else if (n =? 12)%nat then String backslash "f"
  else if (n =? 13)%nat then String backslash "r"
  else if (n <? 32)%nat then String backslash ("u00" +:+ hex2 false c)
  else String c EmptyString.

Fixpoint escape (s : string) : string :=
  match s with
  | EmptyString => EmptyString
  | String c r => escape_char c +:+ escape r
  end.

(** A string literal of JSON: the text between double quotes, escaped. *)
Definition quote (s : string) : string :=
  String dquote (escape s +:+ String dquote EmptyString).

(** The serialization of a value in a position where [undefined] is
    written [null] (array elements); properties whose value is [undefined]
    are left out of an object. *)
Fixpoint ser (v : JsVal) : string :=
  match v with
  | JUndefined => "null"
  | JNull => "null"
  | JBool b => if b then "true" else "false"
  | JNum n => Z_to_string n
  | JStr s => quote s
  | JArr items => "[" +:+ String.concat "," (map ser items) +:+ "]"
  | JObj fields =>
      "{" +:+
      String.concat ","
        ((fix props (fs : list (string * JsVal)) : list string :=
            match fs with
            | [] => []
            | (k, JUndefined) :: rest => props rest
            | (k, x) :: rest => (quote k +:+ ":" +:+ ser x) :: props rest
            end) fields)
      +:+ "}"
  end.

(** [JSON.stringify(v)]; [None] is the [undefined] it returns for
    [undefined]. *)
Definition JSON_stringify (v : JsVal) : option string :=
  match v with
  | JUndefined => None
  | _ => Some (ser v)
  end.

(** ** [encodeURIComponent] *)



(** ** Numbers read back from strings

    The result of [Number(s)]: not-a-number, an integer, or some other
    finite number, kept by its source text. *)
Inductive JsNum : Type :=
| NaN
| Int (z : Z)
| Frac (text : string).

(** ** Errors

    A thrown [Error] object, by the properties the program inspects. *)
Inductive ErrCode : Type :=
| NoCode
| NumCode (n : Z)
| StrCode (s : string).

Record JsError : Type := mkError {
  err_name : string;
  err_code : ErrCode;
  err_message : string;
  err_body : option string
}.

Inductive Result (A : Type) : Type :=
| Ok (a : A)
| Throw (e : JsError).
Arguments Ok {A} a.
Arguments Throw {A} e.

(** Sequencing of steps that may throw *)
Definition andThen {A B} (r : Result A) (k : A -> Result B) : Result B :=
  match r with
  | Ok a => k a
  | Throw e => Throw e
  end.

Declare Scope result_scope.
Delimit Scope result_scope with result.
Notation "'let?' x := r 'in' k" := (andThen r (fun x => k))
  (at level 10, x name, r at level 100, k at level 200) : result_scope.

Definition plainError (msg : string) : JsError :=
  mkError "Error" NoCode msg None.

Definition typeError (msg : string) : JsError :=
  mkError "TypeError" NoCode msg None.

(** [v.k]: reading a property of [null] or [undefined] throws. *)
Definition member (v : JsVal) (k : string) : Result JsVal :=
  if nullish v then Throw (typeError "Cannot read properties of null or undefined")
  else Ok (prop v k).

(** [v === s] for a string [s] *)
Definition is_str (v : JsVal) (s : string) : bool :=
  match v with
  | JStr s' => String.eqb s' s
  | _ => false
  end.

(** [String(v)] *)
Fixpoint toString (v : JsVal) : string :=
  match v with
  | JUndefined => "undefined"
  | JNull => "null"
  | JBool b => if b then "true" else "false"
  | JNum n => Z_to_string n
  | JStr s => s
  | JArr items =>
      String.concat ","
        (map (fun x => match x with
                       | JUndefined | JNull => EmptyString
                       | _ => toString x
                       end) items)
  | JObj _ => "[object Object]"
  end.

(** [items.join(sep)] *)
Definition join (sep : string) (items : list JsVal) : string :=
  String.concat sep
    (map (fun x => match x with
                   | JUndefined | JNull => EmptyString
                   | _ => toString x
                   end) items).

(** The own enumerable properties of a value, as [Object.assign] and the
    spread of an object literal see them. *)
Definition entries (v : JsVal) : list (string * JsVal) :=
  match v with
  | JObj fields => fields
  | JArr items => imap (fun i x => (Z_to_string (Z.of_nat i), x)) items
  | _ => []
  end.

(** [o[k] = v]: the key keeps its place when it is there already. *)
Fixpoint set_prop (k : string) (v : JsVal) (fields : list (string * JsVal))
  : list (string * JsVal) :=
  match fields with
  | [] => [(k, v)]
  | (k', v') :: rest =>
      if String.eqb k k' then (k, v) :: rest else (k', v') :: set_prop k v rest
  end.


End Js.

(* ===================================================================== *)
(** * utils.js *)
(* ===================================================================== *)

Module Utils.
Import Js.

Section Fingerprint.

(** The SHA-256 digest in hexadecimal,
    [crypto.createHash("sha256").update(input).digest("hex")]. *)
Variable sha256_hex : string -> string.

Definition hashPayload (payload : JsVal) : string :=
  let input :=
    ser (JObj [ ("messages", or_else (prop payload "messages") (JArr []));
                ("tools", or_else (prop payload "tools") JNull);
                ("tool_choice", or_else (prop payload "tool_choice") JNull);
                ("response_format", or_else (prop payload "response_format") JNull) ]) in
  sha256_hex input.

End Fingerprint.

(** The first character of [s] matched by [/[0-2]/], as a number. *)
Fixpoint firstDecisionDigit (s : string) : option Z :=
  match s with
  | EmptyString => None
  | String c r =>
      if Ascii.eqb c "0"%char then Some 0
      else if Ascii.eqb c "1"%char then Some 1
      else if Ascii.eqb c "2"%char then Some 2
      else firstDecisionDigit r
  end.

Definition extractDecision (text : JsVal) : option Z :=
  if negb (truthy text) then None
  else firstDecisionDigit (toString text).

(** The [catch] branch of the source, [String(content)], is out of reach:
    [JSON.stringify] only throws on values that are no [JsVal] (cycles,
    big integers). *)
Definition coerceContent (content : JsVal) : string :=
  match content with
  | JNull | JUndefined => EmptyString
  | JStr s => s
  | _ => ser content
  end.

Definition truncate_marker : string := String newline "[TRUNCATED]".

(** [text.length] and [text.slice] count UTF-16 code units; a negative
    end of [slice] counts from the end of the text. *)
Definition truncate (text : string) (maxChars : Z) : string :=
  if is_empty text || (Z.of_nat (length16 text) <=? maxChars) then text
  else
    let stop :=
      if maxChars <? 0 then Z.max (Z.of_nat (length16 text) + maxChars) 0
      else maxChars in
    slice16 (Z.to_nat stop) text +:+ truncate_marker.

(** [messages.map(m => ({ role: m.role, content: m.content }))] *)
Fixpoint roleContentPairs (messages : list JsVal) : Result (list JsVal) :=
  match messages with
  | [] => Ok []
  | m :: rest =>
      match member m "role", member m "content" with
      | Ok role, Ok content =>
          match roleContentPairs rest with
          | Ok ps => Ok (JObj [("role", role); ("content", content)] :: ps)
          | Throw e => Throw e
          end
      | Throw e, _ => Throw e
      | _, Throw e => Throw e
      end
  end.

(** [list.find(m => m.role === "user")] *)
Fixpoint findUser (messages : list JsVal) : Result (option JsVal) :=
  match messages with
  | [] => Ok None
  | m :: rest =>
      match member m "role" with
      | Throw e => Throw e
      | Ok role => if is_str role "user" then Ok (Some m) else findUser rest
      end
  end.

Definition buildClassifierInput (payload : JsVal) (strategy : string) (maxChars : Z)
  : Result string :=
  let messages :=
    match prop payload "messages" with
    | JArr items => items
    | _ => []
    end in
  let serialized :=
    match roleContentPairs messages with
    | Ok ps => Ok (truncate (ser (JArr ps)) maxChars)
    | Throw e => Throw e
    end in
  if String.eqb strategy "full_messages" then serialized
  else
    match findUser (rev messages) with
    | Throw e => Throw e
    | Ok (Some lastUser) => Ok (truncate (coerceContent (prop lastUser "content")) maxChars)
    | Ok None => serialized
    end.

End Utils.

(* ===================================================================== *)
(** * Effects: what a run of the program does to the outside *)
(* ===================================================================== *)

Module Log.

Inductive Level : Type := Debug | Info | Warn | Error.

(** The observable steps of a run, in the order they happen. *)
Inductive Event : Type :=
| Logged (lvl : Level) (msg : string)
| ClassifierFetch (stream : bool) (timeoutMs : Z)
| Slept (ms : Z)
| CacheRead (key : string)
| CacheWrite (key value : string).

Definition is_fetch (ev : Event) : bool :=
  match ev with ClassifierFetch _ _ => true | _ => false end.

End Log.

(* ===================================================================== *)
(** * cache.js *)
(* ===================================================================== *)

Module Cache.
Import Js Log.

(** The connected client of the remote key/value store.  What a command
    returns, or throws, is up to the connection and the remote side. *)
Record RedisClient : Type := {
  client_get : string -> Result (option string);
  client_setEx : string -> Z -> string -> Result unit
}.

(** An entry of the in-process cache: its key, its value and the time at
    which it was stored. *)
Record Entry : Type := {
  entry_key : string;
  entry_value : string;
  entry_start : Z
}.

(** The [LRUCache] of the library [lru-cache], as [MemoryCache] uses it:
    at most [max] entries, the least recently used one making room for a
    new one, and entries that are stale once they are older than [ttl]
    milliseconds.  A [max] of 0 is no bound, a [ttl] of 0 no expiry.  The
    entries come most recently used first.  The clock is a parameter of
    the cache: [lru_clock n] is its reading at the [n]-th operation of the
    cache, and [lru_ops] counts the operations so far. *)
Record LruCache : Type := {
  lru_max : Z;
  lru_ttl : Z;
  lru_clock : nat -> Z;
  lru_ops : nat;
  lru_entries : list Entry
}.

(** The time of the operation that comes next *)
Definition lruNow (lru : LruCache) : Z := lru_clock lru (lru_ops lru).

Definition isStale (lru : LruCache) (entry : Entry) : bool :=
  (0 <? lru_ttl lru) && (lru_ttl lru <? lruNow lru - entry_start entry).

Definition entryOf (key : string) (entries : list Entry) : option Entry :=
  List.find (fun entry => String.eqb key (entry_key entry)) entries.

Definition without (key : string) (entries : list Entry) : list Entry :=
  List.filter (fun entry => negb (String.eqb key (entry_key entry))) entries.

(** [cache.get(key)] of the library: the value of an entry that is there
    and not stale. *)
Definition lruGet (lru : LruCache) (key : string) : option string :=
  match entryOf key (lru_entries lru) with
  | Some entry => if isStale lru entry then None else Some (entry_value entry)
  | None => None
  end.

(** The cache after that [get]: a stale entry is dropped, a live one
    becomes the most recently used; its age stays. *)
Definition lruAfterGet (lru : LruCache) (key : string) : LruCache :=
  {| lru_max := lru_max lru; lru_ttl := lru_ttl lru; lru_clock := lru_clock lru;
     lru_ops := S (lru_ops lru);
     lru_entries :=
       match entryOf key (lru_entries lru) with
       | Some entry =>
           if isStale lru entry then without key (lru_entries lru)
           else entry :: without key (lru_entries lru)
       | None => lru_entries lru
       end |}.

(** [cache.set(key, value)] of the library: the entry is stored anew, as
    the most recently used and with the age zero; when the key is new and
    the cache is full, the least recently used entry goes. *)
Definition lruSet (lru : LruCache) (key value : string) : LruCache :=
  let others := without key (lru_entries lru) in
  let kept :=
    if (0 <? lru_max lru) && (lru_max lru <=? Z.of_nat (length others))
    then List.removelast others else others in
  {| lru_max := lru_max lru; lru_ttl := lru_ttl lru; lru_clock := lru_clock lru;
     lru_ops := S (lru_ops lru);
     lru_entries :=
       {| entry_key := key; entry_value := value; entry_start := lruNow lru |} :: kept |}.

(** The three classes behind the [get]/[set] contract. *)
Inductive DecisionCache : Type :=
| NoopCache
| MemoryCache (lru : LruCache)
| RedisCache (client : RedisClient) (ttlSec : Z).

(** [new MemoryCache(maxEntries, ttlMs)], that is
    [new LRUCache({ max: maxEntries, ttl: ttlMs })]: the library refuses a
    negative [max] or [ttl], and a cache with neither. *)
Definition newMemoryCache (maxEntries ttlMs : Z) (clock : nat -> Z) : Result DecisionCache :=
  if maxEntries <? 0 then Throw (typeError "max option must be a nonnegative integer")
  else if ttlMs <? 0 then Throw (typeError "ttl must be a positive integer if specified")
  else if (maxEntries =? 0) && (ttlMs =? 0)
  then Throw (typeError "At least one of max, maxSize, or ttl is required")
  else Ok (MemoryCache {| lru_max := maxEntries; lru_ttl := ttlMs; lru_clock := clock;
                          lru_ops := 0; lru_entries := [] |}).

(** [new RedisCache(client, ttlMs)] *)
Definition newRedisCache (client : RedisClient) (ttlMs : Z) : DecisionCache :=
  RedisCache client (Z.max 1 (ttlMs / 1000)).

(** [cache.get(key)]; [None] is [null]. *)
Definition get (c : DecisionCache) (key : string) : Result (option string) :=
  match c with
  | NoopCache => Ok None
  | MemoryCache lru => Ok (lruGet lru key)
  | RedisCache client _ =>
      match client_get client key with
      | Ok value => Ok value
      | Throw e => Throw e
      end
  end.

(** The cache once [cache.get(key)] has run: only the in-process cache
    keeps track of its reads. *)
Definition afterGet (c : DecisionCache) (key : string) : DecisionCache :=
  match c with
  | MemoryCache lru => MemoryCache (lruAfterGet lru key)
  | _ => c
  end.

(** [cache.set(key, value)]: the outcome and the cache afterwards. *)
Definition set (c : DecisionCache) (key value : string) : Result unit * DecisionCache :=
  match c with
  | NoopCache => (Ok tt, c)
  | MemoryCache lru => (Ok tt, MemoryCache (lruSet lru key value))
  | RedisCache client ttlSec =>
      match client_setEx client key ttlSec value with
      | Ok _ => (Ok tt, c)
      | Throw e => (Throw e, c)
      end
  end.

Record CacheConfig : Type := {
  redisUrl : string;
  ttlMs : Z;
  maxEntries : Z;
  cache_enabled : bool
}.

(** [createDecisionCache(config, logger)]; [connect] is the outcome of
    [createClient({ url })] followed by [client.connect()], [clock] the
    clock that an in-process cache reads. *)
Definition createDecisionCache (config : CacheConfig)
    (connect : string -> Result RedisClient) (clock : nat -> Z)
  : Result DecisionCache * list Event :=
  if negb (cache_enabled config) then (Ok NoopCache, [])
  else
    let memory := newMemoryCache (maxEntries config) (ttlMs config) clock in
    if negb (is_empty (redisUrl config)) then
      match connect (redisUrl config) with
      | Ok client => (Ok (newRedisCache client (ttlMs config)), [])
      | Throw _ =>
          (memory, [Logged Warn "redis unavailable, falling back to memory cache"])
      end
    else (memory, []).

End Cache.

Module Eff.
Import Js Log Cache.

Record State : Type := {
  trace : list Event;
  store : DecisionCache
}.

(** A computation reads and extends the state, and returns, throws, or
    (the [None] case) is cut off for lack of fuel. *)
Definition M (A : Type) : Type := State -> option (Result A * State).

Definition ret {A} (a : A) : M A := fun st => Some (Ok a, st).

Definition throw {A} (e : JsError) : M A := fun st => Some (Throw e, st).

Definition bind {A B} (m : M A) (k : A -> M B) : M B :=
  fun st =>
    match m st with
    | None => None
    | Some (Ok a, st') => k a st'
    | Some (Throw e, st') => Some (Throw e, st')
    end.

(** [try { m } catch (err) { handler err }] *)
Definition tryCatch {A} (m : M A) (handler : JsError -> M A) : M A :=
  fun st =>
    match m st with
    | None => None
    | Some (Ok a, st') => Some (Ok a, st')
    | Some (Throw e, st') => handler e st'
    end.

Definition cutoff {A} : M A := fun _ => None.

Definition lift {A} (r : Result A) : M A :=
  match r with
  | Ok a => ret a
  | Throw e => throw e
  end.

(** The state once one more event has happened *)
Definition extend (st : State) (ev : Event) : State :=
  {| trace := trace st ++ [ev]; store := store st |}.

Definition emit (ev : Event) : M unit :=
  fun st => Some (Ok tt, extend st ev).

Definition log (lvl : Level) (msg : string) : M unit := emit (Logged lvl msg).

(** How many classifier calls went out so far. *)
Definition fetchCount : M nat :=
  fun st => Some (Ok (length (List.filter is_fetch (trace st))), st).

(** The state once the cache was read at a key *)
Definition afterRead (st : State) (key : string) : State :=
  {| trace := trace st ++ [CacheRead key]; store := Cache.afterGet (store st) key |}.

Definition cacheGet (key : string) : M (option string) :=
  fun st => Some (Cache.get (store st) key, afterRead st key).

Definition cacheSet (key value : string) : M unit :=
  fun st =>
    let '(r, c') := Cache.set (store st) key value in
    Some (r, {| trace := trace st ++ [CacheWrite key value]; store := c' |}).

Declare Scope eff_scope.
Delimit Scope eff_scope with eff.
Notation "'let*' x := m 'in' k" := (bind m (fun x => k))
  (at level 10, x name, m at level 100, k at level 200) : eff_scope.
Notation "m1 >> m2" := (bind m1 (fun _ => m2))
  (at level 100, m2 at level 200, right associativity) : eff_scope.

End Eff.

(* ===================================================================== *)
(** * classifier.js *)
(* ===================================================================== *)

Module Classifier.
Import Js Log Eff.
Local Open Scope eff_scope.

(** The classifier configuration, by the fields that steer the control
    flow of a classification.  The fields that only fill the request sent
    to the model (key, token cap, temperature, logit bias) and the warm-up
    settings are left out. *)
Record ClassifierConfig : Type := {
  enabled : bool;
  baseUrl : option string;
  model : string;
  systemPrompt : string;
  strategy : string;
  maxChars : Z;
  timeoutMs : Z;
  forceStream : bool;
  loadingRetryMs : option Z;
  loadingMaxRetries : option Z
}.

(** [{ ...config, timeoutMs: t }] *)
Definition withTimeout (config : ClassifierConfig) (t : Z) : ClassifierConfig :=
  {| enabled := enabled config; baseUrl := baseUrl config; model := model config;
     systemPrompt := systemPrompt config; strategy := strategy config;
     maxChars := maxChars config; timeoutMs := t;
     forceStream := forceStream config;
     loadingRetryMs := loadingRetryMs config;
     loadingMaxRetries := loadingMaxRetries config |}.

(** The body of a response as the reader hands it over: decoded chunks,
    then the end of the stream or a failed read. *)
Record Response : Type := {
  res_ok : bool;
  res_status : Z;
  res_chunks : list string;
  res_failure : option JsError
}.

(** What [fetch] does with one classifier call: it rejects (no connection,
    or the abort signal fired before the response arrived), or a response
    comes in. *)
Inductive FetchOutcome : Type :=
| Rejected (e : JsError)
| Responded (res : Response).

(** The rejection that an aborted [fetch] or an aborted body read
    produces. *)
Definition abortError : JsError :=
  mkError "AbortError" (NumCode 20) "This operation was aborted" None.

Definition noDecisionError : JsError :=
  mkError "Error" NoCode "classifier returned no decision" None.

Definition modelLoadingError (status : Z) (text : string) : JsError :=
  mkError "Error" (StrCode "MODEL_LOADING")
    ("classifier model loading: " +:+ Z_to_string status +:+ " " +:+ text)
    (Some text).

Definition classifierError (status : Z) (text : string) : JsError :=
  mkError "Error" NoCode
    ("classifier error: " +:+ Z_to_string status +:+ " " +:+ text) None.

Definition isAbortError (err : JsError) : bool :=
  if String.eqb (err_name err) "AbortError" then true
  else if match err_code err with NumCode 20 => true | _ => false end then true
  else includes (toLowerCase (err_message err)) "aborted".

Definition isModelLoadingMessage (text : string) : bool :=
  includes (toLowerCase text) "loading model".

Definition isModelLoadingError (err : JsError) : bool :=
  if match err_code err with
     | StrCode c => String.eqb c "MODEL_LOADING"
     | _ => false
     end then true
  else
    isModelLoadingMessage
      match err_body err with
      | Some b => if is_empty b then err_message err else b
      | None => err_message err
      end.

(** [res.text()] and its guarded form *)
Definition bodyText (res : Response) : Result string :=
  match res_failure res with
  | Some e => Throw e
  | None => Ok (String.concat EmptyString (res_chunks res))
  end.

Definition safeReadText (res : Response) : string :=
  match bodyText res with
  | Ok t => t
  | Throw _ => EmptyString
  end.

Section Decode.

(** [JSON.parse] *)
Variable JSON_parse : string -> Result JsVal.

(** [json?.choices?.[0]?.<field>?.content ?? json?.choices?.[0]?.text ?? ""] *)
Definition choiceText (field : string) (json : JsVal) : JsVal :=
  let choice := at_index (prop json "choices") 0 in
  coalesce (prop (prop choice field) "content")
    (coalesce (prop choice "text") (JStr EmptyString)).

(** What the scan of the complete lines of one chunk ends with. *)
Inductive LineScan : Type :=
| Decided (d : Z)
| SawDone
| NoDigitYet.

Fixpoint scanLines (lines : list string) : LineScan :=
  match lines with
  | [] => NoDigitYet
  | line :: rest =>
      let trimmed := trim line in
      if negb (startsWith trimmed "data:") then scanLines rest
      else
        let data := trim (slice_from 5 trimmed) in
        if String.eqb data "[DONE]" then SawDone
        else
          match JSON_parse data with
          | Throw _ => scanLines rest
          | Ok json =>
              match Utils.extractDecision (choiceText "delta" json) with
              | Some d => Decided d
              | None => scanLines rest
              end
          end
  end.

(** [readDecisionFromSse]: the loop over the chunks of the body; [buffer]
    holds the unfinished last line. *)
Fixpoint readDecisionLoop (chunks : list string) (failure : option JsError)
    (buffer : string) : Result (option Z) :=
  match chunks with
  | [] =>
      match failure with
      | Some e => Throw e
      | None => Ok None
      end
  | value :: more =>
      let lines := splitLines (buffer +:+ value) in
      match scanLines (List.removelast lines) with
      | Decided d => Ok (Some d)
      | SawDone => Ok None
      | NoDigitYet => readDecisionLoop more failure (List.last lines EmptyString)
      end
  end.

Definition readDecisionFromSse (res : Response) : Result (option Z) :=
  readDecisionLoop (res_chunks res) (res_failure res) EmptyString.

(** [res.json()] *)
Definition bodyJson (res : Response) : Result JsVal :=
  match bodyText res with
  | Ok t => JSON_parse t
  | Throw e => Throw e
  end.

(** The part of [runClassifier] that follows [fetch]. *)
Definition decodeOutcome (stream : bool) (o : FetchOutcome) : Result (option Z) :=
  match o with
  | Rejected e => Throw e
  | Responded res =>
      if negb (res_ok res) then
        let text := safeReadText res in
        if isModelLoadingMessage text
        then Throw (modelLoadingError (res_status res) text)
        else Throw (classifierError (res_status res) text)
      else if stream then readDecisionFromSse res
      else
        match bodyJson res with
        | Throw e => Throw e
        | Ok json => Ok (Utils.extractDecision (choiceText "message" json))
        end
  end.

(** The classifier endpoint: the outcome of the [n]-th call of the run,
    sent in the given mode with the given time limit. *)
Variable fetch : nat -> bool -> Z -> FetchOutcome.

Definition runClassifier (config : ClassifierConfig) (stream : bool) : M (option Z) :=
  let* n := fetchCount in
  emit (ClassifierFetch stream (timeoutMs config)) >>
  lift (decodeOutcome stream (fetch n stream (timeoutMs config))).

Definition attemptClassification (config : ClassifierConfig) : M Z :=
  let preferStream := forceStream config in
  let* primaryDecision := runClassifier config preferStream in
  match primaryDecision with
  | Some d => ret d
  | None =>
      if negb preferStream then
        let* fallbackDecision := runClassifier config true in
        match fallbackDecision with
        | None => throw noDecisionError
        | Some d => ret d
        end
      else
        let* fallbackDecision := runClassifier config false in
        match fallbackDecision with
        | None => throw noDecisionError
        | Some d => ret d
        end
  end.

(** The [while (true)] loop of [classifyRequest]; one unit of fuel per
    round. *)
Fixpoint classifyLoop (fuel : nat) (loadingRetries : Z) (timeoutRetried : bool)
    (currentConfig : ClassifierConfig) : M Z :=
  match fuel with
  | O => cutoff
  | S fuel' =>
      tryCatch
        (let* decision := attemptClassification currentConfig in
         log Debug "classifier decision" >>
         ret decision)
        (fun err =>
           if isAbortError err && negb timeoutRetried then
             let retryTimeout := Z.max (timeoutMs currentConfig * 2) 8000 in
             log Warn "classifier timeout, retrying once" >>
             classifyLoop fuel' loadingRetries true (withTimeout currentConfig retryTimeout)
           else if isModelLoadingError err &&
                   (loadingRetries <? default 1 (loadingMaxRetries currentConfig)) then
             let delay := default 1000 (loadingRetryMs currentConfig) in
             log Warn "classifier model loading, retrying" >>
             emit (Slept delay) >>
             classifyLoop fuel' (loadingRetries + 1) timeoutRetried currentConfig
           else throw err)
  end.

(** Rounds that the loop can go through at most: the first one, one more
    after a timeout, one more per model-loading retry. *)
Definition rounds (config : ClassifierConfig) : nat :=
  S (S (Z.to_nat (default 1 (loadingMaxRetries config)))).

Definition classifyRequest (payload : JsVal) (config : ClassifierConfig) : M Z :=
  let* input := lift (Utils.buildClassifierInput payload (strategy config) (maxChars config)) in
  classifyLoop (rounds config) 0 false config.

End Decode.

(** The events of one attempt: one or two calls, each under the time
    limit [t]. *)
Definition callsOf (t : Z) (evs : list Event) : Prop :=
  evs <> [] /\ Forall (fun ev => exists stream, ev = ClassifierFetch stream t) evs.

(** The rounds that are left at most in a state of the loop *)
Definition roundsLeft (config : ClassifierConfig) (loadingRetries : Z) (timeoutRetried : bool)
  : nat :=
  S ((if timeoutRetried then 0 else 1)
     + Z.to_nat (default 1 (loadingMaxRetries config) - loadingRetries)).

End Classifier.

(* ===================================================================== *)
(** * config.js *)
(* ===================================================================== *)

Module Config.
Import Js.
Local Open Scope result_scope.

(** An upstream descriptor.  Its fields are what the environment or the
    upstreams file put there, whatever their type. *)
Record Upstream : Type := {
  up_name : JsVal;
  up_provider : JsVal;
  up_baseUrl : JsVal;
  up_apiKey : JsVal;
  up_model : JsVal;
  up_apiVersion : JsVal;
  up_deployment : JsVal;
  up_headers : JsVal;
  up_timeoutMs : JsVal
}.

(** [upstream.model = m] *)
Definition withModel (u : Upstream) (m : JsVal) : Upstream :=
  {| up_name := up_name u; up_provider := up_provider u; up_baseUrl := up_baseUrl u;
     up_apiKey := up_apiKey u; up_model := m; up_apiVersion := up_apiVersion u;
     up_deployment := up_deployment u; up_headers := up_headers u;
     up_timeoutMs := up_timeoutMs u |}.

(** The three tiers; [None] is a tier set to [null]. *)
Record Upstreams : Type := {
  cheap : option Upstream;
  medium : option Upstream;
  frontier : option Upstream
}.

(** The frozen configuration, without the settings of the listener and of
    the logger. *)
Record Config : Type := {
  routerApiKey : string;
  classifier : Classifier.ClassifierConfig;
  cache : Cache.CacheConfig;
  azureApiVersion : string;
  anthropicVersion : string;
  upstreams : Upstreams
}.

Definition withCheap (config : Config) (u : Upstream) : Config :=
  {| routerApiKey := routerApiKey config; classifier := classifier config;
     cache := cache config; azureApiVersion := azureApiVersion config;
     anthropicVersion := anthropicVersion config;
     upstreams := {| cheap := Some u; medium := medium (upstreams config);
                     frontier := frontier (upstreams config) |} |}.

Definition normalizeBaseUrl (url : JsVal) : Result JsVal :=
  if negb (truthy url) then Ok url
  else match url with
       | JStr s => Ok (JStr (stripTrailingSlashes s))
       | _ => Throw (typeError "url.replace is not a function")
       end.

(** [a === b] where both sides are strings *)
Definition same_string (a b : JsVal) : bool :=
  match a, b with
  | JStr x, JStr y => String.eqb x y
  | _, _ => false
  end.

Definition str_or_null (o : option string) : JsVal :=
  match o with
  | Some s => JStr s
  | None => JNull
  end.

(** [upstream?.baseUrl] of a tier *)
Definition tierBaseUrl (tier : option Upstream) : JsVal :=
  match tier with
  | Some u => up_baseUrl u
  | None => JUndefined
  end.

(** The statements that follow the [config] literal.  First the cheap
    tier is put on the model of the classifier when both share a base
    URL. *)
Definition colocate (config : Config) : Result Config :=
  let cls := classifier config in
  let classifierBaseUrl := str_or_null (Classifier.baseUrl cls) in
  match cheap (upstreams config) with
  | Some cheapUp =>
      if Classifier.enabled cls && truthy (up_baseUrl cheapUp) && truthy classifierBaseUrl
      then
        let? cheapBase := normalizeBaseUrl (up_baseUrl cheapUp) in
        let? classifierBase := normalizeBaseUrl classifierBaseUrl in
        if truthy cheapBase && truthy classifierBase && same_string cheapBase classifierBase
        then Ok (withCheap config (withModel cheapUp (JStr (Classifier.model cls))))
        else Ok config
      else Ok config
  | None => Ok config
  end.

(** Then the required fields are checked. *)
Definition requireFields (config : Config) : Result Config :=
  let cls := classifier config in
  if Classifier.enabled cls && negb (truthy (str_or_null (Classifier.baseUrl cls)))
  then Throw (plainError "CLASSIFIER_BASE_URL is required")
  else if negb (truthy (tierBaseUrl (frontier (upstreams config))))
  then Throw (plainError "FRONTIER_BASE_URL (or UPSTREAMS_JSON.frontier.baseUrl) is required")
  else if Classifier.enabled cls && negb (truthy (tierBaseUrl (cheap (upstreams config))))
  then Throw (plainError "CHEAP_BASE_URL or CLASSIFIER_BASE_URL is required for cheap route")
  else if Classifier.enabled cls && negb (truthy (tierBaseUrl (medium (upstreams config))))
  then Throw (plainError "MEDIUM_BASE_URL is required for medium route")
  else Ok config.

Definition finishConfig (config : Config) : Result Config :=
  let? config' := colocate config in
  requireFields config'.

Section Load.

(** [process.env], once the [.env] file is merged in *)
Variable processEnv : gmap string string.

(** The content of the file at a path, [None] where there is none *)
Variable readFile : string -> option string.

Variable JSON_parse : string -> Result JsVal.

(** The value of a variable; unset and empty count the same. *)
Definition envRaw (name : string) : option string :=
  match processEnv !! name with
  | Some value => if is_empty value then None else Some value
  | None => None
  end.

(** [env(name, fallback)] with a string for fallback *)
Definition env (name : string) (fallback : string) : string :=
  default fallback (envRaw name).

(** [env(name, fallback)] where the fallback may be [null] *)
Definition envVal (name : string) (fallback : JsVal) : JsVal :=
  match envRaw name with
  | Some value => JStr value
  | None => fallback
  end.

Definition envInt (name : string) (fallback : Z) : Z :=
  match envRaw name with
  | None => fallback
  | Some value => default fallback (parseInt10 value)
  end.

Definition envBool (name : string) (fallback : bool) : bool :=
  match envRaw name with
  | None => fallback
  | Some value => String.eqb (toLowerCase value) "true" || String.eqb value "1"
  end.

Definition parseJson (name : string) : Result JsVal :=
  match envRaw name with
  | None => Ok JNull
  | Some value =>
      match JSON_parse value with
      | Ok v => Ok v
      | Throw _ => Throw (plainError ("Invalid JSON in " +:+ name))
      end
  end.

(** The path is looked up as given; resolving it against the working
    directory is the business of [readFile]. *)
Definition readJsonFile (filePath : string) : Result JsVal :=
  if is_empty filePath then Ok JNull
  else match readFile filePath with
       | None => Ok JNull
       | Some content =>
           match JSON_parse content with
           | Ok v => Ok v
           | Throw _ => Throw (plainError ("Invalid JSON in " +:+ filePath))
           end
       end.

Definition normalizeUpstream (input : JsVal) (fallback : Upstream) : option Upstream :=
  match input with
  | JNull => None
  | _ =>
      if negb (truthy input) then Some fallback
      else Some
        {| up_name := coalesce (prop input "name") (up_name fallback);
           up_provider := coalesce (prop input "provider") (up_provider fallback);
           up_baseUrl := coalesce (prop input "baseUrl") (up_baseUrl fallback);
           up_apiKey := coalesce (prop input "apiKey") (up_apiKey fallback);
           up_model := coalesce (prop input "model") (up_model fallback);
           up_apiVersion := coalesce (prop input "apiVersion") (up_apiVersion fallback);
           up_deployment := coalesce (prop input "deployment") (up_deployment fallback);
           up_headers := coalesce (prop input "headers") (up_headers fallback);
           up_timeoutMs := coalesce (prop input "timeoutMs") (up_timeoutMs fallback) |}
  end.

(** [v && typeof v === "object"] *)
Definition is_object (v : JsVal) : bool :=
  match v with
  | JObj _ | JArr _ => true
  | _ => false
  end.

(** The descriptor of one tier as the environment gives it; [prefix] is
    the tier in capitals. *)
Definition envUpstream (prefix tierName : string) (baseUrlFallback : JsVal)
    (timeoutFallback : Z) : Result Upstream :=
  let? headers := parseJson (prefix +:+ "_HEADERS") in
  Ok {| up_name := JStr (env (prefix +:+ "_NAME") tierName);
        up_provider := JStr (env (prefix +:+ "_PROVIDER") EmptyString);
        up_baseUrl := envVal (prefix +:+ "_BASE_URL") baseUrlFallback;
        up_apiKey := JStr (env (prefix +:+ "_API_KEY") EmptyString);
        up_model := envVal (prefix +:+ "_MODEL") JNull;
        up_apiVersion := JStr (env (prefix +:+ "_API_VERSION") EmptyString);
        up_deployment := JStr (env (prefix +:+ "_DEPLOYMENT") EmptyString);
        up_headers := headers;
        up_timeoutMs :=
          JNum (envInt (prefix +:+ "_TIMEOUT_MS") (envInt "UPSTREAM_TIMEOUT_MS" timeoutFallback)) |}.

Definition overrideWith (json : JsVal) (cheapUp mediumUp frontierUp : Upstream) : Upstreams :=
  {| cheap := normalizeUpstream (prop json "cheap") cheapUp;
     medium := normalizeUpstream (prop json "medium") mediumUp;
     frontier := normalizeUpstream (prop json "frontier") frontierUp |}.

Definition buildUpstreams : Result Upstreams :=
  let? cheapUp := envUpstream "CHEAP" "cheap" (envVal "CLASSIFIER_BASE_URL" JNull) 30000 in
  let? mediumUp := envUpstream "MEDIUM" "medium" JNull 45000 in
  let? frontierUp := envUpstream "FRONTIER" "frontier" JNull 60000 in
  let upstreamsFile := env "UPSTREAMS_FILE" EmptyString in
  let? first := readJsonFile upstreamsFile in
  let? fileJson := if truthy first then Ok first else readJsonFile "upstreams.json" in
  if is_object fileJson then Ok (overrideWith fileJson cheapUp mediumUp frontierUp)
  else
    let? json := parseJson "UPSTREAMS_JSON" in
    if is_object json then Ok (overrideWith json cheapUp mediumUp frontierUp)
    else Ok {| cheap := Some cheapUp; medium := Some mediumUp; frontier := Some frontierUp |}.

Definition default_model : string := "meta-llama/Meta-Llama-3.1-8B-Instruct".

Definition default_prompt : string :=
  "You are a routing classifier. Return only 0, 1, or 2. 0 = simple/cheap tasks. 1 = medium tasks. 2 = complex/frontier tasks.".

(** The module body: the upstreams, the [config] literal, then
    [finishConfig]. *)
Definition loadConfig : Result Config :=
  let? ups := buildUpstreams in
  let? _ := parseJson "CLASSIFIER_LOGIT_BIAS" in
  finishConfig
    {| routerApiKey := env "ROUTER_API_KEY" EmptyString;
       classifier :=
         {| Classifier.enabled := envBool "CLASSIFIER_ENABLED" true;
            Classifier.baseUrl := envRaw "CLASSIFIER_BASE_URL";
            Classifier.model := env "CLASSIFIER_MODEL" default_model;
            Classifier.systemPrompt := env "CLASSIFIER_SYSTEM_PROMPT" default_prompt;
            Classifier.strategy := env "CLASSIFIER_STRATEGY" "last_user";
            Classifier.maxChars := envInt "CLASSIFIER_MAX_CHARS" 8000;
            Classifier.timeoutMs := envInt "CLASSIFIER_TIMEOUT_MS" 800;
            Classifier.forceStream := envBool "CLASSIFIER_FORCE_STREAM" true;
            Classifier.loadingRetryMs := Some (envInt "CLASSIFIER_LOADING_RETRY_MS" 1200);
            Classifier.loadingMaxRetries := Some (envInt "CLASSIFIER_LOADING_MAX_RETRIES" 2) |};
       cache :=
         {| Cache.redisUrl := env "REDIS_URL" EmptyString;
            Cache.ttlMs := envInt "CACHE_TTL_MS" (60 * 60 * 1000);
            Cache.maxEntries := envInt "CACHE_MAX" 50000;
            Cache.cache_enabled := envBool "CACHE_ENABLED" true |};
       azureApiVersion := env "AZURE_API_VERSION" "2024-10-21";
       anthropicVersion := env "ANTHROPIC_VERSION" "2023-06-01";
       upstreams := ups |}.

End Load.

End Config.

(* ===================================================================== *)
(** * providers: the Azure request, the SSE reader, the stream writers *)
(* ===================================================================== *)

Module Providers.
Import Js Config.
Local Open Scope result_scope.

(** ** azure_openai.js *)

Section Azure.

(** The branch of [buildAzureUrl] for a base URL that already names a
    deployment goes through the [URL] class: [viaUrl trimmed apiVersion] is
    what [url.toString()] returns there, or the error of [new URL]. *)
Variable viaUrl : string -> string -> Result string.








End Azure.

(** ** sse.js *)

(** The data of the complete lines of one chunk, up to a [[DONE]] line;
    the flag tells whether that line was met. *)
Fixpoint dataLines (lines : list string) : list string * bool :=
  match lines with
  | [] => ([], false)
  | line :: rest =>
      let trimmed := trim line in
      if is_empty trimmed || startsWith trimmed ":" then dataLines rest
      else if startsWith trimmed "data:" then
        let data := trim (slice_from 5 trimmed) in
        if String.eqb data "[DONE]" then ([], true)
        else let '(ds, done) := dataLines rest in (data :: ds, done)
      else dataLines rest
  end.

(** [readSse]: all that the generator yields for a body, and the error of
    a failed read the consumer runs into after that. *)
Fixpoint readSseLoop (chunks : list string) (failure : option JsError) (buffer : string)
  : list string * option JsError :=
  match chunks with
  | [] => ([], failure)
  | value :: more =>
      let lines := splitLines (buffer +:+ value) in
      let '(ds, done) := dataLines (List.removelast lines) in
      if done then (ds, None)
      else
        let '(ds', f) := readSseLoop more failure (List.last lines EmptyString) in
        (ds ++ ds', f)
  end.

Definition readSse (res : Classifier.Response) : list string * option JsError :=
  readSseLoop (Classifier.res_chunks res) (Classifier.res_failure res) EmptyString.

(** ** helpers.js: the writers of the translated stream *)

(** One write on the hijacked response. *)
Inductive Frame : Type :=
| Data (payload : JsVal)
| Done.

(** The bytes of a frame on the wire *)
Definition wire (f : Frame) : string :=
  match f with
  | Data payload => "data: " +:+ ser payload +:+ String newline (String newline EmptyString)
  | Done => "data: [DONE]" +:+ String newline (String newline EmptyString)
  end.

(** The response under translation: the frames written so far, whether the
    response was ended, and the usage objects handed to [recordUsage]. *)
Record Reply : Type := {
  status : Z;
  frames : list Frame;
  ended : bool;
  recorded : list JsVal
}.

(** The two kinds of chunk that the wire format of a translated stream
    knows: a content chunk, with a non-empty [delta.content], and the
    terminator, with an empty [delta] and the finish reason [stop]. *)
Definition firstChoice (payload : JsVal) : JsVal :=
  at_index (prop payload "choices") 0.

Definition isContentChunk (f : Frame) : bool :=
  match f with
  | Data payload =>
      is_str (prop payload "object") "chat.completion.chunk"
      && truthy (prop (prop (firstChoice payload) "delta") "content")
  | Done => false
  end.

Definition isTerminator (f : Frame) : bool :=
  match f with
  | Data payload =>
      is_str (prop payload "object") "chat.completion.chunk"
      && match prop (firstChoice payload) "delta" with
         | JObj [] => true
         | _ => false
         end
      && is_str (prop (firstChoice payload) "finish_reason") "stop"
  | Done => false
  end.

(** The frames of a reply under translation are content chunks only *)
Definition onlyContent (reply : Reply) : Prop :=
  Forall (fun f => isContentChunk f = true) (frames reply).

(** A step of a streaming loop that writes content chunks only *)
Definition contentStep (step : Reply * bool -> string -> (Reply * bool) * option JsError)
  : Prop :=
  forall st data, onlyContent (fst st) -> onlyContent (fst (fst (step st data))).

Section Writers.

(** [Math.random().toString(36).slice(2)] and [Date.now()] at the [n]-th
    write of the response *)
Variable randomSuffix : nat -> string.
Variable nowMs : nat -> Z.

(** [initOpenAiStream(reply, upstreamStatus)] *)
Definition initOpenAiStream (upstreamStatus : Z) : Reply :=
  {| status := if upstreamStatus =? 0 then 200 else upstreamStatus;
     frames := []; ended := false; recorded := [] |}.

Definition chunkPayload (n : nat) (text model : JsVal) : JsVal :=
  JObj [ ("id", JStr ("chatcmpl_" +:+ randomSuffix n));
         ("object", JStr "chat.completion.chunk");
         ("created", JNum (nowMs n / 1000));
         ("model", or_else model (JStr "unknown"));
         ("choices",
          JArr [ JObj [ ("index", JNum 0);
                        ("delta", JObj [("content", text)]);
                        ("finish_reason", JNull) ] ]) ].

Definition writeOpenAiChunk (reply : Reply) (text model : JsVal) : Reply :=
  {| status := status reply;
     frames := frames reply ++ [Data (chunkPayload (length (frames reply)) text model)];
     ended := ended reply; recorded := recorded reply |}.

Definition writeOpenAiDone (reply : Reply) : Reply :=
  {| status := status reply; frames := frames reply ++ [Done];
     ended := true; recorded := recorded reply |}.

Definition recordUsage (reply : Reply) (usage : JsVal) : Reply :=
  {| status := status reply; frames := frames reply;
     ended := ended reply; recorded := recorded reply ++ [usage] |}.

Variable JSON_parse : string -> Result JsVal.

(** ** The streaming branches of the translating adapters

    Each loop takes the data lines in turn; its state is the reply and the
    [usageRecorded] flag. *)

(** anthropic.js *)
Definition anthropicEvent (model : JsVal) (st : Reply * bool) (data : string)
  : (Reply * bool) * option JsError :=
  let '(reply, usageRecorded) := st in
  match JSON_parse data with
  | Throw _ => (st, None)
  | Ok json =>
      let st1 :=
        if negb usageRecorded && is_str (prop json "type") "message_start"
           && truthy (prop (prop json "message") "usage")
        then (recordUsage reply (prop (prop json "message") "usage"), true)
        else st in
      match member json "type" with
      | Throw e => (st1, Some e)
      | Ok type =>
          if is_str type "content_block_delta" && truthy (prop (prop json "delta") "text")
          then ((writeOpenAiChunk (fst st1) (prop (prop json "delta") "text") model, snd st1),
                None)
          else (st1, None)
      end
  end.

(** gemini.js *)
Fixpoint partTexts (parts : list JsVal) : Result (list JsVal) :=
  match parts with
  | [] => Ok []
  | part :: rest =>
      let? text := member part "text" in
      let? texts := partTexts rest in
      Ok (or_else text (JStr EmptyString) :: texts)
  end.

Definition extractGeminiText (json : JsVal) : Result JsVal :=
  match prop json "candidates" with
  | JArr (first :: _) =>
      match prop (prop first "content") "parts" with
      | JArr parts =>
          let? texts := partTexts parts in
          Ok (JStr (join EmptyString texts))
      | _ => Ok (or_else (prop (prop first "content") "text") (JStr EmptyString))
      end
  | _ => Ok (JStr EmptyString)
  end.

Definition geminiEvent (model : JsVal) (st : Reply * bool) (data : string)
  : (Reply * bool) * option JsError :=
  let '(reply, usageRecorded) := st in
  match JSON_parse data with
  | Throw _ => (st, None)
  | Ok json =>
      let st1 :=
        if negb usageRecorded && truthy (prop json "usageMetadata")
        then (recordUsage reply (prop json "usageMetadata"), true)
        else st in
      match extractGeminiText json with
      | Throw e => (st1, Some e)
      | Ok text =>
          if truthy text then ((writeOpenAiChunk (fst st1) text model, snd st1), None)
          else (st1, None)
      end
  end.

(** cohere.js *)
Definition extractCohereStreamText (json : JsVal) : JsVal :=
  if is_str (prop json "type") "content-delta"
  then or_else (prop (prop (prop (prop json "delta") "message") "content") "text")
         (JStr EmptyString)
  else JStr EmptyString.

Definition cohereEvent (model : JsVal) (st : Reply * bool) (data : string)
  : (Reply * bool) * option JsError :=
  let '(reply, usageRecorded) := st in
  match JSON_parse data with
  | Throw _ => (st, None)
  | Ok json =>
      let usage :=
        or_else (prop (prop (prop json "response") "meta") "tokens")
          (prop (prop json "meta") "tokens") in
      let st1 :=
        if negb usageRecorded && truthy usage
        then (recordUsage reply usage, true)
        else st in
      let text := extractCohereStreamText json in
      if truthy text then ((writeOpenAiChunk (fst st1) text model, snd st1), None)
      else (st1, None)
  end.

(** The [for await] loop: the events in turn, as long as none throws.
    What was written stays written when one does. *)
Fixpoint forEachEvent (step : Reply * bool -> string -> (Reply * bool) * option JsError)
    (events : list string) (st : Reply * bool) : Reply * option JsError :=
  match events with
  | [] => (fst st, None)
  | data :: rest =>
      match step st data with
      | (st', None) => forEachEvent step rest st'
      | (st', Some e) => (fst st', Some e)
      end
  end.

(** [if (payload.stream) { ... }] for a response that is [ok]: open the
    stream, translate the events, close with [writeOpenAiDone].  The result
    is the reply as the client sees it and the error that cut the branch
    short, if any. *)
Definition streamBranch (step : Reply * bool -> string -> (Reply * bool) * option JsError)
    (res : Classifier.Response) : Reply * option JsError :=
  let '(events, failure) := readSse res in
  match forEachEvent step events (initOpenAiStream (Classifier.res_status res), false) with
  | (reply, Some e) => (reply, Some e)
  | (reply, None) =>
      match failure with
      | Some e => (reply, Some e)
      | None => (writeOpenAiDone reply, None)
      end
  end.

Definition proxyAnthropicStream (model : JsVal) (res : Classifier.Response) :=
  streamBranch (anthropicEvent model) res.

Definition proxyGeminiStream (model : JsVal) (res : Classifier.Response) :=
  streamBranch (geminiEvent model) res.

Definition proxyCohereStream (model : JsVal) (res : Classifier.Response) :=
  streamBranch (cohereEvent model) res.

End Writers.

End Providers.

(* ===================================================================== *)
(** * server.js *)
(* ===================================================================== *)

Module Server.
Import Js Log Eff Config.
Local Open Scope eff_scope.

Inductive Endpoint : Type :=
| PostChatCompletions
| GetHealth
| GetUsage
| GetDashboard.

Record Request : Type := {
  endpoint : Endpoint;
  authorization : option string;
  body : JsVal
}.

Inductive Route : Type := cheap | medium | frontier.

(** [config.upstreams[route]] *)
Definition upstreamOf (config : Config) (route : Route) : option Upstream :=
  match route with
  | cheap => Config.cheap (upstreams config)
  | medium => Config.medium (upstreams config)
  | frontier => Config.frontier (upstreams config)
  end.

(** What the client gets: an error body [{ error }] under a status code,
    the answer of a read-only endpoint, or the response that the adapter of
    the chosen upstream produces, which carries the decision. *)
Inductive Response : Type :=
| ErrorReply (code : Z) (error : string)
| HealthReply (classifierEnabled : bool) (classifierUrl cheapUrl mediumUrl frontierUrl : JsVal)
| UsageReply
| DashboardReply
| Proxied (route : Route) (decision : JsNum) (upstream : option Upstream).

(** The [onRequest] hook; [Some] is the reply it sends.  A request that
    the hook has answered does not reach its handler. *)
Definition authHook (config : Config) (req : Request) : option Response :=
  if is_empty (routerApiKey config) then None
  else
    let auth := default EmptyString (authorization req) in
    let token := if startsWith auth "Bearer " then slice_from 7 auth else auth in
    if negb (String.eqb token (routerApiKey config))
    then Some (ErrorReply 401 "unauthorized")
    else None.

Definition health (config : Config) : Response :=
  HealthReply (Classifier.enabled (classifier config))
    (str_or_null (Classifier.baseUrl (classifier config)))
    (tierBaseUrl (Config.cheap (upstreams config)))
    (tierBaseUrl (Config.medium (upstreams config)))
    (tierBaseUrl (Config.frontier (upstreams config))).

Definition isNaN (d : JsNum) : bool :=
  match d with NaN => true | _ => false end.

Definition routeOf (decision : JsNum) : Route :=
  match decision with
  | Int 0 => cheap
  | Int 1 => medium
  | _ => frontier
  end.

Section Handlers.

Variable sha256_hex : string -> string.
Variable JSON_parse : string -> Result JsVal.
Variable fetch : nat -> bool -> Z -> Classifier.FetchOutcome.

(** [Number(s)] *)
Variable toNumber : string -> JsNum.

Variable config : Config.

(** The cache lookup of the handler: [decision] stays [null], here
    [None], when caching is off or the key is not there. *)
Definition lookup (hash : string) : M (option JsNum) :=
  if Cache.cache_enabled (Config.cache config) then
    let* cached := cacheGet hash in
    ret (option_map toNumber cached)
  else ret None.

(** The guarded block of the handler: classify, store the digit, and on
    any error fall back to the decision 2. *)
Definition classifyAndStore (payload : JsVal) (hash : string) : M JsNum :=
  tryCatch
    (let* d := Classifier.classifyRequest JSON_parse fetch payload (classifier config) in
     (if Cache.cache_enabled (Config.cache config)
      then cacheSet hash (Z_to_string d) else ret tt) >>
     ret (Int d))
    (fun err =>
       log Warn "classifier failed, falling back to frontier" >>
       ret (Int 2)).

(** The end of the handler: the route of the decision, its upstream, and
    the call of the adapter, which answers the client. *)
Definition dispatch (decision : JsNum) : M Response :=
  let route := routeOf decision in
  ret (Proxied route decision (upstreamOf config route)).

(** The handler of [POST /v1/chat/completions] *)
Definition chatCompletions (payload : JsVal) : M Response :=
  if negb (truthy payload) || negb (truthy (prop payload "messages"))
  then ret (ErrorReply 400 "invalid_request")
  else
    let* decision :=
      if Classifier.enabled (classifier config) then
        let hash := Utils.hashPayload sha256_hex payload in
        let* decision := lookup hash in
        match decision with
        | Some d => if isNaN d then classifyAndStore payload hash else ret d
        | None => classifyAndStore payload hash
        end
      else ret (Int 2) in
    dispatch decision.

Definition handle (req : Request) : M Response :=
  match endpoint req with
  | PostChatCompletions => chatCompletions (body req)
  | GetHealth => ret (health config)
  | GetUsage => ret UsageReply
  | GetDashboard => ret DashboardReply
  end.

(** A request through the hook, its handler and the error handler of the
    application. *)
Definition serve (req : Request) : M Response :=
  match authHook config req with
  | Some reply => ret reply
  | None =>
      tryCatch (handle req)
        (fun err =>
           log Error "request error" >>
           ret (ErrorReply 500 "internal_error"))
  end.

End Handlers.

(** The state in which the classifier is called: the cache was read
    before when caching is on. *)
Definition lookedUp (config : Config) (hash : string) (st : State) : State :=
  if Cache.cache_enabled (Config.cache config) then afterRead st hash else st.

(** A run that starts with the given cache and an empty trace *)
Definition run {A} (m : M A) (c : Cache.DecisionCache) : option (Result A * State) :=
  m {| trace := []; store := c |}.

End Server.

(* ===================================================================== *)
(** * Concrete inputs used by the examples below *)
(* ===================================================================== *)

Module Samples.
Import Js.

Definition userMessage (text : string) : JsVal :=
  JObj [("role", JStr "user"); ("content", JStr text)].

(** A content array of two parts: a bare string and a text part. *)
Definition two_parts : JsVal :=
  JArr [JStr "Hi"; JObj [("type", JStr "text"); ("text", JStr " there")]].

(** Two requests for one task: same messages, different model, stream
    flag and temperature. *)
Definition payload_a : JsVal :=
  JObj [("model", JStr "gpt-4o"); ("messages", JArr [userMessage "2+2?"]);
        ("temperature", JNum 0)].

Definition payload_b : JsVal :=
  JObj [("messages", JArr [userMessage "2+2?"]); ("model", JStr "small");
        ("stream", JBool true); ("temperature", JNum 1)].

Definition upstream (name baseUrl : string) (model : JsVal) : Config.Upstream :=
  {| Config.up_name := JStr name; Config.up_provider := JStr EmptyString;
     Config.up_baseUrl := JStr baseUrl; Config.up_apiKey := JStr EmptyString;
     Config.up_model := model; Config.up_apiVersion := JStr EmptyString;
     Config.up_deployment := JStr EmptyString; Config.up_headers := JNull;
     Config.up_timeoutMs := JNum 30000 |}.

Definition classifierConfig : Classifier.ClassifierConfig :=
  {| Classifier.enabled := true;
     Classifier.baseUrl := Some "http://localhost:11434";
     Classifier.model := Config.default_model;
     Classifier.systemPrompt := Config.default_prompt;
     Classifier.strategy := "last_user";
     Classifier.maxChars := 8000;
     Classifier.timeoutMs := 800;
     Classifier.forceStream := true;
     Classifier.loadingRetryMs := Some 1200;
     Classifier.loadingMaxRetries := Some 2 |}.

Definition cacheConfig : Cache.CacheConfig :=
  {| Cache.redisUrl := "redis://cache:6379"; Cache.ttlMs := 3600000;
     Cache.maxEntries := 50000; Cache.cache_enabled := true |}.

Definition frontierUp : Config.Upstream :=
  upstream "frontier" "https://api.openai.com" (JStr "gpt-4o").

(** A router with the three tiers, classifier and cache on, and the key
    [secret]. *)
Definition config : Config.Config :=
  {| Config.routerApiKey := "secret";
     Config.classifier := classifierConfig;
     Config.cache := cacheConfig;
     Config.azureApiVersion := "2024-10-21";
     Config.anthropicVersion := "2023-06-01";
     Config.upstreams :=
       {| Config.cheap := Some (upstream "cheap" "http://localhost:11434" JNull);
          Config.medium := Some (upstream "medium" "https://api.mistral.ai" (JStr "mistral-small"));
          Config.frontier := Some frontierUp |} |}.

Definition chatRequest (auth : string) : Server.Request :=
  {| Server.endpoint := Server.PostChatCompletions;
     Server.authorization := Some auth;
     Server.body := payload_a |}.

Definition healthRequest (auth : string) : Server.Request :=
  {| Server.endpoint := Server.GetHealth;
     Server.authorization := Some auth;
     Server.body := JUndefined |}.

(** An environment whose cheap and classifier base URLs are made of
    slashes only. *)
Definition slashEnv : gmap string string :=
  <["CLASSIFIER_BASE_URL" := "//"]>
  (<["CHEAP_BASE_URL" := "/"]>
  (<["CHEAP_MODEL" := "tiny"]>
  (<["MEDIUM_BASE_URL" := "https://api.mistral.ai"]>
  (<["FRONTIER_BASE_URL" := "https://api.openai.com"]> ∅)))).

(** An environment where the cheap tier sits on the engine of the
    classifier, under another model name. *)
Definition localEnv : gmap string string :=
  <["CLASSIFIER_BASE_URL" := "http://localhost:11434/"]>
  (<["CLASSIFIER_MODEL" := "llama3.1:8b"]>
  (<["CHEAP_BASE_URL" := "http://localhost:11434"]>
  (<["CHEAP_MODEL" := "qwen2.5:3b"]>
  (<["MEDIUM_BASE_URL" := "https://api.mistral.ai"]>
  (<["FRONTIER_BASE_URL" := "https://api.openai.com"]> ∅))))).

Definition noFile : string -> option string := fun _ => None.

Definition syntaxError : JsError :=
  mkError "SyntaxError" NoCode "Unexpected token in JSON" None.

(** A parser that knows no document *)
Definition parseNothing : string -> Result JsVal := fun _ => Throw syntaxError.

(** A classifier endpoint where every call runs into the time limit *)
Definition alwaysAborts : nat -> bool -> Z -> Classifier.FetchOutcome :=
  fun _ _ _ => Classifier.Rejected Classifier.abortError.

(** The event of a classifier stream that carries the digit *)
Definition deltaEvent (digit : string) : JsVal :=
  JObj [("choices", JArr [JObj [("delta", JObj [("content", JStr digit)])]])].

Definition sseLine (data : string) : string :=
  "data: " +:+ data +:+ String newline (String newline EmptyString).

(** A parser that knows the documents of a table *)
Definition parseTable (table : list JsVal) (text : string) : Result JsVal :=
  match List.find (fun v => String.eqb (ser v) text) table with
  | Some v => Ok v
  | None => Throw syntaxError
  end.

(** A classifier endpoint that streams the digit at once *)
Definition answers (digit : string) : nat -> bool -> Z -> Classifier.FetchOutcome :=
  fun _ _ _ =>
    Classifier.Responded
      {| Classifier.res_ok := true; Classifier.res_status := 200;
         Classifier.res_chunks := [sseLine (ser (deltaEvent digit))];
         Classifier.res_failure := None |}.

Definition connectionError : JsError :=
  mkError "Error" NoCode "The client is closed" None.

(** A store that has lost its connection *)
Definition closedClient : Cache.RedisClient :=
  {| Cache.client_get := fun _ => Throw connectionError;
     Cache.client_setEx := fun _ _ _ => Throw connectionError |}.

(** A store that answers reads with a miss and refuses writes *)
Definition readOnlyClient : Cache.RedisClient :=
  {| Cache.client_get := fun _ => Ok None;
     Cache.client_setEx := fun _ _ _ => Throw connectionError |}.

(** A store that holds nothing and takes every write *)
Definition emptyClient : Cache.RedisClient :=
  {| Cache.client_get := fun _ => Ok None;
     Cache.client_setEx := fun _ _ _ => Ok tt |}.

(** [Number] on the strings of decimal digits *)
Definition digitsNumber (s : string) : JsNum :=
  match digitsPrefix s None with
  | Some z => if String.eqb (Z_to_string z) s then Int z else NaN
  | None => NaN
  end.

(** The events of an Anthropic stream: the start of the message with its
    usage, then two text deltas. *)
Definition messageStart : JsVal :=
  JObj [("type", JStr "message_start");
        ("message", JObj [("usage", JObj [("input_tokens", JNum 5); ("output_tokens", JNum 0)])])].

Definition textDelta (text : string) : JsVal :=
  JObj [("type", JStr "content_block_delta");
        ("delta", JObj [("type", JStr "text_delta"); ("text", JStr text)])].

(** An event on the wire: its name, then its data *)
Definition sseEvent (name : string) (data : JsVal) : string :=
  "event: " +:+ name +:+ String newline (sseLine (ser data)).

Definition anthropicBody : Classifier.Response :=
  {| Classifier.res_ok := true; Classifier.res_status := 200;
     Classifier.res_chunks :=
       [sseEvent "message_start" messageStart;
        sseEvent "content_block_delta" (textDelta "Hi")
        +:+ sseEvent "content_block_delta" (textDelta " there");
        sseEvent "message_stop" (JObj [("type", JStr "message_stop")])];
     Classifier.res_failure := None |}.

Definition anthropicParse : string -> Result JsVal :=
  parseTable [messageStart; textDelta "Hi"; textDelta " there";
              JObj [("type", JStr "message_stop")]].

Definition fixedSuffix : nat -> string := fun _ => "k3x9".
Definition fixedClock : nat -> Z := fun _ => 1700000000000.



End Samples.

(* ===================================================================== *)
(** * classifier.js: the warm-up *)
(* ===================================================================== *)

Module Warmup.
Import Js Log Eff Classifier.
Local Open Scope eff_scope.

Section Warm.

Variable JSON_parse : string -> Result JsVal.
Variable fetch : nat -> bool -> Z -> FetchOutcome.



End Warm.

End Warmup.

(* ===================================================================== *)
(** * providers/helpers.js and the text helpers of the adapters *)
(* ===================================================================== *)

Module Helpers.
Import Js.
Local Open Scope result_scope.

(** [s.endsWith(p)] *)
Definition endsWith (s p : string) : bool :=
  (String.length p <=? String.length s)%nat &&
  String.eqb (slice_from (String.length s - String.length p) s) p.

(** The text of one part of a content array, for [extractText] *)
Definition partText (part : JsVal) : string :=
  if negb (truthy part) then EmptyString
  else match part with
       | JStr s => s
       | _ =>
           match prop part "text" with
           | JStr t => t
           | _ =>
               match prop part "content" with
               | JStr c => c
               | _ => EmptyString
               end
           end
       end.

(** [extractText]; as for [coerceContent], the [catch] branch is out of
    reach. *)
Definition extractText (content : JsVal) : string :=
  match content with
  | JNull | JUndefined => EmptyString
  | JStr s => s
  | JArr parts => String.concat EmptyString (map partText parts)
  | _ => ser content
  end.

(** The loop of [splitSystemMessages]: the texts of the system messages
    and the other messages, both in their order. *)
Fixpoint splitLoop (messages : list JsVal) : list string * list JsVal :=
  match messages with
  | [] => ([], [])
  | message :: more =>
      let '(system, rest) := splitLoop more in
      if is_str (prop message "role") "system"
      then (extractText (prop message "content") :: system, rest)
      else (system, message :: rest)
  end.

(** [splitSystemMessages(messages)] for an array of messages:
    [system.filter(Boolean).join("\n")] and [rest]. *)
Definition splitSystemMessages (messages : list JsVal) : string * list JsVal :=
  let '(system, rest) := splitLoop messages in
  (String.concat (String newline EmptyString)
     (List.filter (fun text => negb (is_empty text)) system),
   rest).

(** The text of one part, for [coerceText]: the value that the callback of
    [map] returns, and that [join] turns into a string. *)
Fixpoint coerceText (content : JsVal) : string :=
  match content with
  | JNull | JUndefined => EmptyString
  | JStr s => s
  | JArr parts =>
      String.concat EmptyString
        (map (fun part =>
                if negb (truthy part) then EmptyString
                else match part with
                     | JStr s => s
                     | JObj fields =>
                         if truthy (assoc "text" fields) then toString (assoc "text" fields)
                         else if truthy (assoc "input_text" fields)
                         then toString (assoc "input_text" fields)
                         else if truthy (assoc "content" fields)
                         then (fix contentOf (fs : list (string * JsVal)) : string :=
                                 match fs with
                                 | [] => EmptyString
                                 | (k, v) :: more =>
                                     if String.eqb "content" k then coerceText v
                                     else contentOf more
                                 end) fields
                         else EmptyString
                     | _ => EmptyString
                     end) parts)
  | _ => ser content
  end.

End Helpers.

(* ===================================================================== *)
(** * The request side of the adapters *)
(* ===================================================================== *)

Module Adapters.
Import Js Config Helpers.
Local Open Scope result_scope.

(** ** anthropic.js *)

(** [rest.map(message => ({ role, content }))]; a [null] among the
    messages throws. *)
Fixpoint anthropicMessages (rest : list JsVal) : Result (list JsVal) :=
  match rest with
  | [] => Ok []
  | message :: more =>
      let? role := member message "role" in
      let? content := member message "content" in
      let? translated := anthropicMessages more in
      Ok (JObj [("role", JStr (if is_str role "assistant" then "assistant" else "user"));
                ("content", JStr (extractText content))] :: translated)
  end.

(** [typeof v === "number"] *)
Definition is_number (v : JsVal) : bool :=
  match v with JNum _ => true | _ => false end.

(** [Array.isArray(stop) ? stop : [stop]] *)
Definition stopSequences (stop : JsVal) : JsVal :=
  match stop with
  | JArr _ => stop
  | _ => JArr [stop]
  end.

(** The properties that the [if]s add to a body, in their order *)
Definition optional (present : bool) (k : string) (v : JsVal) : list (string * JsVal) :=
  if present then [(k, v)] else [].

(** The body that [proxyAnthropic] sends, for a payload whose messages are
    the array [messages].  [envMaxTokens] is the variable
    [ANTHROPIC_MAX_TOKENS] of the process; a default that does not parse
    is not-a-number, written [null] as [JSON.stringify] does. *)
Definition anthropicBody (envMaxTokens : option string) (upstream : Upstream)
    (payload : JsVal) (messages : list JsVal) : Result JsVal :=
  let '(system, rest) := splitSystemMessages messages in
  let? translated := anthropicMessages rest in
  let fallback :=
    match envMaxTokens with
    | Some v => if is_empty v then "1024" else v
    | None => "1024"
    end in
  let maxTokens :=
    coalesce (prop payload "max_tokens")
      (coalesce (prop payload "max_completion_tokens")
         match parseInt10 fallback with
         | Some n => JNum n
         | None => JNull
         end) in
  Ok (JObj
        ([("model", or_else (up_model upstream) (prop payload "model"));
          ("max_tokens", maxTokens);
          ("messages", JArr translated);
          ("stream", JBool (truthy (prop payload "stream")))]
         ++ optional (negb (is_empty system)) "system" (JStr system)
         ++ optional (is_number (prop payload "temperature")) "temperature"
              (prop payload "temperature")
         ++ optional (is_number (prop payload "top_p")) "top_p" (prop payload "top_p")
         ++ optional (truthy (prop payload "stop")) "stop_sequences"
              (stopSequences (prop payload "stop")))).

(** The text of a buffered Anthropic reply:
    [json.content.map(part => part.text || "").join("")], the empty string
    when [content] is no array. *)
Fixpoint replyTexts (parts : list JsVal) : Result (list JsVal) :=
  match parts with
  | [] => Ok []
  | part :: more =>
      let? text := member part "text" in
      let? texts := replyTexts more in
      Ok (or_else text (JStr EmptyString) :: texts)
  end.

Definition anthropicReplyText (json : JsVal) : Result string :=
  match prop json "content" with
  | JArr parts =>
      let? texts := replyTexts parts in
      Ok (join EmptyString texts)
  | _ => Ok EmptyString
  end.

(** ** cohere.js *)

Definition buildCohereUrl (baseUrl : string) : string :=
  if endsWith baseUrl "/v2/chat" || endsWith baseUrl "/chat" then baseUrl
  else baseUrl +:+ "/v2/chat".

Definition normalizeRole (role : JsVal) : string :=
  if is_str role "assistant" then "assistant"
  else if is_str role "system" then "system"
  else if is_str role "tool" || is_str role "function" then "tool"
  else "user".

(** ** openai_compatible.js *)

(** [{ ...payload, model: upstream.model || payload.model }] *)
Definition upstreamPayload (upstream : Upstream) (payload : JsVal) : JsVal :=
  JObj (set_prop "model" (or_else (up_model upstream) (prop payload "model"))
          (entries payload)).

(** The state of the relay of a stream: the chunks written to the client,
    the usage objects recorded, the unfinished line of the side decoder and
    its [usageRecorded] flag. *)
Record Relay : Type := {
  written : list string;
  usages : list JsVal;
  pending : string;
  usageRecorded : bool
}.

Section Relaying.

Variable JSON_parse : string -> Result JsVal.

(** The scan of the complete lines for the first [usage] object *)
Fixpoint usageIn (lines : list string) : option JsVal :=
  match lines with
  | [] => None
  | line :: more =>
      let trimmed := trim line in
      if negb (startsWith trimmed "data:") then usageIn more
      else
        let data := trim (slice_from 5 trimmed) in
        if is_empty data || String.eqb data "[DONE]" then usageIn more
        else
          match JSON_parse data with
          | Throw _ => usageIn more
          | Ok json =>
              if truthy (prop json "usage") then Some (prop json "usage")
              else usageIn more
          end
  end.

(** One round of [for await (const chunk of upstreamRes.body)] *)
Definition relayChunk (st : Relay) (chunk : string) : Relay :=
  let out := written st ++ [chunk] in
  if usageRecorded st
  then {| written := out; usages := usages st; pending := pending st;
          usageRecorded := true |}
  else
    let lines := splitLines (pending st +:+ chunk) in
    match usageIn (List.removelast lines) with
    | Some usage =>
        {| written := out; usages := usages st ++ [usage];
           pending := List.last lines EmptyString; usageRecorded := true |}
    | None =>
        {| written := out; usages := usages st;
           pending := List.last lines EmptyString; usageRecorded := false |}
    end.

Definition relayStream (chunks : list string) : Relay :=
  fold_left relayChunk chunks
    {| written := []; usages := []; pending := EmptyString; usageRecorded := false |}.

End Relaying.

End Adapters.

(* ===================================================================== *)
(** * providers/index.js *)
(* ===================================================================== *)

Module ProviderIndex.
Import Js Config.
Local Open Scope result_scope.

Inductive Adapter : Type :=
| proxyOpenAiCompatible
| proxyAnthropic
| proxyGemini
| proxyCohere
| proxyAzureOpenAi.

(** The map [adapters] *)
Definition adapters : list (string * Adapter) :=
  [("openai_compatible", proxyOpenAiCompatible);
   ("openrouter", proxyOpenAiCompatible);
   ("openai", proxyOpenAiCompatible);
   ("mistral", proxyOpenAiCompatible);
   ("groq", proxyOpenAiCompatible);
   ("together", proxyOpenAiCompatible);
   ("perplexity", proxyOpenAiCompatible);
   ("anthropic", proxyAnthropic);
   ("gemini", proxyGemini);
   ("cohere", proxyCohere);
   ("azure_openai", proxyAzureOpenAi)].

(** [adapters.get(key)]; a key that is no string finds nothing. *)
Definition adapterOf (key : JsVal) : option Adapter :=
  match key with
  | JStr k => option_map snd (List.find (fun entry => String.eqb k (fst entry)) adapters)
  | _ => None
  end.

Section Detect.

(** [new URL(text).hostname], or the error of [new URL] *)
Variable hostname : string -> Result string.

Definition safeHost (baseUrl : JsVal) : string :=
  if negb (truthy baseUrl) then EmptyString
  else match hostname (toString baseUrl) with
       | Ok host => host
       | Throw _ => EmptyString
       end.

(** The hosts that [detectProvider] knows, in the order it tries them *)
Definition knownHosts : list (string * string) :=
  [("anthropic.com", "anthropic");
   ("generativelanguage.googleapis.com", "gemini");
   ("api.cohere.ai", "cohere");
   ("openai.azure.com", "azure_openai");
   ("api.mistral.ai", "mistral");
   ("api.groq.com", "groq");
   ("api.together.xyz", "together");
   ("api.perplexity.ai", "perplexity");
   ("openrouter.ai", "openrouter");
   ("api.openai.com", "openai")].

Definition byHost (host : string) : option string :=
  option_map snd (List.find (fun entry => includes host (fst entry)) knownHosts).

(** The detection by the prefix of the key; a key that is truthy and no
    string has no [startsWith]. *)
Definition byKey (apiKey : JsVal) : Result (option string) :=
  if negb (truthy apiKey) then Ok None
  else match apiKey with
       | JStr k =>
           if startsWith k "sk-ant-" then Ok (Some "anthropic")
           else if startsWith k "AIza" then Ok (Some "gemini")
           else if startsWith (toLowerCase k) "cohere" then Ok (Some "cohere")
           else Ok None
       | _ => Throw (typeError "apiKey.startsWith is not a function")
       end.

(** [detectProvider(baseUrl, apiKey)]; [None] is [null]. *)
Definition detectProvider (baseUrl apiKey : JsVal) : Result (option string) :=
  let host := safeHost baseUrl in
  match (if is_empty host then None else byHost host) with
  | Some tag => Ok (Some tag)
  | None => byKey apiKey
  end.

(** [resolveProvider(upstream)]; [None] is an upstream that is [null]. *)
Definition resolveProvider (upstream : option Upstream) : Result JsVal :=
  let configured :=
    match upstream with Some u => up_provider u | None => JUndefined end in
  if truthy configured && negb (is_str configured "auto") then Ok configured
  else
    let? detected :=
      detectProvider
        match upstream with Some u => up_baseUrl u | None => JUndefined end
        match upstream with Some u => up_apiKey u | None => JUndefined end in
    Ok (JStr (default "openai_compatible" detected)).

(** [getProviderAdapter(upstream)]; [None] is the handler that answers
    501 [provider_not_supported]. *)
Definition getProviderAdapter (upstream : option Upstream) : Result (option Adapter) :=
  let? provider := resolveProvider upstream in
  Ok (adapterOf (or_else provider (JStr "openai_compatible"))).

End Detect.

End ProviderIndex.

(* ===================================================================== *)
(** * token_tracker.js *)
(* ===================================================================== *)

Module TokenTracker.
Import Js.

(** [a + b] for operands that are neither [null] nor [undefined]: the sum
    of two numbers (a boolean counts 0 or 1), else the joined strings. *)
Definition numeric (v : JsVal) : option Z :=
  match v with
  | JNum n => Some n
  | JBool b => Some (if b then 1 else 0)
  | _ => None
  end.

Definition plus (a b : JsVal) : JsVal :=
  match numeric a, numeric b with
  | Some x, Some y => JNum (x + y)
  | _, _ => JStr (toString a +:+ toString b)
  end.

Record Bucket : Type := {
  promptTokens : JsVal;
  completionTokens : JsVal;
  totalTokens : JsVal;
  requests : Z;
  withUsage : Z
}.

Definition initBucket : Bucket :=
  {| promptTokens := JNum 0; completionTokens := JNum 0; totalTokens := JNum 0;
     requests := 0; withUsage := 0 |}.

(** The module state: the four buckets and the time of the last update *)
Record Buckets : Type := {
  cheap : Bucket;
  medium : Bucket;
  frontier : Bucket;
  unknown : Bucket;
  lastUpdated : option Z
}.

Definition initial : Buckets :=
  {| cheap := initBucket; medium := initBucket; frontier := initBucket;
     unknown := initBucket; lastUpdated := None |}.

Definition is_number (v : JsVal) : bool :=
  match v with JNum _ => true | _ => false end.

(** One of the three schemas: recognised when one of its fields is a
    number *)
Definition schema (usage : JsVal) (promptKey completionKey totalKey : string)
  : option (JsVal * JsVal * JsVal) :=
  if is_number (prop usage promptKey) || is_number (prop usage completionKey)
     || is_number (prop usage totalKey)
  then
    let prompt := coalesce (prop usage promptKey) (JNum 0) in
    let completion := coalesce (prop usage completionKey) (JNum 0) in
    let total := coalesce (prop usage totalKey) (plus prompt completion) in
    Some (prompt, completion, total)
  else None.

(** [normalizeUsage(usage)]: prompt, completion and total; [None] is
    [null]. *)
Definition normalizeUsage (usage : JsVal) : option (JsVal * JsVal * JsVal) :=
  match usage with
  | JObj _ | JArr _ =>
      match schema usage "prompt_tokens" "completion_tokens" "total_tokens" with
      | Some r => Some r
      | None =>
          match schema usage "input_tokens" "output_tokens" "total_tokens" with
          | Some r => Some r
          | None => schema usage "promptTokenCount" "candidatesTokenCount" "totalTokenCount"
          end
      end
  | _ => None
  end.

Inductive Slot : Type := inCheap | inMedium | inFrontier | inUnknown.

(** [pickBucket(route, upstream)] *)
Definition pickBucket (route : JsVal) : Slot :=
  if is_str route "medium" then inMedium
  else if is_str route "frontier" then inFrontier
  else if is_str route "cheap" then inCheap
  else inUnknown.

Definition bucketAt (slot : Slot) (b : Buckets) : Bucket :=
  match slot with
  | inCheap => cheap b
  | inMedium => medium b
  | inFrontier => frontier b
  | inUnknown => unknown b
  end.

Definition withBucket (slot : Slot) (bucket : Bucket) (updated : option Z) (b : Buckets)
  : Buckets :=
  match slot with
  | inCheap => {| cheap := bucket; medium := medium b; frontier := frontier b;
                  unknown := unknown b; lastUpdated := updated |}
  | inMedium => {| cheap := cheap b; medium := bucket; frontier := frontier b;
                   unknown := unknown b; lastUpdated := updated |}
  | inFrontier => {| cheap := cheap b; medium := medium b; frontier := bucket;
                     unknown := unknown b; lastUpdated := updated |}
  | inUnknown => {| cheap := cheap b; medium := medium b; frontier := frontier b;
                    unknown := bucket; lastUpdated := updated |}
  end.

(** [recordUsage({ route, upstream, usage })]; [now] is [Date.now()]. *)
Definition recordUsage (now : Z) (route usage : JsVal) (b : Buckets) : Buckets :=
  let slot := pickBucket route in
  let bucket := bucketAt slot b in
  match normalizeUsage usage with
  | None =>
      withBucket slot
        {| promptTokens := promptTokens bucket;
           completionTokens := completionTokens bucket;
           totalTokens := totalTokens bucket;
           requests := requests bucket + 1;
           withUsage := withUsage bucket |} (lastUpdated b) b
  | Some (prompt, completion, total) =>
      withBucket slot
        {| promptTokens := plus (promptTokens bucket) prompt;
           completionTokens := plus (completionTokens bucket) completion;
           totalTokens := plus (totalTokens bucket) total;
           requests := requests bucket + 1;
           withUsage := withUsage bucket + 1 |} (Some now) b
  end.

(** [resetUsage()] *)
Definition resetUsage (b : Buckets) : Buckets := initial.

(** [totalTrackedTokens] of [snapshotUsage()] *)
Definition totalTracked (b : Buckets) : JsVal :=
  plus (plus (totalTokens (cheap b)) (totalTokens (medium b))) (totalTokens (frontier b)).

End TokenTracker.

(* ===================================================================== *)
(** * Notions used to state the properties *)
(* ===================================================================== *)

Module Notions.
Import Js Log Eff.

(** The characters that [/[0-2]/] matches, with their value *)
Definition decisionOf (c : ascii) : option Z :=
  if Ascii.eqb c "0"%char then Some 0
  else if Ascii.eqb c "1"%char then Some 1
  else if Ascii.eqb c "2"%char then Some 2
  else None.

(** No character of the string is matched by [/[0-2]/]. *)
Fixpoint noDecisionChar (s : string) : bool :=
  match s with
  | EmptyString => true
  | String c r =>
      match decisionOf c with
      | None => noDecisionChar r
      | Some _ => false
      end
  end.

(** The classifier calls on a trace *)
Definition calls (evs : list Event) : nat := length (List.filter is_fetch evs).

Definition is_sleep (ev : Event) : bool :=
  match ev with Slept _ => true | _ => false end.

(** An event that touches the cache *)
Definition is_cache (ev : Event) : bool :=
  match ev with CacheRead _ | CacheWrite _ _ => true | _ => false end.

(** The trace of a classification whose every attempt meets a loading
    model: the call, then [retries] times a warning, a pause and the
    call. *)
Definition loadingTrace (call : Event) (delay : Z) (retries : nat) : list Event :=
  call :: concat (repeat [Logged Warn "classifier model loading, retrying";
                          Slept delay; call] retries).

(** A part of a content array that carries the text [text]: the string
    itself, or an object whose [text] is that string, not empty. *)
Definition textPart (text : string) (part : JsVal) : Prop :=
  part = JStr text
  \/ exists fields, part = JObj fields /\ assoc "text" fields = JStr text
                   /\ text <> EmptyString.

(** The role of a message is [system]. *)
Definition isSystem (message : JsVal) : bool := is_str (prop message "role") "system".

(** A message of the payload as the Anthropic interface takes it: the role
    [assistant] stays, every other role becomes [user], and the content is
    reduced to its text. *)
Definition anthropicMessage (message : JsVal) : JsVal :=
  JObj [("role", JStr (if is_str (prop message "role") "assistant"
                       then "assistant" else "user"));
        ("content", JStr (Helpers.extractText (prop message "content")))].

(** The system prompt of a conversation: the texts of its system messages
    that are not empty, one per line. *)
Definition systemPrompt (messages : list JsVal) : string :=
  String.concat (String newline EmptyString)
    (List.filter (fun text => negb (is_empty text))
       (map (fun message => Helpers.extractText (prop message "content"))
          (List.filter isSystem messages))).

(** The state of a translated stream in which usage was handed on at most
    once, and not at all while the flag of the loop is down. *)
Definition usageOnce (st : Providers.Reply * bool) : Prop :=
  (snd st = false -> Providers.recorded (fst st) = [])
  /\ (length (Providers.recorded (fst st)) <= 1)%nat.

(** The response under translation is still open. *)
Definition stillOpen (st : Providers.Reply * bool) : Prop :=
  Providers.ended (fst st) = false.

(** The steps of the loops of the three translating adapters *)
Definition translating (randomSuffix : nat -> string) (nowMs : nat -> Z)
    (JSON_parse : string -> Result JsVal)
    (step : Providers.Reply * bool -> string -> (Providers.Reply * bool) * option JsError)
  : Prop :=
  exists model,
    step = Providers.anthropicEvent randomSuffix nowMs JSON_parse model
    \/ step = Providers.geminiEvent randomSuffix nowMs JSON_parse model
    \/ step = Providers.cohereEvent randomSuffix nowMs JSON_parse model.

(** A step keeps what holds of the state of the loop. *)
Definition keeps (P : Providers.Reply * bool -> Prop)
    (step : Providers.Reply * bool -> string -> (Providers.Reply * bool) * option JsError)
  : Prop :=
  forall st data, P st -> P (fst (step st data)).

(** One call of [recordUsage]: the time, the route and the usage *)
Definition Record : Type := Z * JsVal * JsVal.

(** The tracker after the calls of a list, from a given state *)
Definition recordAll (records : list Record) (b : TokenTracker.Buckets)
  : TokenTracker.Buckets :=
  fold_left (fun acc '(now, route, usage) => TokenTracker.recordUsage now route usage acc)
    records b.

(** The requests counted over the four buckets *)
Definition requestsCounted (b : TokenTracker.Buckets) : Z :=
  TokenTracker.requests (TokenTracker.cheap b)
  + TokenTracker.requests (TokenTracker.medium b)
  + TokenTracker.requests (TokenTracker.frontier b)
  + TokenTracker.requests (TokenTracker.unknown b).

End Notions.

(* ===================================================================== *)
(** * More concrete inputs *)
(* ===================================================================== *)

Module MoreSamples.
Import Js.

(** A classifier endpoint whose model is still loading *)
Definition loadingResponse : Classifier.Response :=
  {| Classifier.res_ok := false; Classifier.res_status := 503;
     Classifier.res_chunks := ["loading model, please wait"];
     Classifier.res_failure := None |}.

Definition alwaysLoading : nat -> bool -> Z -> Classifier.FetchOutcome :=
  fun _ _ _ => Classifier.Responded loadingResponse.

(** The buffered answer of a classifier *)
Definition message (text : string) : JsVal :=
  JObj [("choices", JArr [JObj [("message", JObj [("content", JStr text)])]])].

(** A classifier endpoint that answers [cheap] in words, streamed or
    buffered as asked *)
Definition answersInWords : nat -> bool -> Z -> Classifier.FetchOutcome :=
  fun _ stream _ =>
    Classifier.Responded
      {| Classifier.res_ok := true; Classifier.res_status := 200;
         Classifier.res_chunks :=
           [if stream then Samples.sseLine (ser (Samples.deltaEvent "cheap"))
            else ser (message "cheap")];
         Classifier.res_failure := None |}.

Definition fullMessagesConfig : Classifier.ClassifierConfig :=
  Classifier.withTimeout
    {| Classifier.enabled := true;
       Classifier.baseUrl := Some "http://localhost:11434";
       Classifier.model := Config.default_model;
       Classifier.systemPrompt := Config.default_prompt;
       Classifier.strategy := "full_messages";
       Classifier.maxChars := 8000;
       Classifier.timeoutMs := 800;
       Classifier.forceStream := true;
       Classifier.loadingRetryMs := Some 1200;
       Classifier.loadingMaxRetries := Some 2 |} 800.

(** A response that is not OK and whose body is cut off by the abort
    signal of the time limit *)
Definition abortedErrorBody : Classifier.Response :=
  {| Classifier.res_ok := false; Classifier.res_status := 503;
     Classifier.res_chunks := ["Service Unav"];
     Classifier.res_failure := Some Classifier.abortError |}.

(** The answer of a gateway in front of the classifier *)
Definition gatewayAborted : Classifier.Response :=
  {| Classifier.res_ok := false; Classifier.res_status := 502;
     Classifier.res_chunks := ["upstream request Aborted"];
     Classifier.res_failure := None |}.

(** The router of the examples with caching switched off *)
Definition uncachedConfig : Config.Config :=
  {| Config.routerApiKey := "secret";
     Config.classifier := Samples.classifierConfig;
     Config.cache :=
       {| Cache.redisUrl := EmptyString; Cache.ttlMs := 3600000;
          Cache.maxEntries := 50000; Cache.cache_enabled := false |};
     Config.azureApiVersion := "2024-10-21";
     Config.anthropicVersion := "2023-06-01";
     Config.upstreams := Config.upstreams Samples.config |}.

(** The router of the examples with the classifier switched off *)
Definition directConfig : Config.Config :=
  {| Config.routerApiKey := "secret";
     Config.classifier :=
       {| Classifier.enabled := false;
          Classifier.baseUrl := None;
          Classifier.model := Config.default_model;
          Classifier.systemPrompt := Config.default_prompt;
          Classifier.strategy := "last_user";
          Classifier.maxChars := 8000;
          Classifier.timeoutMs := 800;
          Classifier.forceStream := true;
          Classifier.loadingRetryMs := Some 1200;
          Classifier.loadingMaxRetries := Some 2 |};
     Config.cache := Samples.cacheConfig;
     Config.azureApiVersion := "2024-10-21";
     Config.anthropicVersion := "2023-06-01";
     Config.upstreams := Config.upstreams Samples.config |}.

(** The second request of the examples: the task of the first, another
    model, streamed *)
Definition secondRequest : Server.Request :=
  {| Server.endpoint := Server.PostChatCompletions;
     Server.authorization := Some "secret";
     Server.body := Samples.payload_b |}.

(** A router whose cheap tier is hosted away from the classifier *)
Definition hostedConfig : Config.Config :=
  Config.withCheap Samples.config
    (Samples.upstream "cheap" "https://api.groq.com/" (JStr "llama-3.1-8b-instant")).

(** A conversation with two system messages, one of them empty *)
Definition conversation : list JsVal :=
  [JObj [("role", JStr "system"); ("content", JStr "Be brief.")];
   Samples.userMessage "2+2?";
   JObj [("role", JStr "assistant"); ("content", JStr "4")];
   JObj [("role", JStr "system"); ("content", JStr EmptyString)];
   JObj [("role", JStr "tool"); ("content", Samples.two_parts)]].

(** An upstream body that ends before the stream is over *)
Definition brokenBody : Classifier.Response :=
  {| Classifier.res_ok := true; Classifier.res_status := 200;
     Classifier.res_chunks :=
       [Samples.sseEvent "message_start" Samples.messageStart;
        Samples.sseEvent "content_block_delta" (Samples.textDelta "Hi")];
     Classifier.res_failure := Some Samples.connectionError |}.

(** The letter e with an acute accent, two bytes in UTF-8, and a word of
    three of them *)
Definition eAcute : string :=
  String (ascii_of_nat 195) (String (ascii_of_nat 169) EmptyString).

Definition accented : string := eAcute +:+ eAcute +:+ eAcute.

(** The character [U+1F600], four bytes in UTF-8, two code units in
    UTF-16 *)
Definition grinning : string :=
  String (ascii_of_nat 240) (String (ascii_of_nat 159)
    (String (ascii_of_nat 152) (String (ascii_of_nat 128) EmptyString))).

(** The in-process cache of the router of the examples, empty, with a
    clock that reads one second more at each operation of the cache *)
Definition everySecond : nat -> Z := fun n => 1700000000000 + 1000 * Z.of_nat n.

Definition emptyMemory : Cache.LruCache :=
  {| Cache.lru_max := 50000; Cache.lru_ttl := 3600000;
     Cache.lru_clock := everySecond; Cache.lru_ops := 0; Cache.lru_entries := [] |}.

(** That cache with the decision 1 stored for the request of the
    examples, a second before *)
Definition primedMemory (sha256_hex : string -> string) : Cache.LruCache :=
  {| Cache.lru_max := 50000; Cache.lru_ttl := 3600000;
     Cache.lru_clock := everySecond; Cache.lru_ops := 1;
     Cache.lru_entries :=
       [{| Cache.entry_key := Utils.hashPayload sha256_hex Samples.payload_a;
           Cache.entry_value := "1"; Cache.entry_start := everySecond 0 |}] |}.

(** A store that answers every read with a word and refuses writes *)
Definition garbledClient : Cache.RedisClient :=
  {| Cache.client_get := fun _ => Ok (Some "cheap");
     Cache.client_setEx := fun _ _ _ => Throw Samples.connectionError |}.

(** An upstream that leaves the provider to detection *)
Definition detected (baseUrl apiKey : string) : Config.Upstream :=
  {| Config.up_name := JStr "frontier"; Config.up_provider := JStr "auto";
     Config.up_baseUrl := JStr baseUrl; Config.up_apiKey := JStr apiKey;
     Config.up_model := JNull; Config.up_apiVersion := JStr EmptyString;
     Config.up_deployment := JStr EmptyString; Config.up_headers := JNull;
     Config.up_timeoutMs := JNum 60000 |}.

(** The host names of the URLs of the examples *)
Definition hostOf (url : string) : Result string :=
  if String.eqb url "https://api.anthropic.com" then Ok "api.anthropic.com"
  else if String.eqb url "http://localhost:11434" then Ok "localhost"
  else Throw (typeError "Invalid URL").

(** The usage object of an OpenAI-compatible reply *)
Definition usage (prompt completion : Z) : JsVal :=
  JObj [("prompt_tokens", JNum prompt); ("completion_tokens", JNum completion)].

End MoreSamples.

(* ===================================================================== *)
(** * Properties of the string and value layer *)
(* ===================================================================== *)

Module JsFacts.
Import Js.

Lemma append_cons (c : ascii) (a b : string) : String c a +:+ b = String c (a +:+ b).
Proof. reflexivity. Qed.

Lemma append_nil (b : string) : EmptyString +:+ b = b.
Proof. reflexivity. Qed.

Lemma startsWith_append (p s : string) : startsWith (p +:+ s) p = true.
Proof.
  induction p as [|c p IH]; [reflexivity|].
  rewrite append_cons. simpl. rewrite Ascii.eqb_refl. exact IH.
Qed.

Lemma slice_from_append (p s : string) : slice_from (String.length p) (p +:+ s) = s.
Proof.
  induction p as [|c p IH]; [reflexivity|].
  rewrite append_cons. simpl. exact IH.
Qed.

Lemma startsWith_split (p s : string) :
  startsWith s p = true -> s = p +:+ slice_from (String.length p) s.
Proof.
  revert s. induction p as [|c p IH]; intros s H; simpl in *.
  - reflexivity.
  - destruct s as [|d s]; [discriminate|].
    apply andb_true_iff in H as [Hc Hp].
    apply Ascii.eqb_eq in Hc. subst d.
    rewrite append_cons. simpl. f_equal. apply IH, Hp.
Qed.





Lemma is_empty_true (s : string) : is_empty s = true <-> s = EmptyString.
Proof. destruct s; simpl; split; congruence. Qed.

Lemma is_empty_false (s : string) : is_empty s = false <-> s <> EmptyString.
Proof. destruct s; simpl; split; congruence. Qed.

Lemma strip_nonempty (s : string) :
  stripTrailingSlashes s <> EmptyString -> s <> EmptyString.
Proof. intros H ->. apply H. reflexivity. Qed.

End JsFacts.

(* ===================================================================== *)
(** * utils.js: text coercion and fingerprint *)
(* ===================================================================== *)

Module UtilsFacts.
Import Js Utils.

(** C3 at a failing input: the content array [["Hi", {type: "text",
    text: " there"}]].  The claim asks for the texts of the parts, joined:
    [Hi there], and that is what the helpers of the adapters, [coerceText]
    and [extractText], return for it.  [coerceContent] has no case for
    arrays: it returns the JSON text of the array, brackets, quotes and
    keys included, and that text is what the classifier is given to
    read. *)
Theorem coerceContent_does_not_flatten_parts :
  Helpers.coerceText Samples.two_parts = "Hi there"
  /\ Helpers.extractText Samples.two_parts = "Hi there"
  /\ coerceContent Samples.two_parts <> "Hi there"
  /\ JSON_stringify Samples.two_parts = Some (coerceContent Samples.two_parts)
  /\ startsWith (coerceContent Samples.two_parts) "[" = true
  /\ buildClassifierInput (JObj [("messages", JArr [JObj [("role", JStr "user");
                                                         ("content", Samples.two_parts)]])])
       "last_user" 8000
     = Ok (coerceContent Samples.two_parts).
Proof.
  split; [reflexivity|]. split; [reflexivity|]. split; [discriminate|].
  split; [reflexivity|]. split; reflexivity.
Qed.

(** C4: two payloads with the same [messages], [tools], [tool_choice] and
    [response_format] have the same fingerprint, whatever else they
    hold. *)
Theorem hashPayload_routing_fields_only (sha256_hex : string -> string) (P P' : JsVal) :
  prop P "messages" = prop P' "messages" ->
  prop P "tools" = prop P' "tools" ->
  prop P "tool_choice" = prop P' "tool_choice" ->
  prop P "response_format" = prop P' "response_format" ->
  hashPayload sha256_hex P = hashPayload sha256_hex P'.
Proof.
  intros Hm Ht Hc Hr. unfold hashPayload.
  rewrite Hm, Ht, Hc, Hr. reflexivity.
Qed.

(** The two sample requests differ in model, stream flag and temperature
    and share their fingerprint. *)
Lemma hashPayload_routing_fields_only_witness :
  prop Samples.payload_a "model" <> prop Samples.payload_b "model"
  /\ prop Samples.payload_a "stream" <> prop Samples.payload_b "stream"
  /\ prop Samples.payload_a "temperature" <> prop Samples.payload_b "temperature"
  /\ hashPayload (fun input => input) Samples.payload_a
     = hashPayload (fun input => input) Samples.payload_b.
Proof.
  split; [discriminate|]. split; [discriminate|]. split; [discriminate|].
  apply (hashPayload_routing_fields_only (fun input => input)
           Samples.payload_a Samples.payload_b); reflexivity.
Defined.

End UtilsFacts.

(* ===================================================================== *)
(** * config.js: the cheap tier on the engine of the classifier *)
(* ===================================================================== *)

Module ConfigFacts.
Import Js Config JsFacts.

Lemma normalizeBaseUrl_string (s : string) :
  s <> EmptyString -> normalizeBaseUrl (JStr s) = Ok (JStr (stripTrailingSlashes s)).
Proof.
  intros H. unfold normalizeBaseUrl. simpl.
  apply is_empty_false in H. rewrite H. reflexivity.
Qed.

Lemma requireFields_ok (c c' : Config) : requireFields c = Ok c' -> c' = c.
Proof.
  unfold requireFields. intros H.
  repeat match type of H with
         | context [if ?x then _ else _] => destruct x; try discriminate
         end.
  congruence.
Qed.

(** [colocate] changes at most the model of the cheap tier; when it does,
    the new model is that of the classifier. *)
Lemma colocate_ok (c0 c : Config) :
  colocate c0 = Ok c ->
  c = c0 \/ exists u0, cheap (upstreams c0) = Some u0
                     /\ c = withCheap c0 (withModel u0 (JStr (Classifier.model (classifier c0)))).
Proof.
  unfold colocate, andThen. intros H.
  destruct (cheap (upstreams c0)) as [u0|]; [|left; congruence].
  repeat match type of H with
         | context [match ?x with _ => _ end] => destruct x; try discriminate
         end;
  injection H as <-; eauto.
Qed.

Lemma colocate_forced (c0 : Config) (u0 : Upstream) (cb kb : string) :
  Classifier.enabled (classifier c0) = true ->
  cheap (upstreams c0) = Some u0 ->
  up_baseUrl u0 = JStr cb ->
  Classifier.baseUrl (classifier c0) = Some kb ->
  stripTrailingSlashes cb = stripTrailingSlashes kb ->
  stripTrailingSlashes cb <> EmptyString ->
  colocate c0 = Ok (withCheap c0 (withModel u0 (JStr (Classifier.model (classifier c0))))).
Proof.
  intros Hen Hu0 Hcb Hkb Heq Hne.
  assert (Hcbne : cb <> EmptyString) by (apply strip_nonempty, Hne).
  assert (Hkbne : kb <> EmptyString) by (apply strip_nonempty; congruence).
  unfold colocate. rewrite Hu0, Hen, Hkb, Hcb. simpl.
  rewrite (proj2 (is_empty_false cb) Hcbne), (proj2 (is_empty_false kb) Hkbne). simpl.
  rewrite (normalizeBaseUrl_string cb Hcbne), (normalizeBaseUrl_string kb Hkbne). simpl.
  rewrite <- Heq.
  rewrite (proj2 (is_empty_false _) Hne), String.eqb_refl. reflexivity.
Qed.

Lemma finishConfig_colocated (c0 cfg : Config) (u : Upstream) (cb kb : string) :
  finishConfig c0 = Ok cfg ->
  Classifier.enabled (classifier cfg) = true ->
  cheap (upstreams cfg) = Some u ->
  up_baseUrl u = JStr cb ->
  Classifier.baseUrl (classifier cfg) = Some kb ->
  stripTrailingSlashes cb = stripTrailingSlashes kb ->
  stripTrailingSlashes cb <> EmptyString ->
  up_model u = JStr (Classifier.model (classifier cfg)).
Proof.
  unfold finishConfig, andThen. intros H Hen Hu Hcb Hkb Heq Hne.
  destruct (colocate c0) as [c|] eqn:Hco; [|discriminate].
  apply requireFields_ok in H. subst cfg.
  destruct (colocate_ok _ _ Hco) as [->|(u0 & Hu0 & ->)].
  - rewrite (colocate_forced c0 u cb kb Hen Hu Hcb Hkb Heq Hne) in Hco.
    injection Hco as Hco.
    apply (f_equal (fun c => cheap (upstreams c))) in Hco. simpl in Hco.
    rewrite Hu in Hco. injection Hco as Hco.
    apply (f_equal up_model) in Hco. simpl in Hco. symmetry. exact Hco.
  - simpl in *. injection Hu as <-. reflexivity.
Qed.

(** C7, as stated, fails: with [CHEAP_BASE_URL=/] and
    [CLASSIFIER_BASE_URL=//] the configuration loads, the classifier is
    enabled, both base URLs are the same once the trailing slashes are
    stripped, and the cheap tier keeps the model [tiny]. *)
Lemma colocation_counterexample :
  exists cfg u,
    loadConfig Samples.slashEnv Samples.noFile Samples.parseNothing = Ok cfg
    /\ Classifier.enabled (classifier cfg) = true
    /\ cheap (upstreams cfg) = Some u
    /\ up_baseUrl u = JStr "/"
    /\ Classifier.baseUrl (classifier cfg) = Some "//"
    /\ stripTrailingSlashes "/" = stripTrailingSlashes "//"
    /\ up_model u = JStr "tiny"
    /\ up_model u <> JStr (Classifier.model (classifier cfg)).
Proof.
  eexists. eexists.
  split; [vm_compute; reflexivity|].
  repeat split; discriminate.
Qed.

(** C7, amended: after the configuration has loaded, if the classifier is
    enabled and the base URL of the cheap tier and that of the classifier
    agree once their trailing slashes are stripped, and what is left is
    not empty, then the model of the cheap tier is the model of the
    classifier. *)
Theorem colocated_cheap_uses_classifier_model
    (processEnv : gmap string string) (readFile : string -> option string)
    (JSON_parse : string -> Result JsVal)
    (cfg : Config) (u : Upstream) (cb kb : string) :
  loadConfig processEnv readFile JSON_parse = Ok cfg ->
  Classifier.enabled (classifier cfg) = true ->
  cheap (upstreams cfg) = Some u ->
  up_baseUrl u = JStr cb ->
  Classifier.baseUrl (classifier cfg) = Some kb ->
  stripTrailingSlashes cb = stripTrailingSlashes kb ->
  stripTrailingSlashes cb <> EmptyString ->
  up_model u = JStr (Classifier.model (classifier cfg)).
Proof.
  unfold loadConfig, andThen. intros H.
  destruct (buildUpstreams _ _ _); [|discriminate].
  destruct (parseJson _ _ _); [|discriminate].
  eapply finishConfig_colocated, H.
Qed.

(** A cheap tier configured with [qwen2.5:3b] on the engine of the
    classifier ends up on the classifier model [llama3.1:8b]. *)
Lemma colocated_cheap_uses_classifier_model_witness :
  exists cfg u,
    loadConfig Samples.localEnv Samples.noFile Samples.parseNothing = Ok cfg
    /\ cheap (upstreams cfg) = Some u
    /\ up_baseUrl u = JStr "http://localhost:11434"
    /\ Classifier.baseUrl (classifier cfg) = Some "http://localhost:11434/"
    /\ Classifier.model (classifier cfg) = "llama3.1:8b"
    /\ up_model u = JStr (Classifier.model (classifier cfg)).
Proof.
  eexists. eexists.
  split; [vm_compute; reflexivity|].
  split; [reflexivity|]. split; [reflexivity|]. split; [reflexivity|].
  split; [reflexivity|].
  refine (colocated_cheap_uses_classifier_model Samples.localEnv Samples.noFile
            Samples.parseNothing _ _ "http://localhost:11434" "http://localhost:11434/"
            _ _ _ _ _ _ _);
    [vm_compute; reflexivity | reflexivity | reflexivity | reflexivity
    | reflexivity | reflexivity | discriminate].
Defined.

End ConfigFacts.

(* ===================================================================== *)
(** * azure_openai.js: the outbound request *)
(* ===================================================================== *)

Module AzureFacts.
Import Js Config Providers JsFacts.






End AzureFacts.

(* ===================================================================== *)
(** * server.js: the bearer gate *)
(* ===================================================================== *)

Module GateFacts.
Import Js Config Server Eff JsFacts.

Lemma authHook_bearer (config : Config) (req : Request) :
  authorization req = Some ("Bearer " +:+ routerApiKey config) ->
  authHook config req = None.
Proof.
  intros H. unfold authHook. destruct (is_empty (routerApiKey config)); [reflexivity|].
  rewrite H. simpl default.
  rewrite startsWith_append.
  change 7%nat with (String.length "Bearer ").
  rewrite slice_from_append, String.eqb_refl. reflexivity.
Qed.

Lemma authHook_rejects (config : Config) (req : Request) :
  routerApiKey config <> EmptyString ->
  authorization req <> Some ("Bearer " +:+ routerApiKey config) ->
  authorization req <> Some (routerApiKey config) ->
  authHook config req = Some (ErrorReply 401 "unauthorized").
Proof.
  intros Hkey Hb Hraw. unfold authHook.
  rewrite (proj2 (is_empty_false _) Hkey).
  destruct (authorization req) as [h|] eqn:Hh; simpl default.
  - destruct (startsWith h "Bearer ") eqn:Hs.
    + destruct (String.eqb_spec (slice_from 7 h) (routerApiKey config)) as [E|E];
        [|reflexivity].
      exfalso. apply Hb. f_equal.
      rewrite (startsWith_split _ _ Hs). simpl String.length. rewrite E. reflexivity.
    + destruct (String.eqb_spec h (routerApiKey config)) as [E|E]; [|reflexivity].
      exfalso. apply Hraw. f_equal. exact E.
  - change (startsWith EmptyString "Bearer ") with false. cbv iota.
    destruct (String.eqb_spec EmptyString (routerApiKey config)) as [E|E];
      [|reflexivity].
    exfalso. apply Hkey. symmetry. exact E.
Qed.

(** C8, as stated, fails: with the key [secret] configured, a request whose
    authorization header is the bare [secret], which is not
    [Bearer secret], passes the gate and is answered by its handler. *)
Lemma bare_key_counterexample :
  routerApiKey Samples.config = "secret"
  /\ authorization (Samples.healthRequest "secret") <> Some "Bearer secret"
  /\ authHook Samples.config (Samples.healthRequest "secret") = None
  /\ run (serve (fun input => input) Samples.parseNothing
            (fun _ _ _ => Classifier.Rejected Classifier.abortError) (fun _ => NaN)
            Samples.config (Samples.healthRequest "secret")) Cache.NoopCache
     = Some (Ok (health Samples.config), {| trace := []; store := Cache.NoopCache |}).
Proof. repeat split. discriminate. Qed.

(** C8, amended: if a router API key is configured, every request, on
    every endpoint, whose authorization header is neither [Bearer <key>]
    nor the bare [<key>] is answered with HTTP 401 and the body
    [{error: unauthorized}], and every request carrying [Bearer <key>]
    passes the gate and reaches its handler. *)
Theorem bearer_gate
    (sha256_hex : string -> string) (JSON_parse : string -> Result JsVal)
    (fetch : nat -> bool -> Z -> Classifier.FetchOutcome) (toNumber : string -> JsNum)
    (config : Config) (req : Request) :
  routerApiKey config <> EmptyString ->
  (authorization req <> Some ("Bearer " +:+ routerApiKey config) ->
   authorization req <> Some (routerApiKey config) ->
   forall st,
     serve sha256_hex JSON_parse fetch toNumber config req st
     = Some (Ok (ErrorReply 401 "unauthorized"), st))
  /\ (authorization req = Some ("Bearer " +:+ routerApiKey config) ->
      authHook config req = None
      /\ forall st,
           serve sha256_hex JSON_parse fetch toNumber config req st
           = tryCatch (handle sha256_hex JSON_parse fetch toNumber config req)
               (fun err => bind (log Log.Error "request error")
                             (fun _ => ret (ErrorReply 500 "internal_error"))) st).
Proof.
  intros Hkey. split.
  - intros Hb Hraw st. unfold serve.
    rewrite (authHook_rejects config req Hkey Hb Hraw). reflexivity.
  - intros Hb. pose proof (authHook_bearer config req Hb) as Hpass.
    split; [exact Hpass|]. intros st. unfold serve. rewrite Hpass. reflexivity.
Qed.

(** With the key [secret]: [Bearer wrong] is refused on every endpoint,
    [Bearer secret] passes. *)
Lemma bearer_gate_witness :
  (forall e : Endpoint,
     run (serve (fun input => input) Samples.parseNothing
            (fun _ _ _ => Classifier.Rejected Classifier.abortError) (fun _ => NaN)
            Samples.config
            {| endpoint := e; authorization := Some "Bearer wrong"; body := JUndefined |})
       Cache.NoopCache
     = Some (Ok (ErrorReply 401 "unauthorized"), {| trace := []; store := Cache.NoopCache |}))
  /\ authHook Samples.config (Samples.healthRequest "Bearer secret") = None.
Proof.
  split.
  - intros e.
    apply (proj1 (bearer_gate (fun input => input) Samples.parseNothing
                    (fun _ _ _ => Classifier.Rejected Classifier.abortError) (fun _ => NaN)
                    Samples.config
                    {| endpoint := e; authorization := Some "Bearer wrong"; body := JUndefined |}
                    ltac:(discriminate)));
      discriminate.
  - apply (proj2 (bearer_gate (fun input => input) Samples.parseNothing
                    (fun _ _ _ => Classifier.Rejected Classifier.abortError) (fun _ => NaN)
                    Samples.config (Samples.healthRequest "Bearer secret")
                    ltac:(discriminate))).
    reflexivity.
Defined.

End GateFacts.

(* ===================================================================== *)
(** * cache.js: which backend can fail *)
(* ===================================================================== *)

Module CacheFacts.
Import Js Log Cache.

(** The inert and the in-process backend never throw. *)
Lemma local_backends_never_throw (c : DecisionCache) (key value : string) :
  (forall client ttlSec, c <> RedisCache client ttlSec) ->
  (exists found, get c key = Ok found) /\ fst (set c key value) = Ok tt.
Proof.
  intros Hlocal. destruct c as [|entries|client ttlSec].
  - split; [eexists|]; reflexivity.
  - split; [eexists|]; reflexivity.
  - exfalso. apply (Hlocal client ttlSec). reflexivity.
Qed.

(** The remote backend hands on what its client throws. *)
Lemma remote_backend_throws (client : RedisClient) (ttlSec : Z) (key value : string)
    (e : JsError) :
  (client_get client key = Throw e -> get (RedisCache client ttlSec) key = Throw e)
  /\ (client_setEx client key ttlSec value = Throw e ->
      fst (set (RedisCache client ttlSec) key value) = Throw e).
Proof. split; intros H; simpl; rewrite H; reflexivity. Qed.

(** The in-process backend reads back what was written, as long as the
    entry has not grown stale. *)
Lemma memory_read_your_writes (lru : LruCache) (key value : string) :
  lru_ttl lru <= 0
  \/ lru_clock lru (S (lru_ops lru)) - lru_clock lru (lru_ops lru) <= lru_ttl lru ->
  get (snd (set (MemoryCache lru) key value)) key = Ok (Some value).
Proof.
  intros Hlive. cbn [set snd get]. unfold lruGet, lruSet, entryOf.
  cbn [lru_entries List.find entry_key]. rewrite String.eqb_refl.
  unfold isStale, lruNow. cbn [lru_ttl lru_clock lru_ops entry_start entry_value].
  destruct (0 <? lru_ttl lru) eqn:Hpos; [|reflexivity].
  apply Z.ltb_lt in Hpos. destruct Hlive as [Hnone | Hfresh]; [lia|].
  apply Z.ltb_ge in Hfresh. rewrite Hfresh. reflexivity.
Qed.

(** An entry that has outlived the time to live is not read back. *)
Lemma memory_forgets_stale_entries (lru : LruCache) (key value : string) :
  0 < lru_ttl lru ->
  lru_ttl lru < lru_clock lru (S (lru_ops lru)) - lru_clock lru (lru_ops lru) ->
  get (snd (set (MemoryCache lru) key value)) key = Ok None.
Proof.
  intros Hpos Hold. cbn [set snd get]. unfold lruGet, lruSet, entryOf.
  cbn [lru_entries List.find entry_key]. rewrite String.eqb_refl.
  unfold isStale, lruNow. cbn [lru_ttl lru_clock lru_ops entry_start entry_value].
  apply Z.ltb_lt in Hpos, Hold. rewrite Hpos, Hold. reflexivity.
Qed.

(** A full cache drops its least recently used entry for a new key. *)
Lemma memory_evicts_least_recently_used (lru : LruCache) (key value : string) :
  0 < lru_max lru ->
  entryOf key (lru_entries lru) = None ->
  lru_max lru <= Z.of_nat (length (lru_entries lru)) ->
  map entry_key (lru_entries (lruSet lru key value))
  = key :: map entry_key (List.removelast (lru_entries lru)).
Proof.
  intros Hpos Hnew Hfull. unfold lruSet. cbn [lru_entries map entry_key].
  assert (Hsame : without key (lru_entries lru) = lru_entries lru).
  { unfold entryOf in Hnew. unfold without.
    clear Hfull. induction (lru_entries lru) as [|entry entries IH]; [reflexivity|].
    cbn [List.find List.filter] in *.
    destruct (String.eqb key (entry_key entry)); [discriminate|].
    cbn [negb]. rewrite (IH Hnew). reflexivity. }
  rewrite Hsame. apply Z.ltb_lt in Hpos. apply Z.leb_le in Hfull.
  rewrite Hpos, Hfull. reflexivity.
Qed.

(** A store that cannot be reached when the cache is created is replaced
    by the in-process backend, with a warning. *)
Lemma unreachable_store_falls_back (config : CacheConfig)
    (connect : string -> Result RedisClient) (clock : nat -> Z) (e : JsError) :
  cache_enabled config = true ->
  connect (redisUrl config) = Throw e ->
  exists warnings,
    createDecisionCache config connect clock
    = (newMemoryCache (maxEntries config) (ttlMs config) clock, warnings)
    /\ (redisUrl config <> EmptyString ->
        warnings = [Logged Warn "redis unavailable, falling back to memory cache"]).
Proof.
  intros Hen Hconn. unfold createDecisionCache. rewrite Hen. simpl.
  destruct (redisUrl config) as [|c url] eqn:Hurl; simpl.
  - eexists. split; [reflexivity|]. intros H. contradiction.
  - rewrite Hconn. eexists. split; [reflexivity|]. intros _. reflexivity.
Qed.

End CacheFacts.

(* ===================================================================== *)
(** * classifier.js: the retry policy *)
(* ===================================================================== *)

Module ClassifierFacts.
Import Js Log Eff Classifier.

Lemma lift_run {A} (r : Result A) (st : State) : lift r st = Some (r, st).
Proof. destruct r; reflexivity. Qed.

Section Retry.

Variable JSON_parse : string -> Result JsVal.
Variable fetch : nat -> bool -> Z -> FetchOutcome.

Local Abbreviation runClassifier := (runClassifier JSON_parse fetch).
Local Abbreviation attemptClassification := (attemptClassification JSON_parse fetch).
Local Abbreviation classifyLoop := (classifyLoop JSON_parse fetch).
Local Abbreviation classifyRequest := (classifyRequest JSON_parse fetch).

(** One call: the outcome is what the endpoint decides; the call is on the
    trace with the time limit of the configuration. *)
Lemma runClassifier_run (config : ClassifierConfig) (stream : bool) (st : State) :
  runClassifier config stream st
  = Some (decodeOutcome JSON_parse stream
            (fetch (length (List.filter is_fetch (trace st))) stream (timeoutMs config)),
          extend st (ClassifierFetch stream (timeoutMs config))).
Proof. unfold Classifier.runClassifier, bind, fetchCount, emit. apply lift_run. Qed.

Lemma callsOf_one (t : Z) (stream : bool) : callsOf t [ClassifierFetch stream t].
Proof. split; [discriminate|]. repeat constructor. eauto. Qed.

Lemma callsOf_two (t : Z) (s1 s2 : bool) :
  callsOf t [ClassifierFetch s1 t; ClassifierFetch s2 t].
Proof. split; [discriminate|]. repeat constructor; eauto. Qed.

(** An attempt always comes back: with a decision or an error, after one
    or two calls under the time limit of its configuration, and without
    touching the cache. *)
Lemma attemptClassification_run (config : ClassifierConfig) (st : State) :
  exists r evs,
    attemptClassification config st
    = Some (r, {| trace := trace st ++ evs; store := store st |})
    /\ callsOf (timeoutMs config) evs.
Proof.
  unfold Classifier.attemptClassification, bind.
  rewrite runClassifier_run.
  destruct (decodeOutcome _ _ _) as [[d|]|e].
  - eexists _, [_]. split; [reflexivity | apply callsOf_one].
  - destruct (forceStream config); cbv beta iota delta [negb];
      rewrite runClassifier_run;
      destruct (decodeOutcome _ _ _) as [[d|]|e];
      eexists _, [_; _]; (split; [unfold extend, ret, throw; simpl; rewrite <- app_assoc; reflexivity
                                 | apply callsOf_two]).
  - eexists _, [_]. split; [reflexivity | apply callsOf_one].
Qed.

(** [withTimeout] changes the time limit only. *)
Lemma withTimeout_retries (config : ClassifierConfig) (t : Z) :
  loadingMaxRetries (withTimeout config t) = loadingMaxRetries config.
Proof. reflexivity. Qed.

(** The loop comes back whenever its fuel covers the rounds that are
    left. *)
Lemma classifyLoop_total (fuel : nat) :
  forall (loadingRetries : Z) (timeoutRetried : bool) (config : ClassifierConfig) (st : State),
    (roundsLeft config loadingRetries timeoutRetried <= fuel)%nat ->
    exists r st', classifyLoop fuel loadingRetries timeoutRetried config st = Some (r, st').
Proof.
  induction fuel as [|fuel IH]; intros lr tr config st Hfuel.
  - unfold roundsLeft in Hfuel. lia.
  - simpl. unfold tryCatch, bind.
    destruct (attemptClassification_run config st) as (r & evs & -> & _).
    destruct r as [d|e]; [simpl; eauto|].
    destruct (isAbortError e && negb tr) eqn:Habort.
    + apply andb_true_iff in Habort as [_ Htr].
      destruct tr; [discriminate|].
      unfold log, emit. apply IH.
      unfold roundsLeft in *. rewrite withTimeout_retries. lia.
    + destruct (isModelLoadingError e && (lr <? default 1 (loadingMaxRetries config))) eqn:Hload.
      * apply andb_true_iff in Hload as [_ Hlt]. apply Z.ltb_lt in Hlt.
        unfold log, emit. apply IH.
        unfold roundsLeft in *. destruct tr; lia.
      * unfold throw. eauto.
Qed.

(** [classifyRequest] always comes back. *)
Lemma classifyRequest_total (payload : JsVal) (config : ClassifierConfig) (st : State) :
  exists r st', classifyRequest payload config st = Some (r, st').
Proof.
  unfold Classifier.classifyRequest, bind. rewrite lift_run.
  destruct (Utils.buildClassifierInput _ _ _) as [input|e]; [|eauto].
  apply classifyLoop_total. unfold roundsLeft, rounds. lia.
Qed.

(** A first timeout sends the loop into one more round, under the raised
    time limit and with the retry spent. *)
Lemma first_timeout_retries (fuel : nat) (loadingRetries : Z) (config : ClassifierConfig)
    (st st1 : State) (e : JsError) :
  attemptClassification config st = Some (Throw e, st1) ->
  isAbortError e = true ->
  classifyLoop (S fuel) loadingRetries false config st
  = classifyLoop fuel loadingRetries true
      (withTimeout config (Z.max (timeoutMs config * 2) 8000))
      (extend st1 (Logged Warn "classifier timeout, retrying once")).
Proof.
  intros Hattempt Habort. simpl. unfold tryCatch, bind at 1.
  rewrite Hattempt, Habort. reflexivity.
Qed.

(** Once the retry is spent, a timeout leaves the loop as the error of
    the classification. *)
Lemma later_timeout_propagates (fuel : nat) (loadingRetries : Z) (config : ClassifierConfig)
    (st st1 : State) (e : JsError) :
  attemptClassification config st = Some (Throw e, st1) ->
  isAbortError e = true ->
  isModelLoadingError e = false ->
  classifyLoop (S fuel) loadingRetries true config st = Some (Throw e, st1).
Proof.
  intros Hattempt Habort Hload. simpl. unfold tryCatch, bind at 1.
  rewrite Hattempt, Habort, Hload. reflexivity.
Qed.

(** The rejection of an aborted call is a timeout for the loop and no
    model-loading error. *)
Lemma abortError_kind :
  isAbortError abortError = true /\ isModelLoadingError abortError = false.
Proof. split; reflexivity. Qed.

(** A first attempt that fails with an error that [isAbortError] accepts
    is retried once, with the limit raised to [max (2 * configured, 8000)]
    milliseconds: the retry takes place and every call of it carries that
    limit; when the retry fails the same way, its error leaves the loop,
    and with it [classifyRequest], and no further attempt is made. *)
Theorem timeout_retried_once (fuel : nat) (loadingRetries : Z) (config : ClassifierConfig)
    (st st1 : State) (e1 : JsError) :
  attemptClassification config st = Some (Throw e1, st1) ->
  isAbortError e1 = true ->
  let raised := withTimeout config (Z.max (2 * timeoutMs config) 8000) in
  let st1' := extend st1 (Logged Warn "classifier timeout, retrying once") in
  exists r evs,
    attemptClassification raised st1'
    = Some (r, {| trace := trace st1' ++ evs; store := store st1' |})
    /\ callsOf (Z.max (2 * timeoutMs config) 8000) evs
    /\ (forall d, r = Ok d ->
          classifyLoop (S (S fuel)) loadingRetries false config st
          = Some (Ok d, extend {| trace := trace st1' ++ evs; store := store st1' |}
                          (Logged Debug "classifier decision")))
    /\ (forall e2, r = Throw e2 ->
          isAbortError e2 = true -> isModelLoadingError e2 = false ->
          classifyLoop (S (S fuel)) loadingRetries false config st
          = Some (Throw e2, {| trace := trace st1' ++ evs; store := store st1' |})
          /\ forall payload input,
               Utils.buildClassifierInput payload (strategy config) (maxChars config)
               = Ok input ->
               classifyRequest payload config st
               = Some (Throw e2, {| trace := trace st1' ++ evs; store := store st1' |})).
Proof.
  intros Hattempt Habort raised st1'.
  destruct (attemptClassification_run raised st1') as (r & evs & Hretry & Hcalls).
  exists r, evs. split; [exact Hretry|]. split; [exact Hcalls|].
  assert (Hround : forall n,
             classifyLoop (S (S n)) loadingRetries false config st
             = classifyLoop (S n) loadingRetries true raised st1').
  { intros n. rewrite (first_timeout_retries _ _ _ _ _ _ Hattempt Habort).
    unfold raised. rewrite (Z.mul_comm 2). reflexivity. }
  split.
  - intros d ->. rewrite Hround. simpl. unfold tryCatch, bind at 1.
    rewrite Hretry. reflexivity.
  - intros e2 -> Habort2 Hload2.
    assert (Hlater : forall n,
               classifyLoop (S (S n)) loadingRetries false config st
               = Some (Throw e2, {| trace := trace st1' ++ evs; store := store st1' |})).
    { intros n. rewrite Hround. apply later_timeout_propagates; assumption. }
    split; [apply Hlater|].
    intros payload input Hinput.
    unfold Classifier.classifyRequest, bind. rewrite lift_run, Hinput.
    unfold rounds.
    assert (Hzero : forall n,
               Classifier.classifyLoop JSON_parse fetch (S (S n)) 0 false config st
               = Some (Throw e2, {| trace := trace st1' ++ evs; store := store st1' |})).
    { intros n. rewrite (first_timeout_retries _ _ _ _ _ _ Hattempt Habort).
      replace (timeoutMs config * 2) with (2 * timeoutMs config) by apply Z.mul_comm.
      apply later_timeout_propagates; assumption. }
    apply Hzero.
Qed.

End Retry.

(** A classifier that never answers in time: two calls, under 800 and
    under 8000 milliseconds, then the abort error. *)
Lemma timeout_retried_once_witness :
  Server.run (classifyRequest Samples.parseNothing Samples.alwaysAborts
                Samples.payload_a Samples.classifierConfig) Cache.NoopCache
  = Some (Throw abortError,
          {| trace := [ClassifierFetch true 800;
                       Logged Warn "classifier timeout, retrying once";
                       ClassifierFetch true 8000];
             store := Cache.NoopCache |}).
Proof.
  destruct (timeout_retried_once Samples.parseNothing Samples.alwaysAborts
              0 0 Samples.classifierConfig
              {| trace := []; store := Cache.NoopCache |}
              {| trace := [ClassifierFetch true 800]; store := Cache.NoopCache |}
              abortError eq_refl eq_refl)
    as (r & evs & Hretry & _ & _ & Hthrow).
  vm_compute in Hretry. injection Hretry as Hr Hevs.
  destruct (Hthrow abortError (eq_sym Hr) eq_refl eq_refl) as [_ Hrequest].
  unfold Server.run. rewrite (Hrequest Samples.payload_a "2+2?" eq_refl).
  rewrite <- Hevs. reflexivity.
Defined.

(** C6 at a failing input: the request of the examples, under the limit
    of 800 milliseconds.  When the limit runs out before the response
    arrives, [fetch] rejects and the classification is retried once, under
    8000 milliseconds, as the claim says.  When the limit runs out while
    the body of a response that is not OK is read, [safeReadText] swallows
    the abort and returns the empty text; the call throws
    [classifier error: 503 ], which [isAbortError] does not accept, and
    [classifyRequest] throws it after that one call: the timeout is not
    retried. *)
Theorem timeout_in_error_body_is_not_retried :
  let classify fetch :=
    Server.run (classifyRequest Samples.parseNothing fetch
                  Samples.payload_a Samples.classifierConfig) Cache.NoopCache in
  classify Samples.alwaysAborts
  = Some (Throw abortError,
          {| trace := [ClassifierFetch true 800;
                       Logged Warn "classifier timeout, retrying once";
                       ClassifierFetch true 8000];
             store := Cache.NoopCache |})
  /\ bodyText MoreSamples.abortedErrorBody = Throw abortError
  /\ safeReadText MoreSamples.abortedErrorBody = EmptyString
  /\ classify (fun _ _ _ => Responded MoreSamples.abortedErrorBody)
     = Some (Throw (classifierError 503 EmptyString),
             {| trace := [ClassifierFetch true 800]; store := Cache.NoopCache |})
  /\ isAbortError (classifierError 503 EmptyString) = false.
Proof.
  split; [reflexivity|]. split; [reflexivity|]. split; [reflexivity|].
  split; reflexivity.
Qed.

End ClassifierFacts.

(* ===================================================================== *)
(** * server.js: classification, cache and fallback in the handler *)
(* ===================================================================== *)

Module HandlerFacts.
Import Js Log Eff Config Server.

Section Handler.

Variable sha256_hex : string -> string.
Variable JSON_parse : string -> Result JsVal.
Variable fetch : nat -> bool -> Z -> Classifier.FetchOutcome.
Variable toNumber : string -> JsNum.
Variable config : Config.

Local Abbreviation classify := (Classifier.classifyRequest JSON_parse fetch).
Local Abbreviation serve := (serve sha256_hex JSON_parse fetch toNumber config).
Local Abbreviation chatCompletions :=
  (chatCompletions sha256_hex JSON_parse fetch toNumber config).

Local Abbreviation classifyAndStore :=
  (classifyAndStore JSON_parse fetch config).
Local Abbreviation dispatch := (dispatch config).

(** A well-formed request that misses the cache, or meets none, goes on to
    the classifier. *)
Lemma chatCompletions_miss (payload : JsVal) (st : State) :
  truthy payload = true ->
  truthy (prop payload "messages") = true ->
  Classifier.enabled (classifier config) = true ->
  (Cache.cache_enabled (Config.cache config) = true ->
   Cache.get (store st) (Utils.hashPayload sha256_hex payload) = Ok None) ->
  chatCompletions payload st
  = bind (classifyAndStore payload (Utils.hashPayload sha256_hex payload)) dispatch
      (lookedUp config (Utils.hashPayload sha256_hex payload) st).
Proof.
  intros Hp Hm Hen Hmiss.
  unfold Server.chatCompletions, lookedUp, lookup.
  rewrite Hp, Hm, Hen. cbv beta iota delta [negb orb].
  destruct (Cache.cache_enabled (Config.cache config)) eqn:Hc.
  - unfold bind at 1. unfold bind at 1. unfold bind at 1. unfold cacheGet.
    rewrite (Hmiss eq_refl). reflexivity.
  - reflexivity.
Qed.

(** A request that has passed the gate is answered by its handler, and by
    the error handler of the application when that throws. *)
Lemma serve_chat (req : Request) (st : State) :
  endpoint req = PostChatCompletions ->
  authHook config req = None ->
  serve req st
  = tryCatch (chatCompletions (body req))
      (fun err => bind (log Log.Error "request error")
                    (fun _ => ret (ErrorReply 500 "internal_error"))) st.
Proof. intros He Ha. unfold Server.serve, handle. rewrite Ha, He. reflexivity. Qed.

(** C1: for a request with a [messages] field, when the classifier is
    enabled, the cache misses or is disabled, and [classifyRequest] throws,
    whatever the error, the handler sets the decision to 2, hands the
    request to the frontier upstream and logs a warning; the client gets
    the response of that upstream, no error reply. *)
Theorem classifier_failure_routes_to_frontier (req : Request) (st st1 : State) (e : JsError) :
  endpoint req = PostChatCompletions ->
  authHook config req = None ->
  truthy (body req) = true ->
  truthy (prop (body req) "messages") = true ->
  Classifier.enabled (classifier config) = true ->
  (Cache.cache_enabled (Config.cache config) = true ->
   Cache.get (store st) (Utils.hashPayload sha256_hex (body req)) = Ok None) ->
  classify (body req) (classifier config)
    (lookedUp config (Utils.hashPayload sha256_hex (body req)) st)
  = Some (Throw e, st1) ->
  serve req st
  = Some (Ok (Proxied frontier (Int 2) (Config.frontier (upstreams config))),
          extend st1 (Logged Warn "classifier failed, falling back to frontier")).
Proof.
  intros He Ha Hp Hm Hen Hmiss Hcls.
  rewrite (serve_chat req st He Ha). unfold tryCatch at 1.
  rewrite (chatCompletions_miss _ _ Hp Hm Hen Hmiss).
  unfold bind at 1, Server.classifyAndStore, tryCatch, bind at 1.
  rewrite Hcls. reflexivity.
Qed.

(** A well-formed request whose cache entry is missing, or holds what
    [Number] turns into not-a-number, goes on to the classifier. *)
Lemma chatCompletions_unusable (payload : JsVal) (st : State) (found : option string) :
  truthy payload = true ->
  truthy (prop payload "messages") = true ->
  Classifier.enabled (classifier config) = true ->
  Cache.cache_enabled (Config.cache config) = true ->
  Cache.get (store st) (Utils.hashPayload sha256_hex payload) = Ok found ->
  (forall cached, found = Some cached -> isNaN (toNumber cached) = true) ->
  chatCompletions payload st
  = bind (classifyAndStore payload (Utils.hashPayload sha256_hex payload)) dispatch
      (afterRead st (Utils.hashPayload sha256_hex payload)).
Proof.
  intros Hp Hm Hen Hc Hget Hnan.
  unfold Server.chatCompletions, lookup.
  rewrite Hp, Hm, Hen, Hc. cbv beta iota delta [negb orb].
  unfold bind at 1. unfold bind at 1. unfold bind at 1. unfold cacheGet.
  rewrite Hget. destruct found as [cached|]; cbn [option_map]; unfold ret at 1; cbv beta iota.
  - rewrite (Hnan cached eq_refl). reflexivity.
  - reflexivity.
Qed.

(** C10: classification and store are one guarded block.  Whenever the
    handler classifies (the cache, which is on, gave no entry for the
    request, or one that [Number] turns into not-a-number),
    [classifyRequest] returns 0 or 1 and the [cache.set] that follows
    throws, the handler drops that decision, sets the decision to 2 and
    hands the request to the frontier upstream, not to the tier that the
    classifier chose. *)
Theorem failed_store_discards_decision (req : Request) (st st1 : State)
    (found : option string) (d : Z) (e : JsError) (c' : Cache.DecisionCache) :
  endpoint req = PostChatCompletions ->
  authHook config req = None ->
  truthy (body req) = true ->
  truthy (prop (body req) "messages") = true ->
  Classifier.enabled (classifier config) = true ->
  Cache.cache_enabled (Config.cache config) = true ->
  Cache.get (store st) (Utils.hashPayload sha256_hex (body req)) = Ok found ->
  (forall cached, found = Some cached -> isNaN (toNumber cached) = true) ->
  classify (body req) (classifier config)
    (afterRead st (Utils.hashPayload sha256_hex (body req)))
  = Some (Ok d, st1) ->
  d = 0 \/ d = 1 ->
  Cache.set (store st1) (Utils.hashPayload sha256_hex (body req)) (Z_to_string d)
  = (Throw e, c') ->
  routeOf (Int d) <> frontier
  /\ serve req st
     = Some (Ok (Proxied frontier (Int 2) (Config.frontier (upstreams config))),
             {| trace := trace st1
                         ++ [CacheWrite (Utils.hashPayload sha256_hex (body req)) (Z_to_string d);
                             Logged Warn "classifier failed, falling back to frontier"];
                store := c' |}).
Proof.
  intros He Ha Hp Hm Hen Hc Hget Hnan Hcls Hd Hset.
  split; [destruct Hd as [-> | ->]; discriminate|].
  rewrite (serve_chat req st He Ha). unfold tryCatch at 1.
  rewrite (chatCompletions_unusable _ _ found Hp Hm Hen Hc Hget Hnan).
  unfold bind at 1, Server.classifyAndStore, tryCatch, bind at 1.
  rewrite Hcls, Hc. unfold bind at 1, cacheSet. rewrite Hset.
  unfold bind, log, emit, ret, extend. simpl. rewrite <- app_assoc. reflexivity.
Qed.

(** An error of [cache.get] leaves the handler: the client is served the
    reply of the error handler. *)
Lemma cache_get_error_is_internal_error (req : Request) (st : State) (e : JsError) :
  endpoint req = PostChatCompletions ->
  authHook config req = None ->
  truthy (body req) = true ->
  truthy (prop (body req) "messages") = true ->
  Classifier.enabled (classifier config) = true ->
  Cache.cache_enabled (Config.cache config) = true ->
  Cache.get (store st) (Utils.hashPayload sha256_hex (body req)) = Throw e ->
  serve req st
  = Some (Ok (ErrorReply 500 "internal_error"),
          extend (afterRead st (Utils.hashPayload sha256_hex (body req)))
            (Logged Log.Error "request error")).
Proof.
  intros He Ha Hp Hm Hen Hc Hget.
  rewrite (serve_chat req st He Ha). unfold tryCatch at 1.
  unfold Server.chatCompletions, lookup.
  rewrite Hp, Hm, Hen, Hc. cbv beta iota delta [negb orb].
  unfold bind at 1. unfold bind at 1. unfold bind at 1. unfold cacheGet.
  rewrite Hget. reflexivity.
Qed.

End Handler.

(** The sample request with a classifier that never answers in time *)
Lemma classifier_failure_routes_to_frontier_witness :
  Server.run (Server.serve (fun input => input) Samples.parseNothing Samples.alwaysAborts
                Samples.digitsNumber Samples.config (Samples.chatRequest "Bearer secret"))
    (Cache.RedisCache Samples.emptyClient 3600)
  = Some (Ok (Proxied frontier (Int 2) (Some Samples.frontierUp)),
          {| trace :=
               [CacheRead (Utils.hashPayload (fun input => input) Samples.payload_a);
                ClassifierFetch true 800;
                Logged Warn "classifier timeout, retrying once";
                ClassifierFetch true 8000;
                Logged Warn "classifier failed, falling back to frontier"];
             store := Cache.RedisCache Samples.emptyClient 3600 |}).
Proof.
  apply (classifier_failure_routes_to_frontier (fun input => input) Samples.parseNothing
           Samples.alwaysAborts Samples.digitsNumber Samples.config
           (Samples.chatRequest "Bearer secret")
           {| trace := []; store := Cache.RedisCache Samples.emptyClient 3600 |}
           {| trace :=
                [CacheRead (Utils.hashPayload (fun input => input) Samples.payload_a);
                 ClassifierFetch true 800;
                 Logged Warn "classifier timeout, retrying once";
                 ClassifierFetch true 8000];
              store := Cache.RedisCache Samples.emptyClient 3600 |}
           Classifier.abortError);
    reflexivity.
Defined.

(** The sample request, the classifier answering 0, a store that holds a
    word where a digit should be and refuses the write *)
Lemma failed_store_discards_decision_witness :
  routeOf (Int 0) = cheap
  /\ Server.run (Server.serve (fun input => input) (Samples.parseTable [Samples.deltaEvent "0"])
                   (Samples.answers "0") Samples.digitsNumber Samples.config
                   (Samples.chatRequest "Bearer secret"))
       (Cache.RedisCache MoreSamples.garbledClient 3600)
     = Some (Ok (Proxied frontier (Int 2) (Some Samples.frontierUp)),
             {| trace :=
                  [CacheRead (Utils.hashPayload (fun input => input) Samples.payload_a);
                   ClassifierFetch true 800;
                   Logged Debug "classifier decision";
                   CacheWrite (Utils.hashPayload (fun input => input) Samples.payload_a) "0";
                   Logged Warn "classifier failed, falling back to frontier"];
                store := Cache.RedisCache MoreSamples.garbledClient 3600 |}).
Proof.
  split; [reflexivity|].
  apply (failed_store_discards_decision (fun input => input)
           (Samples.parseTable [Samples.deltaEvent "0"])
           (Samples.answers "0") Samples.digitsNumber Samples.config
           (Samples.chatRequest "Bearer secret")
           {| trace := []; store := Cache.RedisCache MoreSamples.garbledClient 3600 |}
           {| trace :=
                [CacheRead (Utils.hashPayload (fun input => input) Samples.payload_a);
                 ClassifierFetch true 800;
                 Logged Debug "classifier decision"];
              store := Cache.RedisCache MoreSamples.garbledClient 3600 |}
           (Some "cheap") 0 Samples.connectionError
           (Cache.RedisCache MoreSamples.garbledClient 3600));
    try reflexivity.
  - intros cached [= <-]. reflexivity.
  - left; reflexivity.
Defined.

(** C5 at a failing input: the request of the examples, the remote store
    for cache, the classifier answering 0.  With a store that answers, the
    request goes to the cheap tier.  With a store whose connection is
    lost, the error of [cache.get] leaves the handler and the client is
    served a 500; with a store that only fails on writes, the error of
    [cache.set] turns the response into that of the frontier tier. *)
Theorem cache_errors_change_the_response :
  let serveWith client :=
    option_map fst
      (Server.run (Server.serve (fun input => input)
                     (Samples.parseTable [Samples.deltaEvent "0"])
                     (Samples.answers "0") Samples.digitsNumber Samples.config
                     (Samples.chatRequest "Bearer secret"))
         (Cache.RedisCache client 3600)) in
  serveWith Samples.emptyClient
  = Some (Ok (Proxied cheap (Int 0) (Config.cheap (upstreams Samples.config))))
  /\ serveWith Samples.closedClient = Some (Ok (ErrorReply 500 "internal_error"))
  /\ serveWith Samples.readOnlyClient
     = Some (Ok (Proxied frontier (Int 2) (Config.frontier (upstreams Samples.config)))).
Proof. repeat split. Qed.

End HandlerFacts.

(* ===================================================================== *)
(** * The translated stream *)
(* ===================================================================== *)

Module StreamFacts.
Import Js Providers.

Section Stream.

Variable randomSuffix : nat -> string.
Variable nowMs : nat -> Z.
Variable JSON_parse : string -> Result JsVal.

Local Abbreviation chunkPayload := (chunkPayload randomSuffix nowMs).
Local Abbreviation writeOpenAiChunk := (writeOpenAiChunk randomSuffix nowMs).

(** What [writeOpenAiChunk] writes is a content chunk when its text is
    truthy, and never a terminator. *)
Lemma chunk_is_content (n : nat) (text model : JsVal) :
  isContentChunk (Data (chunkPayload n text model)) = truthy text.
Proof. reflexivity. Qed.

Lemma chunk_is_no_terminator (n : nat) (text model : JsVal) :
  isTerminator (Data (chunkPayload n text model)) = false.
Proof. reflexivity. Qed.

Lemma onlyContent_write (reply : Reply) (text model : JsVal) :
  onlyContent reply -> truthy text = true ->
  onlyContent (writeOpenAiChunk reply text model).
Proof.
  intros H Ht. unfold onlyContent, Providers.writeOpenAiChunk. simpl.
  apply Forall_app. split; [exact H|].
  constructor; [|constructor]. rewrite chunk_is_content. exact Ht.
Qed.

Lemma onlyContent_record (reply : Reply) (usage : JsVal) :
  onlyContent reply -> onlyContent (recordUsage reply usage).
Proof. intros H. exact H. Qed.

Ltac split_usage :=
  match goal with
  | |- context [if ?c then (recordUsage ?r ?u, true) else ?s] =>
      let st1 := fresh "st1" in
      let H1 := fresh "H1" in
      set (st1 := if c then (recordUsage r u, true) else s);
      assert (H1 : onlyContent (fst st1))
        by (unfold st1; destruct c; [apply onlyContent_record|]; assumption)
  end.

Lemma anthropicEvent_content (model : JsVal) :
  contentStep (anthropicEvent randomSuffix nowMs JSON_parse model).
Proof.
  intros [reply used] data H. unfold anthropicEvent.
  destruct (JSON_parse data) as [json|]; [|exact H].
  split_usage.
  destruct (member json "type") as [type|]; [|exact H1].
  destruct (is_str type "content_block_delta" && _) eqn:E; [|exact H1].
  apply andb_true_iff in E as [_ Ht]. simpl. apply onlyContent_write; assumption.
Qed.

Lemma geminiEvent_content (model : JsVal) :
  contentStep (geminiEvent randomSuffix nowMs JSON_parse model).
Proof.
  intros [reply used] data H. unfold geminiEvent.
  destruct (JSON_parse data) as [json|]; [|exact H].
  split_usage.
  destruct (extractGeminiText json) as [text|]; [|exact H1].
  destruct (truthy text) eqn:Ht; [|exact H1].
  simpl. apply onlyContent_write; assumption.
Qed.

Lemma cohereEvent_content (model : JsVal) :
  contentStep (cohereEvent randomSuffix nowMs JSON_parse model).
Proof.
  intros [reply used] data H. unfold cohereEvent.
  destruct (JSON_parse data) as [json|]; [|exact H].
  cbv zeta. split_usage.
  destruct (truthy (extractCohereStreamText json)) eqn:Ht; [|exact H1].
  simpl. apply onlyContent_write; assumption.
Qed.

Lemma forEachEvent_content step (events : list string) :
  contentStep step ->
  forall st, onlyContent (fst st) -> onlyContent (fst (forEachEvent step events st)).
Proof.
  intros Hstep. induction events as [|data events IH]; intros st H; simpl; [exact H|].
  pose proof (Hstep st data H) as H'.
  destruct (step st data) as [st' [e|]]; [exact H'|].
  apply IH, H'.
Qed.

(** The frames of a translated stream, whatever the upstream sends: when
    the branch runs to its end, content chunks followed by the
    [data: [DONE]] line and nothing else; in every case, no terminator
    chunk. *)
Lemma streamBranch_frames step (res : Classifier.Response) :
  contentStep step ->
  let '(reply, err) := streamBranch step res in
  (err = None -> exists chunks,
      frames reply = chunks ++ [Done]
      /\ Forall (fun f => isContentChunk f = true) chunks)
  /\ Forall (fun f => isTerminator f = false) (frames reply).
Proof.
  intros Hstep. unfold streamBranch.
  destruct (readSse res) as [events failure].
  pose proof (forEachEvent_content step events Hstep
                (initOpenAiStream (Classifier.res_status res), false)
                (@List.Forall_nil _ _)) as H.
  destruct (forEachEvent _ _ _) as [reply err]. simpl in H.
  assert (Hno : Forall (fun f => isTerminator f = false) (frames reply)).
  { eapply List.Forall_impl; [|exact H].
    intros [payload|] Hc; [|reflexivity].
    unfold isContentChunk in Hc. unfold isTerminator.
    apply andb_true_iff in Hc as [-> Hc]. simpl.
    destruct (prop (firstChoice payload) "delta") as [| | | | |items|fields]; try reflexivity.
    destruct fields; [discriminate Hc | reflexivity]. }
  destruct err as [e|]; [split; [discriminate | exact Hno]|].
  destruct failure as [e|]; [split; [discriminate | exact Hno]|].
  split.
  - intros _. exists (frames reply). split; [reflexivity | exact H].
  - simpl. apply Forall_app. split; [exact Hno|]. repeat constructor.
Qed.

End Stream.

(** C2 at a failing input: the Anthropic stream of a message start and the
    text deltas [Hi] and [ there].  The client is sent the two content
    chunks and then the [data: [DONE]] line; no chunk with an empty delta
    and the finish reason [stop] comes between them. *)
Theorem anthropic_stream_lacks_terminator :
  let '(reply, err) :=
    proxyAnthropicStream Samples.fixedSuffix Samples.fixedClock Samples.anthropicParse
      (JStr "claude") Samples.anthropicBody in
  err = None
  /\ frames reply
     = [Data (chunkPayload Samples.fixedSuffix Samples.fixedClock 0 (JStr "Hi") (JStr "claude"));
        Data (chunkPayload Samples.fixedSuffix Samples.fixedClock 1 (JStr " there") (JStr "claude"));
        Done]
  /\ map isContentChunk (frames reply) = [true; true; false]
  /\ existsb isTerminator (frames reply) = false
  /\ recorded reply = [prop (prop Samples.messageStart "message") "usage"].
Proof. vm_compute. repeat split. Qed.

End StreamFacts.

(* ===================================================================== *)
(** * utils.js: decision digit, truncation, classifier input *)
(* ===================================================================== *)

Module UtilsMore.
Import Js Utils Notions JsFacts.

Lemma firstDecisionDigit_skip (pre rest : string) :
  noDecisionChar pre = true ->
  firstDecisionDigit (pre +:+ rest) = firstDecisionDigit rest.
Proof.
  induction pre as [|c pre IH]; intros H; [reflexivity|].
  rewrite append_cons. simpl in *. unfold decisionOf in H.
  destruct (Ascii.eqb c "0"); [discriminate|].
  destruct (Ascii.eqb c "1"); [discriminate|].
  destruct (Ascii.eqb c "2"); [discriminate|].
  apply IH, H.
Qed.

Lemma firstDecisionDigit_head (c : ascii) (rest : string) (d : Z) :
  decisionOf c = Some d -> firstDecisionDigit (String c rest) = Some d.
Proof.
  unfold decisionOf. simpl.
  destruct (Ascii.eqb c "0"); [congruence|].
  destruct (Ascii.eqb c "1"); [congruence|].
  destruct (Ascii.eqb c "2"); [congruence | discriminate].
Qed.

Lemma firstDecisionDigit_none (s : string) :
  firstDecisionDigit s = None <-> noDecisionChar s = true.
Proof.
  induction s as [|c s IH]; simpl; [tauto|].
  unfold decisionOf.
  destruct (Ascii.eqb c "0"); [split; discriminate|].
  destruct (Ascii.eqb c "1"); [split; discriminate|].
  destruct (Ascii.eqb c "2"); [split; discriminate|].
  exact IH.
Qed.

Lemma firstDecisionDigit_range (s : string) (d : Z) :
  firstDecisionDigit s = Some d -> d = 0 \/ d = 1 \/ d = 2.
Proof.
  induction s as [|c s IH]; simpl; [discriminate|].
  destruct (Ascii.eqb c "0"); [intros [= <-]; auto|].
  destruct (Ascii.eqb c "1"); [intros [= <-]; auto|].
  destruct (Ascii.eqb c "2"); [intros [= <-]; auto|].
  exact IH.
Qed.

(** X1: in a text, [extractDecision] finds the first character among 0, 1
    and 2 and returns its value, whatever comes before and after it. *)
Theorem extractDecision_first_digit (pre rest : string) (c : ascii) (d : Z) :
  noDecisionChar pre = true ->
  decisionOf c = Some d ->
  extractDecision (JStr (pre +:+ String c rest)) = Some d.
Proof.
  intros Hpre Hc. unfold extractDecision.
  assert (Hne : truthy (JStr (pre +:+ String c rest)) = true).
  { simpl. destruct pre; reflexivity. }
  rewrite Hne. simpl.
  rewrite (firstDecisionDigit_skip _ _ Hpre). apply firstDecisionDigit_head, Hc.
Qed.

(** In [Route: 1 (medium), not 0] the answer is 1. *)
Lemma extractDecision_first_digit_witness :
  extractDecision (JStr "Route: 1 (medium), not 0") = Some 1.
Proof.
  apply (extractDecision_first_digit "Route: " " (medium), not 0" "1"%char 1);
    reflexivity.
Defined.

Lemma extractDecision_range_lemma :
  (forall text d, extractDecision text = Some d -> d = 0 \/ d = 1 \/ d = 2)
  /\ (forall s, extractDecision (JStr s) = None <-> noDecisionChar s = true).
Proof.
  split.
  - intros text d. unfold extractDecision.
    destruct (negb (truthy text)); [discriminate|]. apply firstDecisionDigit_range.
  - intros s. unfold extractDecision. simpl.
    destruct s as [|c s]; [simpl; tauto|].
    simpl negb. cbv iota. apply firstDecisionDigit_none.
Qed.

(** X2: [extractDecision] returns nothing but 0, 1 or 2, and on a string it
    returns [null] exactly when the string holds none of these three
    characters. *)
Theorem extractDecision_range :
  (forall text d, extractDecision text = Some d -> d = 0 \/ d = 1 \/ d = 2)
  /\ (forall s, extractDecision (JStr s) = None <-> noDecisionChar s = true).
Proof. exact extractDecision_range_lemma. Qed.

Lemma extractDecision_range_witness :
  extractDecision (JStr "cheap") = None /\ (0 = 0 \/ 0 = 1 \/ 0 = 2).
Proof.
  split.
  - apply (proj2 extractDecision_range "cheap"). reflexivity.
  - apply (proj1 extractDecision_range (JStr "tier 0") 0). reflexivity.
Defined.

Lemma length_append (a b : string) :
  String.length (a +:+ b) = (String.length a + String.length b)%nat.
Proof.
  induction a as [|c a IH]; [reflexivity|].
  rewrite append_cons. simpl. rewrite IH. reflexivity.
Qed.

Lemma units_range (c : ascii) : units c = 0%nat \/ units c = 1%nat \/ units c = 2%nat.
Proof.
  unfold units. destruct (_ <? 128)%nat; [auto|].
  destruct (_ <? 192)%nat; [auto|]. destruct (_ <? 240)%nat; auto.
Qed.

Lemma units_continuation (k : nat) :
  (128 <= k < 192)%nat -> units (ascii_of_nat k) = 0%nat.
Proof.
  intros [Hlow Hhigh]. unfold units. rewrite nat_ascii_embedding by lia.
  destruct (Nat.ltb_spec k 128); [lia|]. destruct (Nat.ltb_spec k 192); [reflexivity | lia].
Qed.

Lemma length16_cons (c : ascii) (r : string) :
  length16 (String c r) = (units c + length16 r)%nat.
Proof. reflexivity. Qed.

Lemma length16_append (a b : string) :
  length16 (a +:+ b) = (length16 a + length16 b)%nat.
Proof.
  induction a as [|c a IH]; [reflexivity|].
  rewrite append_cons, !length16_cons, IH. lia.
Qed.

(** The high surrogate that a cut leaves behind is one code unit. *)
Lemma length16_highSurrogate (c : ascii) (r : string) :
  length16 (highSurrogate c r) = 1%nat.
Proof.
  unfold highSurrogate. rewrite !length16_cons.
  rewrite (units_continuation (160 + _)), (units_continuation (128 + _)); [reflexivity| |].
  - pose proof (Nat.mod_upper_bound
                  ((nat_of_ascii c mod 8 * 256 + payloadAt 0 r * 4 + payloadAt 1 r / 16 - 64))
                  64 ltac:(lia)). lia.
  - pose proof (Nat.mod_upper_bound
                  ((nat_of_ascii c mod 8 * 256 + payloadAt 0 r * 4 + payloadAt 1 r / 16 - 64)
                   / 64) 16 ltac:(lia)). lia.
Qed.

Lemma slice16_cons (n : nat) (c : ascii) (r : string) :
  slice16 n (String c r)
  = match units c with
    | O => String c (slice16 n r)
    | S O => match n with
             | O => EmptyString
             | S n' => String c (slice16 n' r)
             end
    | S (S _) => match n with
                 | O => EmptyString
                 | S O => highSurrogate c r
                 | S (S n') => String c (slice16 n' r)
                 end
    end.
Proof. reflexivity. Qed.

(** A cut within the text gives as many code units as asked for. *)
Lemma length16_slice16 (s : string) :
  forall n, (n <= length16 s)%nat -> length16 (slice16 n s) = n.
Proof.
  induction s as [|c r IH]; intros n H.
  - cbn in H. assert (n = 0%nat) as -> by lia. reflexivity.
  - rewrite length16_cons in H. rewrite slice16_cons.
    destruct (units_range c) as [Hu | [Hu | Hu]]; rewrite Hu in *.
    + rewrite length16_cons, Hu. cbn [Nat.add]. apply IH. lia.
    + destruct n as [|n]; [reflexivity|].
      rewrite length16_cons, Hu, IH by lia. reflexivity.
    + destruct n as [|[|n]]; [reflexivity | apply length16_highSurrogate |].
      rewrite length16_cons, Hu, IH by lia. reflexivity.
Qed.

(** A cut at the end of a text that is followed by the first byte of a
    character gives the text. *)
Lemma slice16_append (a : string) (c : ascii) (b : string) :
  units c <> 0%nat -> slice16 (length16 a) (a +:+ String c b) = a.
Proof.
  intros Hc. induction a as [|x a IH].
  - rewrite append_nil, slice16_cons. cbn [length16].
    destruct (units_range c) as [Hu | [Hu | Hu]]; rewrite Hu; [contradiction| |]; reflexivity.
  - rewrite append_cons, slice16_cons, length16_cons.
    destruct (units_range x) as [Hu | [Hu | Hu]]; rewrite Hu; cbn [Nat.add];
      rewrite IH; reflexivity.
Qed.

(** X3: [truncate] counts in UTF-16 code units, as [length] and [slice]
    do.  For a limit that is not negative it returns a text within the
    limit unchanged; a longer text is cut to its first [maxChars] code
    units, followed by the marker of twelve characters, so that the result
    is [maxChars + 12] code units long and starts like the text. *)
Theorem truncate_keeps_prefix (text : string) (maxChars : Z) :
  0 <= maxChars ->
  (Z.of_nat (length16 text) <= maxChars -> truncate text maxChars = text)
  /\ (maxChars < Z.of_nat (length16 text) ->
      truncate text maxChars = slice16 (Z.to_nat maxChars) text +:+ truncate_marker
      /\ Z.of_nat (length16 (truncate text maxChars)) = maxChars + 12
      /\ slice16 (Z.to_nat maxChars) (truncate text maxChars)
         = slice16 (Z.to_nat maxChars) text).
Proof.
  intros Hmax. unfold truncate. split.
  - intros Hle. apply Z.leb_le in Hle. rewrite Hle, orb_true_r. reflexivity.
  - intros Hlt.
    assert (Hne : is_empty text = false) by (destruct text; [cbn in Hlt; lia | reflexivity]).
    assert (Hleb : (Z.of_nat (length16 text) <=? maxChars) = false)
      by (apply Z.leb_gt; lia).
    assert (Hneg : (maxChars <? 0) = false) by (apply Z.ltb_ge; lia).
    rewrite Hne, Hleb, Hneg. simpl orb. cbv iota.
    assert (Hcut : length16 (slice16 (Z.to_nat maxChars) text) = Z.to_nat maxChars)
      by (apply length16_slice16; lia).
    split; [reflexivity|]. split.
    + rewrite length16_append, Hcut.
      change (length16 truncate_marker) with 12%nat. lia.
    + rewrite <- Hcut at 1. apply slice16_append. discriminate.
Qed.

(** Three accented letters, of two bytes each, are three code units: they
    pass a limit of four, and a limit of two keeps two of them. *)
Lemma truncate_keeps_prefix_witness :
  truncate MoreSamples.accented 4 = MoreSamples.accented
  /\ truncate MoreSamples.accented 2
     = (MoreSamples.eAcute +:+ MoreSamples.eAcute) +:+ truncate_marker
  /\ truncate "abcdef" 3 = "abc" +:+ truncate_marker.
Proof.
  split; [|split].
  - apply (proj1 (truncate_keeps_prefix MoreSamples.accented 4 ltac:(lia))).
    vm_compute. congruence.
  - apply (proj2 (truncate_keeps_prefix MoreSamples.accented 2 ltac:(lia))).
    vm_compute. reflexivity.
  - apply (proj2 (truncate_keeps_prefix "abcdef" 3 ltac:(lia))).
    vm_compute. reflexivity.
Defined.

(** A cut between the two code units of a character outside the basic
    plane leaves its high surrogate: of [U+1F600], bytes 240 159 152 128,
    the surrogate [0xD83D], bytes 237 160 189. *)
Lemma truncate_cuts_surrogate_pair :
  length16 MoreSamples.grinning = 2%nat
  /\ truncate (MoreSamples.grinning +:+ "!") 1
     = String (ascii_of_nat 237) (String (ascii_of_nat 160) (String (ascii_of_nat 189)
         truncate_marker)).
Proof. split; reflexivity. Qed.

Lemma findUser_skip (front back : list JsVal) :
  Forall (fun a => nullish a = false /\ is_str (prop a "role") "user" = false) front ->
  findUser (front ++ back) = findUser back.
Proof.
  induction 1 as [|a front [Hn Hr] _ IH]; [reflexivity|].
  simpl. unfold member. rewrite Hn, Hr. exact IH.
Qed.

(** X4: under every strategy but [full_messages], the classifier input is
    the content of the last message whose role is [user], coerced and
    truncated; the messages before it play no part, not even a [null]
    among them. *)
Theorem input_is_last_user_message (payload : JsVal) (before after : list JsVal)
    (m : JsVal) (strategy : string) (maxChars : Z) :
  prop payload "messages" = JArr (before ++ m :: after) ->
  strategy <> "full_messages" ->
  is_str (prop m "role") "user" = true ->
  Forall (fun a => nullish a = false /\ is_str (prop a "role") "user" = false) after ->
  buildClassifierInput payload strategy maxChars
  = Ok (truncate (coerceContent (prop m "content")) maxChars).
Proof.
  intros Hm Hs Hrole Hafter. unfold buildClassifierInput. rewrite Hm.
  destruct (String.eqb_spec strategy "full_messages") as [E|_]; [contradiction|].
  rewrite rev_app_distr. simpl rev. rewrite <- app_assoc. simpl app.
  rewrite findUser_skip.
  - simpl. unfold member.
    assert (Hnn : nullish m = false) by (destruct m; try discriminate; reflexivity).
    rewrite Hnn, Hrole. reflexivity.
  - apply Forall_rev. exact Hafter.
Qed.

Lemma input_is_last_user_message_witness :
  buildClassifierInput
    (JObj [("messages",
            JArr [JNull; Samples.userMessage "first"; Samples.userMessage "2+2?";
                  JObj [("role", JStr "assistant"); ("content", JStr "4")]])])
    "last_user" 8000
  = Ok "2+2?".
Proof.
  apply (input_is_last_user_message _ [JNull; Samples.userMessage "first"]
           [JObj [("role", JStr "assistant"); ("content", JStr "4")]]
           (Samples.userMessage "2+2?") "last_user" 8000).
  - reflexivity.
  - discriminate.
  - reflexivity.
  - repeat constructor.
Defined.

Lemma roleContentPairs_null (front back : list JsVal) (m : JsVal) :
  nullish m = true ->
  exists e, roleContentPairs (front ++ m :: back) = Throw e /\ err_name e = "TypeError".
Proof.
  intros Hm. induction front as [|a front (e & IH & He)]; simpl.
  - unfold member. rewrite Hm. eexists. split; reflexivity.
  - destruct (member a "role") as [role|e1] eqn:Er.
    + destruct (member a "content") as [content|e2] eqn:Ec.
      * rewrite IH. eauto.
      * unfold member in Er, Ec. destruct (nullish a); discriminate.
    + exists e1. split; [reflexivity|].
      unfold member in Er. destruct (nullish a); [|discriminate].
      injection Er as <-. reflexivity.
Qed.

End UtilsMore.

(* ===================================================================== *)
(** * classifier.js: decisions, calls and retries *)
(* ===================================================================== *)

Module ClassifierMore.
Import Js Log Eff Classifier Notions JsFacts ClassifierFacts.

Lemma calls_app (a b : list Event) : calls (a ++ b) = (calls a + calls b)%nat.
Proof. unfold calls. rewrite List.filter_app, length_app. reflexivity. Qed.

Lemma is_cache_app (a b : list Event) :
  existsb is_cache (a ++ b) = existsb is_cache a || existsb is_cache b.
Proof. apply existsb_app. Qed.

Lemma toLowerCase_append (a b : string) :
  toLowerCase (a +:+ b) = toLowerCase a +:+ toLowerCase b.
Proof.
  induction a as [|c a IH]; [reflexivity|].
  rewrite append_cons. simpl. rewrite IH, append_cons. reflexivity.
Qed.

Lemma includes_suffix (a b sub : string) :
  includes b sub = true -> includes (a +:+ b) sub = true.
Proof.
  intros H. induction a as [|c a IH]; [exact H|].
  rewrite append_cons. simpl. rewrite IH. apply orb_true_r.
Qed.

Section Calls.

Variable JSON_parse : string -> Result JsVal.
Variable fetch : nat -> bool -> Z -> FetchOutcome.

Local Abbreviation decode := (decodeOutcome JSON_parse).
Local Abbreviation runClassifier := (runClassifier JSON_parse fetch).
Local Abbreviation attemptClassification := (attemptClassification JSON_parse fetch).
Local Abbreviation classifyLoop := (classifyLoop JSON_parse fetch).
Local Abbreviation classifyRequest := (classifyRequest JSON_parse fetch).

(** ** The decision is a digit of the range *)

Lemma scanLines_cons (line : string) (rest : list string) :
  scanLines JSON_parse (line :: rest)
  = if negb (startsWith (trim line) "data:") then scanLines JSON_parse rest
    else if String.eqb (trim (slice_from 5 (trim line))) "[DONE]" then SawDone
    else match JSON_parse (trim (slice_from 5 (trim line))) with
         | Throw _ => scanLines JSON_parse rest
         | Ok json =>
             match Utils.extractDecision (choiceText "delta" json) with
             | Some d => Decided d
             | None => scanLines JSON_parse rest
             end
         end.
Proof. reflexivity. Qed.

Lemma scanLines_range (lines : list string) (d : Z) :
  scanLines JSON_parse lines = Decided d -> d = 0 \/ d = 1 \/ d = 2.
Proof.
  induction lines as [|line lines IH]; [discriminate|].
  rewrite scanLines_cons.
  destruct (negb (startsWith (trim line) "data:")); [exact IH|].
  destruct (String.eqb _ "[DONE]"); [discriminate|].
  destruct (JSON_parse _) as [json|]; [|exact IH].
  destruct (Utils.extractDecision _) as [d'|] eqn:E; [|exact IH].
  intros [= <-]. exact (proj1 UtilsMore.extractDecision_range_lemma _ _ E).
Qed.

Lemma readDecisionLoop_cons (value : string) (more : list string)
    (failure : option JsError) (buffer : string) :
  readDecisionLoop JSON_parse (value :: more) failure buffer
  = match scanLines JSON_parse (List.removelast (splitLines (buffer +:+ value))) with
    | Decided d => Ok (Some d)
    | SawDone => Ok None
    | NoDigitYet =>
        readDecisionLoop JSON_parse more failure
          (List.last (splitLines (buffer +:+ value)) EmptyString)
    end.
Proof. reflexivity. Qed.

Lemma readDecisionLoop_range (chunks : list string) (failure : option JsError) :
  forall buffer d,
    readDecisionLoop JSON_parse chunks failure buffer = Ok (Some d) ->
    d = 0 \/ d = 1 \/ d = 2.
Proof.
  induction chunks as [|value more IH]; intros buffer d.
  - simpl. destruct failure; discriminate.
  - rewrite readDecisionLoop_cons.
    destruct (scanLines _ _) as [d'| |] eqn:E.
    + intros [= <-]. exact (scanLines_range _ _ E).
    + discriminate.
    + apply IH.
Qed.

Lemma decode_range (stream : bool) (o : FetchOutcome) (d : Z) :
  decode stream o = Ok (Some d) -> d = 0 \/ d = 1 \/ d = 2.
Proof.
  unfold decodeOutcome. destruct o as [e|res]; [discriminate|].
  destruct (negb (res_ok res)).
  - destruct (isModelLoadingMessage _); discriminate.
  - destruct stream.
    + apply readDecisionLoop_range.
    + destruct (bodyJson _ _) as [json|]; [|discriminate].
      intros [= E]. exact (proj1 UtilsMore.extractDecision_range_lemma _ _ E).
Qed.

(** An attempt, call by call: the preferred mode first, the other mode
    when that brings no decision. *)
Lemma attemptClassification_steps (config : ClassifierConfig) (st : State) :
  let t := timeoutMs config in
  let first := forceStream config in
  let o1 := decode first (fetch (calls (trace st)) first t) in
  let st1 := extend st (ClassifierFetch first t) in
  let o2 := decode (negb first) (fetch (calls (trace st1)) (negb first) t) in
  let st2 := extend st1 (ClassifierFetch (negb first) t) in
  attemptClassification config st
  = match o1 with
    | Ok (Some d) => Some (Ok d, st1)
    | Throw e => Some (Throw e, st1)
    | Ok None =>
        match o2 with
        | Ok (Some d) => Some (Ok d, st2)
        | Ok None => Some (Throw noDecisionError, st2)
        | Throw e => Some (Throw e, st2)
        end
    end.
Proof.
  cbv zeta. unfold Classifier.attemptClassification, bind.
  rewrite runClassifier_run. fold (calls (trace st)).
  destruct (decode _ _) as [[d|]|e]; [reflexivity| |reflexivity].
  destruct (forceStream config); cbv beta iota delta [negb];
    rewrite runClassifier_run;
    fold (calls (trace (extend st (ClassifierFetch true (timeoutMs config)))));
    fold (calls (trace (extend st (ClassifierFetch false (timeoutMs config)))));
    destruct (decode _ _) as [[d|]|e]; reflexivity.
Qed.

Lemma attemptClassification_range (config : ClassifierConfig) (st st' : State) (d : Z) :
  attemptClassification config st = Some (Ok d, st') -> d = 0 \/ d = 1 \/ d = 2.
Proof.
  rewrite attemptClassification_steps. cbv zeta.
  destruct (decode _ _) as [[d1|]|e1] eqn:E1.
  - intros [= <- _]. exact (decode_range _ _ _ E1).
  - destruct (decode (negb _) _) as [[d2|]|e2] eqn:E2; try discriminate.
    intros [= <- _]. exact (decode_range _ _ _ E2).
  - discriminate.
Qed.

(** The events of an attempt: one call or two, no access to the cache. *)
Lemma attemptClassification_events (config : ClassifierConfig) (st : State) :
  exists r evs,
    attemptClassification config st
    = Some (r, {| trace := trace st ++ evs; store := store st |})
    /\ (1 <= calls evs <= 2)%nat
    /\ existsb is_cache evs = false.
Proof.
  rewrite attemptClassification_steps. cbv zeta.
  destruct (decode _ _) as [[d1|]|e1].
  - eexists _, [_]. split; [reflexivity|]. split; [unfold calls; simpl; lia | reflexivity].
  - destruct (decode (negb _) _) as [[d2|]|e2];
      eexists _, [_; _];
      (split; [unfold extend; simpl; rewrite <- app_assoc; reflexivity|]);
      (split; [unfold calls; simpl; lia | reflexivity]).
  - eexists _, [_]. split; [reflexivity|]. split; [unfold calls; simpl; lia | reflexivity].
Qed.

Lemma classifyLoop_range (fuel : nat) :
  forall loadingRetries timeoutRetried config st st' d,
    classifyLoop fuel loadingRetries timeoutRetried config st = Some (Ok d, st') ->
    d = 0 \/ d = 1 \/ d = 2.
Proof.
  induction fuel as [|fuel IH]; intros lr tr config st st' d; simpl; [discriminate|].
  unfold tryCatch, bind.
  destruct (Classifier.attemptClassification JSON_parse fetch config st)
    as [[[d1|e] st1]|] eqn:E; [| |discriminate].
  - simpl. intros [= <- _]. exact (attemptClassification_range _ _ _ _ E).
  - destruct (isAbortError e && negb tr); [apply IH|].
    destruct (isModelLoadingError e && _); [apply IH | discriminate].
Qed.

(** X5: a decision that [classifyRequest] returns is 0, 1 or 2, whatever
    the classifier endpoint sends. *)
Theorem classifyRequest_decides_in_range (payload : JsVal) (config : ClassifierConfig)
    (st st' : State) (d : Z) :
  classifyRequest payload config st = Some (Ok d, st') ->
  d = 0 \/ d = 1 \/ d = 2.
Proof.
  unfold Classifier.classifyRequest, bind. rewrite lift_run.
  destruct (Utils.buildClassifierInput _ _ _); [|discriminate].
  apply classifyLoop_range.
Qed.

(** ** The calls of a classification *)

Lemma classifyLoop_events (fuel : nat) :
  forall loadingRetries timeoutRetried config st r st',
    classifyLoop fuel loadingRetries timeoutRetried config st = Some (r, st') ->
    exists evs,
      st' = {| trace := trace st ++ evs; store := store st |}
      /\ (calls evs <= 2 * roundsLeft config loadingRetries timeoutRetried)%nat
      /\ existsb is_cache evs = false.
Proof.
  induction fuel as [|fuel IH]; intros lr tr config st r st'; simpl; [discriminate|].
  unfold tryCatch, bind.
  destruct (attemptClassification_events config st) as (r1 & evs1 & -> & Hcalls & Hcache).
  destruct r1 as [d|e].
  - simpl. intros [= <- <-]. exists (evs1 ++ [Logged Debug "classifier decision"]).
    split; [unfold extend; simpl; rewrite <- app_assoc; reflexivity|].
    rewrite calls_app, is_cache_app, Hcache.
    split; [|reflexivity].
    change (calls [Logged Debug "classifier decision"]) with 0%nat.
    unfold roundsLeft; lia.
  - destruct (isAbortError e && negb tr) eqn:Habort.
    + apply andb_true_iff in Habort as [_ Htr]. destruct tr; [discriminate|].
      unfold log, emit. intros H. apply IH in H as (evs & -> & Hc & Hk).
      exists (evs1 ++ [Logged Warn "classifier timeout, retrying once"] ++ evs).
      split; [unfold extend; simpl; rewrite <- !app_assoc; reflexivity|].
      rewrite !calls_app, !is_cache_app, Hcache, Hk.
      split; [|reflexivity].
      change (calls [Logged Warn "classifier timeout, retrying once"]) with 0%nat.
      unfold roundsLeft in *. rewrite withTimeout_retries in Hc. lia.
    + destruct (isModelLoadingError e && (lr <? default 1 (loadingMaxRetries config)))
        eqn:Hload.
      * apply andb_true_iff in Hload as [_ Hlt]. apply Z.ltb_lt in Hlt.
        unfold log, emit. intros H. apply IH in H as (evs & -> & Hc & Hk).
        exists (evs1 ++ [Logged Warn "classifier model loading, retrying";
                         Slept (default 1000 (loadingRetryMs config))] ++ evs).
        split; [unfold extend; simpl; rewrite <- !app_assoc; reflexivity|].
        rewrite !calls_app, !is_cache_app, Hcache, Hk.
        split; [|reflexivity].
        change (calls [Logged Warn "classifier model loading, retrying";
                       Slept (default 1000 (loadingRetryMs config))]) with 0%nat.
        unfold roundsLeft in *. destruct tr; lia.
      * unfold throw. intros [= <- <-]. exists evs1.
        split; [reflexivity|]. split; [unfold roundsLeft; lia | exact Hcache].
Qed.

Lemma classifyRequest_events (payload : JsVal) (config : ClassifierConfig) (st : State) :
  exists r evs,
    classifyRequest payload config st
    = Some (r, {| trace := trace st ++ evs; store := store st |})
    /\ (calls evs <= 2 * (Z.to_nat (default 1%Z (loadingMaxRetries config)) + 2))%nat
    /\ existsb is_cache evs = false.
Proof.
  destruct (classifyRequest_total JSON_parse fetch payload config st) as (r & st' & H).
  exists r. revert H. unfold Classifier.classifyRequest, bind. rewrite lift_run.
  destruct (Utils.buildClassifierInput _ _ _) as [input|e].
  - intros H. pose proof H as H'. apply classifyLoop_events in H' as (evs & -> & Hc & Hk).
    exists evs. split; [exact H|]. split; [|exact Hk].
    unfold roundsLeft in Hc. rewrite Z.sub_0_r in Hc. lia.
  - intros [= <- <-]. exists []. rewrite app_nil_r. destruct st.
    split; [reflexivity|]. split; [unfold calls; simpl; lia | reflexivity].
Qed.

(** X6: [classifyRequest] always comes back, after at most
    [2 * (loadingMaxRetries + 2)] calls of the classifier endpoint (eight
    with the default of two retries), and it never touches the cache. *)
Theorem classifyRequest_calls_bounded (payload : JsVal) (config : ClassifierConfig)
    (st : State) :
  exists r evs,
    classifyRequest payload config st
    = Some (r, {| trace := trace st ++ evs; store := store st |})
    /\ (calls evs <= 2 * (Z.to_nat (default 1%Z (loadingMaxRetries config)) + 2))%nat
    /\ existsb is_cache evs = false.
Proof. apply classifyRequest_events. Qed.

(** ** Model loading *)

(** X7: when every call of the classifier meets a model that is loading
    (an error that [isModelLoadingError] accepts and [isAbortError] does
    not), [classifyRequest] sends [loadingMaxRetries + 1] calls, all in the
    preferred mode and under the configured time limit, pauses
    [loadingRetryMs] before each but the first, and then throws the error
    of the last call. *)
Theorem model_loading_exhausts_retries (payload : JsVal) (config : ClassifierConfig)
    (st : State) (input : string) :
  Utils.buildClassifierInput payload (strategy config) (maxChars config) = Ok input ->
  (forall n stream t,
     exists e, decode stream (fetch n stream t) = Throw e
               /\ isModelLoadingError e = true /\ isAbortError e = false) ->
  exists e,
    classifyRequest payload config st
    = Some (Throw e,
            {| trace := trace st
                        ++ loadingTrace (ClassifierFetch (forceStream config) (timeoutMs config))
                             (default 1000 (loadingRetryMs config))
                             (Z.to_nat (default 1 (loadingMaxRetries config)));
               store := store st |})
    /\ isModelLoadingError e = true.
Proof.
  intros Hinput Hload.
  unfold Classifier.classifyRequest, bind. rewrite lift_run, Hinput. unfold rounds.
  set (maxRetries := default 1 (loadingMaxRetries config)).
  set (call := ClassifierFetch (forceStream config) (timeoutMs config)).
  set (delay := default 1000 (loadingRetryMs config)).
  assert (Hloop : forall k fuel lr tr st0,
             Z.to_nat (maxRetries - lr) = k -> (k < fuel)%nat ->
             exists e,
               classifyLoop fuel lr tr config st0
               = Some (Throw e, {| trace := trace st0 ++ loadingTrace call delay k;
                                   store := store st0 |})
               /\ isModelLoadingError e = true).
  { induction k as [|k IH]; intros fuel lr tr st0 Hk Hfuel;
      (destruct fuel as [|fuel]; [lia|]); simpl; unfold tryCatch, bind at 1;
      rewrite attemptClassification_steps; cbv zeta;
      destruct (Hload (calls (trace st0)) (forceStream config) (timeoutMs config))
        as (e & -> & Hl & Ha);
      rewrite Ha, Hl; fold maxRetries.
    - assert (Hge : (lr <? maxRetries) = false) by (apply Z.ltb_ge; lia).
      rewrite Hge. cbv beta iota delta [andb].
      exists e. split; [reflexivity | exact Hl].
    - assert (Hlt : (lr <? maxRetries) = true) by (apply Z.ltb_lt; lia).
      rewrite Hlt. cbv beta iota delta [andb]. unfold bind, log, emit. cbv beta iota.
      fold delay. fold call.
      destruct (IH fuel (lr + 1) tr
                  (extend (extend (extend st0 call)
                             (Logged Warn "classifier model loading, retrying"))
                     (Slept delay)) ltac:(lia) ltac:(lia)) as (e' & -> & Hl').
      exists e'. split; [|exact Hl'].
      unfold extend, loadingTrace. simpl. rewrite <- !app_assoc. reflexivity. }
  apply Hloop; [rewrite Z.sub_0_r; reflexivity | lia].
Qed.

(** ** No decision *)

(** X8: when the classifier answers and no answer holds a digit, the
    attempt asks twice, in the preferred mode and then in the other one,
    both under the configured time limit, and [classifyRequest] throws
    [classifier returned no decision] without retrying. *)
Theorem no_decision_after_both_modes (payload : JsVal) (config : ClassifierConfig)
    (st : State) (input : string) :
  Utils.buildClassifierInput payload (strategy config) (maxChars config) = Ok input ->
  (forall n stream t, decode stream (fetch n stream t) = Ok None) ->
  classifyRequest payload config st
  = Some (Throw noDecisionError,
          {| trace := trace st
                      ++ [ClassifierFetch (forceStream config) (timeoutMs config);
                          ClassifierFetch (negb (forceStream config)) (timeoutMs config)];
             store := store st |}).
Proof.
  intros Hinput Hnone.
  unfold Classifier.classifyRequest, bind. rewrite lift_run, Hinput. unfold rounds.
  simpl. unfold tryCatch, bind at 1.
  rewrite attemptClassification_steps. cbv zeta. rewrite !Hnone.
  simpl. unfold throw, extend. simpl. rewrite <- app_assoc. reflexivity.
Qed.

(** ** Input that cannot be read *)

(** X9: under the strategy [full_messages], a [null] (or [undefined])
    among the messages makes [classifyRequest] throw a [TypeError] before
    any call of the classifier: the trace stays as it was. *)
Theorem null_message_throws_before_any_call (payload : JsVal) (config : ClassifierConfig)
    (st : State) (front back : list JsVal) (m : JsVal) :
  strategy config = "full_messages" ->
  prop payload "messages" = JArr (front ++ m :: back) ->
  nullish m = true ->
  exists e,
    classifyRequest payload config st = Some (Throw e, st)
    /\ err_name e = "TypeError".
Proof.
  intros Hs Hm Hnull.
  destruct (UtilsMore.roleContentPairs_null front back m Hnull) as (e & Hpairs & He).
  exists e. split; [|exact He].
  unfold Classifier.classifyRequest, bind. rewrite lift_run.
  unfold Utils.buildClassifierInput. rewrite Hm, Hs, Hpairs. reflexivity.
Qed.

(** ** Errors of the endpoint that read like a timeout *)

(** X10: a response of the classifier that is not OK and whose body holds
    the word [aborted], in any case of letters, is thrown as an error that
    [isAbortError] accepts: the loop handles it as a timeout. *)
Theorem aborted_in_body_counts_as_timeout (stream : bool) (res : Response) :
  res_ok res = false ->
  includes (toLowerCase (safeReadText res)) "aborted" = true ->
  exists e, decode stream (Responded res) = Throw e /\ isAbortError e = true.
Proof.
  intros Hok Hbody. unfold decodeOutcome. rewrite Hok.
  cbv beta iota delta [negb].
  destruct (isModelLoadingMessage _); eexists; (split; [reflexivity|]);
    unfold isAbortError, modelLoadingError, classifierError;
    cbn [err_name err_code err_message];
    change (String.eqb "Error" "AbortError") with false; cbv iota;
    rewrite !toLowerCase_append; repeat apply includes_suffix; exact Hbody.
Qed.

End Calls.

(** Under the default policy of two retries: three calls and two pauses of
    1200 milliseconds. *)
Lemma model_loading_exhausts_retries_witness :
  exists e,
    Server.run (classifyRequest Samples.parseNothing MoreSamples.alwaysLoading
                  Samples.payload_a Samples.classifierConfig) Cache.NoopCache
    = Some (Throw e,
            {| trace := [ClassifierFetch true 800;
                         Logged Warn "classifier model loading, retrying"; Slept 1200;
                         ClassifierFetch true 800;
                         Logged Warn "classifier model loading, retrying"; Slept 1200;
                         ClassifierFetch true 800];
               store := Cache.NoopCache |})
    /\ isModelLoadingError e = true.
Proof.
  apply (model_loading_exhausts_retries Samples.parseNothing MoreSamples.alwaysLoading
           Samples.payload_a Samples.classifierConfig
           {| trace := []; store := Cache.NoopCache |} "2+2?" eq_refl).
  intros n stream t. eexists. split; [reflexivity|]. split; reflexivity.
Defined.

(** A classifier that answers with words only *)
Lemma no_decision_after_both_modes_witness :
  Server.run (classifyRequest (Samples.parseTable [Samples.deltaEvent "cheap"; MoreSamples.message "cheap"])
                MoreSamples.answersInWords
                Samples.payload_a Samples.classifierConfig) Cache.NoopCache
  = Some (Throw noDecisionError,
          {| trace := [ClassifierFetch true 800; ClassifierFetch false 800];
             store := Cache.NoopCache |}).
Proof.
  apply (no_decision_after_both_modes
           (Samples.parseTable [Samples.deltaEvent "cheap"; MoreSamples.message "cheap"])
           MoreSamples.answersInWords
           Samples.payload_a Samples.classifierConfig
           {| trace := []; store := Cache.NoopCache |} "2+2?" eq_refl).
  intros n [|] t; reflexivity.
Defined.

(** The classifier of the examples answers 0. *)
Lemma classifyRequest_decides_in_range_witness :
  exists st',
    Server.run (classifyRequest (Samples.parseTable [Samples.deltaEvent "0"])
                  (Samples.answers "0") Samples.payload_a Samples.classifierConfig)
      Cache.NoopCache = Some (Ok 0, st')
    /\ (0 = 0 \/ 0 = 1 \/ 0 = 2).
Proof.
  eexists. split; [reflexivity|].
  apply (classifyRequest_decides_in_range (Samples.parseTable [Samples.deltaEvent "0"])
           (Samples.answers "0") Samples.payload_a Samples.classifierConfig
           {| trace := []; store := Cache.NoopCache |}
           {| trace := [ClassifierFetch true 800; Logged Debug "classifier decision"];
              store := Cache.NoopCache |} 0).
  reflexivity.
Defined.

Lemma null_message_throws_before_any_call_witness :
  exists e,
    Server.run (classifyRequest Samples.parseNothing Samples.alwaysAborts
                  (JObj [("messages", JArr [Samples.userMessage "hi"; JNull])])
                  MoreSamples.fullMessagesConfig) Cache.NoopCache
    = Some (Throw e, {| trace := []; store := Cache.NoopCache |})
    /\ err_name e = "TypeError".
Proof.
  apply (null_message_throws_before_any_call Samples.parseNothing Samples.alwaysAborts
           (JObj [("messages", JArr [Samples.userMessage "hi"; JNull])])
           MoreSamples.fullMessagesConfig {| trace := []; store := Cache.NoopCache |}
           [Samples.userMessage "hi"] [] JNull); reflexivity.
Defined.

Lemma aborted_in_body_counts_as_timeout_witness :
  exists e,
    decodeOutcome Samples.parseNothing true (Responded MoreSamples.gatewayAborted) = Throw e
    /\ isAbortError e = true.
Proof.
  apply (aborted_in_body_counts_as_timeout Samples.parseNothing true
           MoreSamples.gatewayAborted); reflexivity.
Defined.

End ClassifierMore.

(* ===================================================================== *)
(** * config.js: what a loaded configuration guarantees *)
(* ===================================================================== *)

Module ConfigMore.
Import Js Config JsFacts ConfigFacts.

(** A variable set to the empty string reads as one that is not set. *)
Lemma envRaw_empty (processEnv : gmap string string) (name other : string) :
  envRaw (<[name := EmptyString]> processEnv) other = envRaw (delete name processEnv) other.
Proof.
  unfold envRaw. destruct (decide (name = other)) as [->|Hne].
  - rewrite lookup_insert_eq, lookup_delete_eq. reflexivity.
  - rewrite lookup_insert_ne, lookup_delete_ne by exact Hne. reflexivity.
Qed.

(** Loading reads the environment through [envRaw] only. *)
Lemma loadConfig_ext (env1 env2 : gmap string string) (readFile : string -> option string)
    (JSON_parse : string -> Result JsVal) :
  (forall name, envRaw env1 name = envRaw env2 name) ->
  loadConfig env1 readFile JSON_parse = loadConfig env2 readFile JSON_parse.
Proof.
  intros H.
  unfold loadConfig, buildUpstreams, envUpstream, parseJson, env, envVal, envInt, envBool.
  rewrite !H. reflexivity.
Qed.

(** X11: for the whole of configuration loading, a variable set to the
    empty string counts as a variable that is not set: the fallbacks
    apply, and the outcome of loading is the same. *)
Theorem empty_variable_counts_as_unset (processEnv : gmap string string)
    (readFile : string -> option string) (JSON_parse : string -> Result JsVal)
    (name : string) :
  loadConfig (<[name := EmptyString]> processEnv) readFile JSON_parse
  = loadConfig (delete name processEnv) readFile JSON_parse.
Proof. apply loadConfig_ext. intros other. apply envRaw_empty. Qed.

Lemma requireFields_checked (c : Config) :
  requireFields c = Ok c ->
  truthy (tierBaseUrl (frontier (upstreams c))) = true
  /\ (Classifier.enabled (classifier c) = true ->
      (exists url, Classifier.baseUrl (classifier c) = Some url /\ url <> EmptyString)
      /\ truthy (tierBaseUrl (cheap (upstreams c))) = true
      /\ truthy (tierBaseUrl (medium (upstreams c))) = true).
Proof.
  unfold requireFields.
  destruct (Classifier.enabled (classifier c)); cbn [andb].
  - destruct (Classifier.baseUrl (classifier c)) as [url|] eqn:Hurl; cbn [str_or_null];
      [|discriminate].
    destruct (truthy (JStr url)) eqn:Hu; [|discriminate]. cbn [negb].
    destruct (truthy (tierBaseUrl (frontier _))); [|discriminate]. cbn [negb].
    destruct (truthy (tierBaseUrl (cheap _))); [|discriminate]. cbn [negb].
    destruct (truthy (tierBaseUrl (medium _))); [|discriminate].
    intros _. split; [reflexivity|]. intros _. split; [|split; reflexivity].
    exists url. split; [reflexivity|]. intros ->. discriminate.
  - destruct (truthy (tierBaseUrl (frontier _))); [|discriminate].
    intros _. split; [reflexivity|]. discriminate.
Qed.

Lemma loadConfig_checked (processEnv : gmap string string)
    (readFile : string -> option string) (JSON_parse : string -> Result JsVal)
    (cfg : Config) :
  loadConfig processEnv readFile JSON_parse = Ok cfg -> requireFields cfg = Ok cfg.
Proof.
  unfold loadConfig, andThen.
  destruct (buildUpstreams _ _ _); [|discriminate].
  destruct (parseJson _ _ _); [|discriminate].
  unfold finishConfig, andThen.
  destruct (colocate _) as [c|]; [|discriminate].
  intros H. pose proof (requireFields_ok _ _ H) as ->. exact H.
Qed.

(** X12: a configuration that has loaded names a base URL for the
    frontier tier; when the classifier is enabled it also names one for
    the classifier, for the cheap tier and for the medium tier. *)
Theorem loaded_config_has_base_urls (processEnv : gmap string string)
    (readFile : string -> option string) (JSON_parse : string -> Result JsVal)
    (cfg : Config) :
  loadConfig processEnv readFile JSON_parse = Ok cfg ->
  truthy (tierBaseUrl (frontier (upstreams cfg))) = true
  /\ (Classifier.enabled (classifier cfg) = true ->
      (exists url, Classifier.baseUrl (classifier cfg) = Some url /\ url <> EmptyString)
      /\ truthy (tierBaseUrl (cheap (upstreams cfg))) = true
      /\ truthy (tierBaseUrl (medium (upstreams cfg))) = true).
Proof. intros H. apply requireFields_checked, (loadConfig_checked _ _ _ _ H). Qed.

Lemma loaded_config_has_base_urls_witness :
  exists cfg,
    loadConfig Samples.localEnv Samples.noFile Samples.parseNothing = Ok cfg
    /\ truthy (tierBaseUrl (frontier (upstreams cfg))) = true
    /\ (Classifier.enabled (classifier cfg) = true ->
        (exists url, Classifier.baseUrl (classifier cfg) = Some url /\ url <> EmptyString)
        /\ truthy (tierBaseUrl (cheap (upstreams cfg))) = true
        /\ truthy (tierBaseUrl (medium (upstreams cfg))) = true).
Proof.
  eexists. split; [vm_compute; reflexivity|].
  refine (loaded_config_has_base_urls Samples.localEnv Samples.noFile
            Samples.parseNothing _ _).
  vm_compute. reflexivity.
Defined.

(** X13: the statements after the [config] literal leave it as it is when
    the classifier is disabled, when there is no cheap tier, or when the
    base URLs of the cheap tier and of the classifier differ once their
    trailing slashes are stripped. *)
Theorem finishConfig_keeps_separate_cheap_model (c0 cfg : Config) :
  finishConfig c0 = Ok cfg ->
  Classifier.enabled (classifier c0) = false
  \/ cheap (upstreams c0) = None
  \/ (exists u cb kb,
        cheap (upstreams c0) = Some u /\ up_baseUrl u = JStr cb
        /\ Classifier.baseUrl (classifier c0) = Some kb
        /\ stripTrailingSlashes cb <> stripTrailingSlashes kb) ->
  cfg = c0.
Proof.
  unfold finishConfig, andThen. intros H Hsep.
  destruct (colocate c0) as [c|] eqn:Hco; [|discriminate].
  apply requireFields_ok in H. subst cfg.
  revert Hco. unfold colocate, andThen.
  destruct Hsep as [Hoff | [Hnone | (u & cb & kb & Hu & Hcb & Hkb & Hne)]].
  - rewrite Hoff. destruct (cheap (upstreams c0)); cbn [andb]; congruence.
  - rewrite Hnone. congruence.
  - rewrite Hu, Hcb, Hkb. cbn [str_or_null].
    destruct (Classifier.enabled (classifier c0) && truthy (JStr cb) && truthy (JStr kb))
      eqn:Hguard; [|congruence].
    apply andb_true_iff in Hguard as [Hguard Hk].
    apply andb_true_iff in Hguard as [_ Hc].
    unfold normalizeBaseUrl. rewrite Hc, Hk. cbn [negb].
    destruct (truthy (JStr (stripTrailingSlashes cb)) && truthy (JStr (stripTrailingSlashes kb)));
      cbn [andb same_string]; [|congruence].
    destruct (String.eqb_spec (stripTrailingSlashes cb) (stripTrailingSlashes kb));
      [contradiction | congruence].
Qed.

(** A cheap tier hosted away from the classifier keeps its model. *)
Lemma finishConfig_keeps_separate_cheap_model_witness :
  exists cfg,
    finishConfig MoreSamples.hostedConfig = Ok cfg /\ cfg = MoreSamples.hostedConfig.
Proof.
  eexists. split; [vm_compute; reflexivity|].
  apply (finishConfig_keeps_separate_cheap_model MoreSamples.hostedConfig);
    [vm_compute; reflexivity|].
  right. right.
  exists (Samples.upstream "cheap" "https://api.groq.com/" (JStr "llama-3.1-8b-instant")),
    "https://api.groq.com/", "http://localhost:11434".
  split; [reflexivity|]. split; [reflexivity|]. split; [reflexivity|].
  vm_compute. discriminate.
Defined.

End ConfigMore.

(* ===================================================================== *)
(** * classifier.js: the warm-up call *)
(* ===================================================================== *)

Module WarmupFacts.
Import Js Log Eff Classifier Warmup Notions ClassifierFacts.


End WarmupFacts.

(* ===================================================================== *)
(** * server.js: cache hits, the classifier switched off, bad requests *)
(* ===================================================================== *)

Module HandlerMore.
Import Js Log Eff Config Server Notions HandlerFacts.

Section Handler.

Variable sha256_hex : string -> string.
Variable JSON_parse : string -> Result JsVal.
Variable fetch : nat -> bool -> Z -> Classifier.FetchOutcome.
Variable toNumber : string -> JsNum.
Variable config : Config.

Local Abbreviation classify := (Classifier.classifyRequest JSON_parse fetch).
Local Abbreviation serve := (serve sha256_hex JSON_parse fetch toNumber config).
Local Abbreviation chatCompletions :=
  (chatCompletions sha256_hex JSON_parse fetch toNumber config).
Local Abbreviation hashPayload := (Utils.hashPayload sha256_hex).

Lemma cache_hit_skips_classifier_lemma (req : Request) (st : State) (cached : string) :
  endpoint req = PostChatCompletions ->
  authHook config req = None ->
  truthy (body req) = true ->
  truthy (prop (body req) "messages") = true ->
  Classifier.enabled (classifier config) = true ->
  Cache.cache_enabled (Config.cache config) = true ->
  Cache.get (store st) (hashPayload (body req)) = Ok (Some cached) ->
  isNaN (toNumber cached) = false ->
  serve req st
  = Some (Ok (Proxied (routeOf (toNumber cached)) (toNumber cached)
                (upstreamOf config (routeOf (toNumber cached)))),
          afterRead st (hashPayload (body req))).
Proof.
  intros He Ha Hp Hm Hen Hc Hget Hnan.
  rewrite (serve_chat _ _ _ _ _ req st He Ha). unfold tryCatch at 1.
  unfold Server.chatCompletions, lookup.
  rewrite Hp, Hm, Hen, Hc. cbv beta iota delta [negb orb].
  unfold bind at 1. unfold bind at 1. unfold bind at 1. unfold cacheGet.
  rewrite Hget. cbn [option_map]. unfold ret at 1. cbv beta iota.
  rewrite Hnan. reflexivity.
Qed.

(** X15: when the cache holds a number under the fingerprint of the
    request, the handler routes by that number at once: the cache is read,
    the classifier is not called and nothing is written.  The state is
    the one that the read leaves: one more event, and in the in-process
    cache the entry marked as the most recently used. *)
Theorem cache_hit_skips_classifier (req : Request) (st : State) (cached : string) :
  endpoint req = PostChatCompletions ->
  authHook config req = None ->
  truthy (body req) = true ->
  truthy (prop (body req) "messages") = true ->
  Classifier.enabled (classifier config) = true ->
  Cache.cache_enabled (Config.cache config) = true ->
  Cache.get (store st) (hashPayload (body req)) = Ok (Some cached) ->
  isNaN (toNumber cached) = false ->
  serve req st
  = Some (Ok (Proxied (routeOf (toNumber cached)) (toNumber cached)
                (upstreamOf config (routeOf (toNumber cached)))),
          afterRead st (hashPayload (body req))).
Proof. apply cache_hit_skips_classifier_lemma. Qed.

(** X16: with the classifier switched off, every request that carries
    messages goes to the frontier upstream with the decision 2; neither the
    cache nor the classifier is touched. *)
Theorem disabled_classifier_routes_to_frontier (req : Request) (st : State) :
  endpoint req = PostChatCompletions ->
  authHook config req = None ->
  truthy (body req) = true ->
  truthy (prop (body req) "messages") = true ->
  Classifier.enabled (classifier config) = false ->
  serve req st
  = Some (Ok (Proxied frontier (Int 2) (Config.frontier (upstreams config))), st).
Proof.
  intros He Ha Hp Hm Hen.
  rewrite (serve_chat _ _ _ _ _ req st He Ha). unfold tryCatch at 1.
  unfold Server.chatCompletions. rewrite Hp, Hm, Hen. reflexivity.
Qed.

(** What the chat handler answers: a 400, or the response of the tier of
    its decision; with the classifier off the decision is 2. *)
Lemma chatCompletions_answers (payload : JsVal) (st st' : State) (resp : Response) :
  chatCompletions payload st = Some (Ok resp, st') ->
  resp = ErrorReply 400 "invalid_request"
  \/ exists d, resp = Proxied (routeOf d) d (upstreamOf config (routeOf d))
              /\ (Classifier.enabled (classifier config) = false -> d = Int 2).
Proof.
  unfold Server.chatCompletions.
  destruct (negb (truthy payload) || negb (truthy (prop payload "messages"))).
  { intros [= <- _]. left. reflexivity. }
  unfold bind at 1.
  destruct (Classifier.enabled (classifier config)).
  - match goal with |- context [match ?m st with _ => _ end] => destruct (m st) as [[[d|e] s]|] end;
      [|discriminate|discriminate].
    intros [= <- _]. right. exists d. split; [reflexivity | discriminate].
  - cbn [ret]. intros [= <- _]. right. exists (Int 2). split; reflexivity.
Qed.

Lemma serve_proxied (req : Request) (st st' : State) (route : Route) (d : JsNum)
    (up : option Upstream) :
  serve req st = Some (Ok (Proxied route d up), st') ->
  up = upstreamOf config (routeOf d)
  /\ (Classifier.enabled (classifier config) = false -> d = Int 2).
Proof.
  unfold Server.serve. destruct (authHook config req) as [reply|] eqn:Ha.
  - unfold authHook in Ha. destruct (is_empty _); [discriminate|].
    destruct (negb _); [|discriminate]. injection Ha as <-. discriminate.
  - unfold tryCatch, handle. destruct (endpoint req); try discriminate.
    destruct (Server.chatCompletions _ _ _ _ _ (body req) st) as [[[resp|e] s]|] eqn:Hc;
      [| |discriminate].
    + intros [= -> ->].
      apply chatCompletions_answers in Hc as [Hc | (d' & Hc & Hoff)]; [discriminate|].
      injection Hc as -> -> ->. split; [reflexivity | exact Hoff].
    + discriminate.
Qed.

(** The events and the store of a request, whatever its outcome *)
Lemma serve_events (req : Request) (st : State) :
  exists r evs st',
    serve req st = Some (r, st')
    /\ trace st' = trace st ++ evs
    /\ (Cache.cache_enabled (Config.cache config) = false ->
        existsb is_cache evs = false /\ store st' = store st).
Proof.
  unfold Server.serve.
  destruct (authHook config req) as [reply|].
  { exists (Ok reply), [], st. rewrite app_nil_r. repeat split. }
  unfold handle. destruct (endpoint req);
    try (eexists _, [], st; rewrite app_nil_r; repeat split; fail).
  unfold tryCatch at 1, Server.chatCompletions.
  destruct (negb (truthy (body req)) || negb (truthy (prop (body req) "messages"))).
  { eexists _, [], st. rewrite app_nil_r. repeat split. }
  destruct (Classifier.enabled (classifier config)).
  2:{ eexists _, [], st. rewrite app_nil_r. repeat split. }
  unfold lookup. destruct (Cache.cache_enabled (Config.cache config)) eqn:Hc.
  - (* caching on: only the shape of the trace is claimed *)
    unfold bind at 1. unfold bind at 1. unfold bind at 1. unfold cacheGet.
    set (hash := Utils.hashPayload sha256_hex (body req)).
    set (st0 := afterRead st hash).
    assert (Hcls : forall s, exists r evs st',
               classifyAndStore JSON_parse fetch config (body req) hash s = Some (r, st')
               /\ trace st' = trace s ++ evs).
    { intros s. unfold classifyAndStore, tryCatch, bind at 1.
      destruct (ClassifierMore.classifyRequest_events JSON_parse fetch (body req)
                  (classifier config) s) as (r & evs & -> & _ & _).
      destruct r as [d|e].
      - rewrite Hc. unfold bind at 1, cacheSet. cbn [store].
        destruct (Cache.set (store s) hash (Z_to_string d)) as [[[]|e] c'].
        + eexists _, _, _. split; [reflexivity|]. cbn [trace]. rewrite <- app_assoc. reflexivity.
        + eexists _, _, _. split; [reflexivity|].
          unfold extend. cbn [trace]. rewrite <- !app_assoc. reflexivity.
      - eexists _, _, _. split; [reflexivity|].
        unfold extend. cbn [trace]. rewrite <- app_assoc. reflexivity. }
    destruct (Cache.get (store st) hash) as [[cached|]|e].
    + cbn [option_map]. unfold ret at 1. cbv beta iota.
      destruct (isNaN (toNumber cached)).
      * destruct (Hcls st0) as (r & evs & st' & Hrun & Htr).
        unfold bind. rewrite Hrun. destruct r as [d|e].
        -- eexists _, _, _. split; [reflexivity|]. split; [|discriminate].
           rewrite Htr. unfold st0, afterRead, extend. cbn [trace]. rewrite <- app_assoc. reflexivity.
        -- eexists _, _, _. split; [reflexivity|]. split; [|discriminate].
           unfold extend. cbn [trace]. rewrite Htr. unfold st0, afterRead, extend. cbn [trace].
           rewrite <- !app_assoc. reflexivity.
      * eexists _, [_], _. split; [reflexivity|]. split; [reflexivity | discriminate].
    + cbn [option_map]. unfold ret at 1. cbv beta iota.
      destruct (Hcls st0) as (r & evs & st' & Hrun & Htr).
      unfold bind. rewrite Hrun. destruct r as [d|e].
      * eexists _, _, _. split; [reflexivity|]. split; [|discriminate].
        rewrite Htr. unfold st0, afterRead, extend. cbn [trace]. rewrite <- app_assoc. reflexivity.
      * eexists _, _, _. split; [reflexivity|]. split; [|discriminate].
        unfold extend. cbn [trace]. rewrite Htr. unfold st0, afterRead, extend. cbn [trace].
        rewrite <- !app_assoc. reflexivity.
    + eexists _, [_; _], _. split; [reflexivity|]. split; [|discriminate].
      unfold extend. cbn [trace]. unfold st0, afterRead, extend. cbn [trace].
      rewrite <- app_assoc. reflexivity.
  - (* caching off *)
    unfold bind at 1. unfold bind at 1. unfold ret at 1. cbv beta iota.
    unfold classifyAndStore, tryCatch, bind at 1.
    destruct (ClassifierMore.classifyRequest_events JSON_parse fetch (body req)
                (classifier config) st) as (r & evs & -> & _ & Hk).
    destruct r as [d|e].
    + rewrite Hc. eexists _, evs, _. split; [reflexivity|].
      split; [reflexivity|]. intros _. split; [exact Hk | reflexivity].
    + eexists _, (evs ++ [Logged Warn "classifier failed, falling back to frontier"]), _.
      split; [reflexivity|].
      split; [unfold extend; cbn [trace]; rewrite <- app_assoc; reflexivity|].
      intros _. split; [|reflexivity].
      rewrite existsb_app, Hk. reflexivity.
Qed.

(** X17: with caching switched off the handler never reads or writes the
    cache and leaves it as it was, whatever the request and whatever the
    classifier does; and the client always gets a response. *)
Theorem disabled_cache_is_never_touched (req : Request) (st : State) :
  Cache.cache_enabled (Config.cache config) = false ->
  exists resp evs,
    serve req st = Some (Ok resp, {| trace := trace st ++ evs; store := store st |})
    /\ existsb is_cache evs = false.
Proof.
  intros Hoff.
  destruct (serve_events req st) as (r & evs & st' & Hrun & Htr & Hk).
  destruct (Hk Hoff) as (Hnone & Hstore).
  assert (Hok : exists resp, r = Ok resp).
  { revert Hrun. unfold Server.serve.
    destruct (authHook config req); [intros [= <- _]; eauto|].
    unfold tryCatch.
    destruct (handle _ _ _ _ _ _ _) as [[[resp|e] s]|]; [| |discriminate].
    - intros [= <- _]. eauto.
    - intros [= <- _]. eauto. }
  destruct Hok as (resp & ->). exists resp, evs. split; [|exact Hnone].
  rewrite Hrun. destruct st' as [tr c]. cbn [trace store] in Htr, Hstore.
  rewrite Htr, Hstore. reflexivity.
Qed.

(** X18: no error leaves the application unhandled: every request is
    answered by the hook, by its handler or by the error handler, or is
    handed to the adapter of a tier; what was logged and called before is
    kept. *)
Theorem every_request_is_answered (req : Request) (st : State) :
  exists resp evs st',
    serve req st = Some (Ok resp, st') /\ trace st' = trace st ++ evs.
Proof.
  destruct (serve_events req st) as (r & evs & st' & Hrun & Htr & _).
  assert (Hok : exists resp, r = Ok resp).
  { revert Hrun. unfold Server.serve.
    destruct (authHook config req); [intros [= <- _]; eauto|].
    unfold tryCatch.
    destruct (handle _ _ _ _ _ _ _) as [[[resp|e] s]|]; [| |discriminate].
    - intros [= <- _]. eauto.
    - intros [= <- _]. eauto. }
  destruct Hok as (resp & ->). eauto.
Qed.

(** X19: with the in-process cache, a first request that finds no live
    entry is classified and its decision stored; a request for the same
    task (same messages, tools, tool choice and response format) that the
    cache sees next, before the entry is older than the time to live, is
    routed like the first without a call of the classifier: it only reads
    the cache.  The age is the time between the write of the first request
    and the read of the second. *)
Theorem second_request_hits_memory_cache (req1 req2 : Request) (st st1 : State)
    (lru : Cache.LruCache) (d : Z) :
  endpoint req1 = PostChatCompletions -> endpoint req2 = PostChatCompletions ->
  authHook config req1 = None -> authHook config req2 = None ->
  truthy (body req1) = true -> truthy (body req2) = true ->
  truthy (prop (body req1) "messages") = true ->
  prop (body req2) "messages" = prop (body req1) "messages" ->
  prop (body req2) "tools" = prop (body req1) "tools" ->
  prop (body req2) "tool_choice" = prop (body req1) "tool_choice" ->
  prop (body req2) "response_format" = prop (body req1) "response_format" ->
  Classifier.enabled (classifier config) = true ->
  Cache.cache_enabled (Config.cache config) = true ->
  store st = Cache.MemoryCache lru ->
  Cache.lruGet lru (hashPayload (body req1)) = None ->
  classify (body req1) (classifier config)
    (afterRead st (hashPayload (body req1))) = Some (Ok d, st1) ->
  toNumber (Z_to_string d) = Int d ->
  Cache.lru_ttl lru <= 0
  \/ Cache.lru_clock lru (S (S (Cache.lru_ops lru)))
     - Cache.lru_clock lru (S (Cache.lru_ops lru)) <= Cache.lru_ttl lru ->
  exists st',
    serve req1 st
    = Some (Ok (Proxied (routeOf (Int d)) (Int d) (upstreamOf config (routeOf (Int d)))), st')
    /\ serve req2 st'
       = Some (Ok (Proxied (routeOf (Int d)) (Int d) (upstreamOf config (routeOf (Int d)))),
               afterRead st' (hashPayload (body req1)))
    /\ store st'
       = Cache.MemoryCache
           (Cache.lruSet (Cache.lruAfterGet lru (hashPayload (body req1)))
              (hashPayload (body req1)) (Z_to_string d)).
Proof.
  intros He1 He2 Ha1 Ha2 Hp1 Hp2 Hm1 Hm Ht Hc Hr Hen Hon Hstore Hmiss Hcls Hnum Hfresh.
  assert (Hhash : hashPayload (body req2) = hashPayload (body req1)).
  { unfold Utils.hashPayload. rewrite Hm, Ht, Hc, Hr. reflexivity. }
  assert (Hst1 : store st1
                 = Cache.MemoryCache (Cache.lruAfterGet lru (hashPayload (body req1)))).
  { destruct (ClassifierMore.classifyRequest_events JSON_parse fetch (body req1)
                (classifier config) (afterRead st (hashPayload (body req1))))
      as (r & evs & Hrun & _ & _).
    rewrite Hrun in Hcls. injection Hcls as _ <-.
    cbn [store afterRead]. rewrite Hstore. reflexivity. }
  eexists. split; [|split].
  - rewrite (serve_chat _ _ _ _ _ req1 st He1 Ha1). unfold tryCatch at 1.
    rewrite (chatCompletions_miss _ _ _ _ _ (body req1) st Hp1 Hm1 Hen).
    2:{ intros _. rewrite Hstore. cbn [Cache.get]. rewrite Hmiss. reflexivity. }
    unfold lookedUp. rewrite Hon. unfold bind at 1.
    unfold classifyAndStore, tryCatch, bind at 1. rewrite Hcls, Hon.
    unfold bind at 1, cacheSet. rewrite Hst1. cbn [Cache.set]. reflexivity.
  - assert (Hm2 : truthy (prop (body req2) "messages") = true) by (rewrite Hm; exact Hm1).
    rewrite (cache_hit_skips_classifier_lemma req2 _ (Z_to_string d) He2 Ha2 Hp2 Hm2 Hen Hon).
    + rewrite Hhash, Hnum. reflexivity.
    + rewrite Hhash. cbn [store].
      apply (CacheFacts.memory_read_your_writes
               (Cache.lruAfterGet lru (hashPayload (body req1)))).
      exact Hfresh.
    + rewrite Hnum. reflexivity.
  - reflexivity.
Qed.

End Handler.

(** X20: a request that the handler hands to an adapter goes to a tier
    with a base URL, whatever the decision, once the configuration has
    loaded: the checks of loading cover every tier a decision can name. *)
Theorem proxied_upstream_has_base_url (sha256_hex : string -> string)
    (JSON_parse : string -> Result JsVal) (fetch : nat -> bool -> Z -> Classifier.FetchOutcome)
    (toNumber : string -> JsNum) (processEnv : gmap string string)
    (readFile : string -> option string) (config : Config)
    (req : Request) (st st' : State) (route : Route) (d : JsNum) (up : option Upstream) :
  loadConfig processEnv readFile JSON_parse = Ok config ->
  Server.serve sha256_hex JSON_parse fetch toNumber config req st
  = Some (Ok (Proxied route d up), st') ->
  truthy (tierBaseUrl up) = true.
Proof.
  intros Hload Hrun.
  apply serve_proxied in Hrun as [-> Hoff].
  destruct (ConfigMore.requireFields_checked config
              (ConfigMore.loadConfig_checked _ _ _ _ Hload)) as [Hfrontier Hon].
  destruct (Classifier.enabled (classifier config)).
  - destruct (Hon eq_refl) as (_ & Hcheap & Hmedium).
    destruct d as [|[|[| |]|]|]; assumption.
  - rewrite (Hoff eq_refl). exact Hfrontier.
Qed.

(** The environment of the examples and a classifier that never answers
    in time *)
Lemma proxied_upstream_has_base_url_witness :
  exists config up st',
    loadConfig Samples.localEnv Samples.noFile Samples.parseNothing = Ok config
    /\ Server.run (Server.serve (fun input => input) Samples.parseNothing Samples.alwaysAborts
                     Samples.digitsNumber config (Samples.chatRequest "Bearer secret"))
         Cache.NoopCache
       = Some (Ok (Proxied frontier (Int 2) up), st')
    /\ truthy (tierBaseUrl up) = true.
Proof.
  eexists. eexists. eexists.
  split; [vm_compute; reflexivity|].
  split; [vm_compute; reflexivity|].
  refine (proxied_upstream_has_base_url (fun input => input) Samples.parseNothing
            Samples.alwaysAborts Samples.digitsNumber Samples.localEnv Samples.noFile _
            (Samples.chatRequest "Bearer secret")
            {| trace := []; store := Cache.NoopCache |} _ frontier (Int 2) _ _ _);
    vm_compute; reflexivity.
Defined.

(** A request whose fingerprint is in the cache with the decision 1 *)
Lemma cache_hit_skips_classifier_witness :
  Server.run (Server.serve (fun input => input) Samples.parseNothing Samples.alwaysAborts
                Samples.digitsNumber Samples.config (Samples.chatRequest "Bearer secret"))
    (Cache.MemoryCache (MoreSamples.primedMemory (fun input => input)))
  = Some (Ok (Proxied medium (Int 1) (Config.medium (upstreams Samples.config))),
          {| trace := [CacheRead (Utils.hashPayload (fun input => input) Samples.payload_a)];
             store := Cache.afterGet
                        (Cache.MemoryCache (MoreSamples.primedMemory (fun input => input)))
                        (Utils.hashPayload (fun input => input) Samples.payload_a) |}).
Proof.
  apply (cache_hit_skips_classifier (fun input => input) Samples.parseNothing
           Samples.alwaysAborts Samples.digitsNumber Samples.config
           (Samples.chatRequest "Bearer secret")
           {| trace := [];
              store := Cache.MemoryCache (MoreSamples.primedMemory (fun input => input)) |}
           "1"); reflexivity.
Defined.

Lemma disabled_classifier_routes_to_frontier_witness :
  Server.run (Server.serve (fun input => input) Samples.parseNothing Samples.alwaysAborts
                Samples.digitsNumber MoreSamples.directConfig
                (Samples.chatRequest "Bearer secret"))
    Cache.NoopCache
  = Some (Ok (Proxied frontier (Int 2) (Some Samples.frontierUp)),
          {| trace := []; store := Cache.NoopCache |}).
Proof.
  apply (disabled_classifier_routes_to_frontier (fun input => input) Samples.parseNothing
           Samples.alwaysAborts Samples.digitsNumber MoreSamples.directConfig
           (Samples.chatRequest "Bearer secret")
           {| trace := []; store := Cache.NoopCache |}); reflexivity.
Defined.

(** The request of the examples with caching off and a classifier that
    answers 0 *)
Lemma disabled_cache_is_never_touched_witness :
  exists resp evs,
    Server.run (Server.serve (fun input => input) (Samples.parseTable [Samples.deltaEvent "0"])
                  (Samples.answers "0") Samples.digitsNumber MoreSamples.uncachedConfig
                  (Samples.chatRequest "Bearer secret"))
      (Cache.MemoryCache MoreSamples.emptyMemory)
    = Some (Ok resp, {| trace := [] ++ evs;
                        store := Cache.MemoryCache MoreSamples.emptyMemory |})
    /\ existsb is_cache evs = false.
Proof.
  apply (disabled_cache_is_never_touched (fun input => input)
           (Samples.parseTable [Samples.deltaEvent "0"])
           (Samples.answers "0") Samples.digitsNumber MoreSamples.uncachedConfig
           (Samples.chatRequest "Bearer secret")
           {| trace := []; store := Cache.MemoryCache MoreSamples.emptyMemory |}).
  reflexivity.
Defined.

(** The two requests of the examples, one after the other, on an empty
    in-process cache, the classifier answering 0; the second comes a
    second after the first, within the hour that entries live. *)
Lemma second_request_hits_memory_cache_witness :
  exists st',
    Server.run (Server.serve (fun input => input) (Samples.parseTable [Samples.deltaEvent "0"])
                  (Samples.answers "0") Samples.digitsNumber Samples.config
                  (Samples.chatRequest "Bearer secret"))
      (Cache.MemoryCache MoreSamples.emptyMemory)
    = Some (Ok (Proxied (routeOf (Int 0)) (Int 0)
                  (upstreamOf Samples.config (routeOf (Int 0)))), st')
    /\ Server.serve (fun input => input) (Samples.parseTable [Samples.deltaEvent "0"])
         (Samples.answers "0") Samples.digitsNumber Samples.config
         MoreSamples.secondRequest st'
       = Some (Ok (Proxied (routeOf (Int 0)) (Int 0)
                     (upstreamOf Samples.config (routeOf (Int 0)))),
               afterRead st' (Utils.hashPayload (fun input => input) Samples.payload_a))
    /\ store st'
       = Cache.MemoryCache
           (Cache.lruSet
              (Cache.lruAfterGet MoreSamples.emptyMemory
                 (Utils.hashPayload (fun input => input) Samples.payload_a))
              (Utils.hashPayload (fun input => input) Samples.payload_a) (Z_to_string 0)).
Proof.
  apply (second_request_hits_memory_cache (fun input => input)
           (Samples.parseTable [Samples.deltaEvent "0"])
           (Samples.answers "0") Samples.digitsNumber Samples.config
           (Samples.chatRequest "Bearer secret") MoreSamples.secondRequest
           {| trace := []; store := Cache.MemoryCache MoreSamples.emptyMemory |}
           {| trace :=
                [CacheRead (Utils.hashPayload (fun input => input) Samples.payload_a);
                 ClassifierFetch true 800;
                 Logged Debug "classifier decision"];
              store := Cache.MemoryCache
                         (Cache.lruAfterGet MoreSamples.emptyMemory
                            (Utils.hashPayload (fun input => input) Samples.payload_a)) |}
           MoreSamples.emptyMemory 0); try reflexivity.
  right. vm_compute. congruence.
Defined.

End HandlerMore.

(* ===================================================================== *)
(** * providers: the reader of event streams and the relay *)
(* ===================================================================== *)

Module SseFacts.
Import Js Providers JsFacts.

Lemma splitLines_cons (c : ascii) (r : string) :
  splitLines (String c r)
  = if Ascii.eqb c newline then EmptyString :: splitLines r
    else match splitLines r with
         | [] => [String c EmptyString]
         | l :: ls => String c l :: ls
         end.
Proof. reflexivity. Qed.

Lemma splitLines_nonempty (s : string) : splitLines s <> [].
Proof.
  induction s as [|c r IH]; [discriminate|].
  rewrite splitLines_cons. destruct (Ascii.eqb c newline); [discriminate|].
  destruct (splitLines r); discriminate.
Qed.

(** The lines of a text cut in two: the complete lines of the first part,
    then the lines of what was left of it followed by the second part. *)
Lemma splitLines_append (a b : string) :
  splitLines (a +:+ b)
  = List.removelast (splitLines a) ++ splitLines (List.last (splitLines a) EmptyString +:+ b).
Proof.
  induction a as [|c r IH]; [reflexivity|].
  rewrite append_cons, !splitLines_cons.
  pose proof (splitLines_nonempty r) as Hne.
  destruct (Ascii.eqb c newline) eqn:Hc.
  - rewrite IH. destruct (splitLines r) as [|l0 ls0]; [contradiction|]. reflexivity.
  - rewrite IH. destruct (splitLines r) as [|l0 [|l1 ls1]]; [contradiction| |].
    + cbn [List.removelast List.last app]. rewrite append_cons, splitLines_cons, Hc.
      reflexivity.
    + reflexivity.
Qed.

Lemma dataLines_cons (line : string) (rest : list string) :
  dataLines (line :: rest)
  = if is_empty (trim line) || startsWith (trim line) ":" then dataLines rest
    else if startsWith (trim line) "data:" then
      if String.eqb (trim (slice_from 5 (trim line))) "[DONE]" then ([], true)
      else let '(ds, done) := dataLines rest in
           (trim (slice_from 5 (trim line)) :: ds, done)
    else dataLines rest.
Proof. reflexivity. Qed.

Lemma dataLines_app (l1 l2 : list string) :
  dataLines (l1 ++ l2)
  = let '(d1, done1) := dataLines l1 in
    if done1 then (d1, true)
    else let '(d2, done2) := dataLines l2 in (d1 ++ d2, done2).
Proof.
  induction l1 as [|line l1 IH].
  - cbn [app dataLines]. destruct (dataLines l2). reflexivity.
  - rewrite <- app_comm_cons, !dataLines_cons.
    destruct (is_empty (trim line) || startsWith (trim line) ":"); [exact IH|].
    destruct (startsWith (trim line) "data:"); [|exact IH].
    destruct (String.eqb _ "[DONE]"); [reflexivity|].
    rewrite IH. destruct (dataLines l1) as [d1 [|]]; [reflexivity|].
    destruct (dataLines l2). reflexivity.
Qed.

Lemma removelast_app_nonempty {A} (l1 l2 : list A) :
  l2 <> [] -> List.removelast (l1 ++ l2) = l1 ++ List.removelast l2.
Proof. intros H. apply List.removelast_app, H. Qed.

Lemma last_app_nonempty {A} (l1 l2 : list A) (d : A) :
  l2 <> [] -> List.last (l1 ++ l2) d = List.last l2 d.
Proof.
  intros H. induction l1 as [|x l1 IH]; [reflexivity|].
  cbn [app]. destruct (l1 ++ l2) eqn:E.
  - apply app_eq_nil in E as [_ ->]. contradiction.
  - exact IH.
Qed.

Lemma readSseLoop_cons (value : string) (more : list string) (failure : option JsError)
    (buffer : string) :
  readSseLoop (value :: more) failure buffer
  = let lines := splitLines (buffer +:+ value) in
    let '(ds, done) := dataLines (List.removelast lines) in
    if done then (ds, None)
    else let '(ds', f) := readSseLoop more failure (List.last lines EmptyString) in
         (ds ++ ds', f).
Proof. reflexivity. Qed.

Lemma append_assoc (a b c : string) : (a +:+ b) +:+ c = a +:+ (b +:+ c).
Proof.
  induction a as [|x a IH]; [reflexivity|].
  rewrite !append_cons, IH. reflexivity.
Qed.

Lemma append_empty (a : string) : a +:+ EmptyString = a.
Proof.
  induction a as [|x a IH]; [reflexivity|]. rewrite append_cons, IH. reflexivity.
Qed.

(** Two reads give what one read of both chunks gives. *)
Lemma readSseLoop_merge (v x : string) (more : list string) (failure : option JsError)
    (buffer : string) :
  readSseLoop (v :: x :: more) failure buffer
  = readSseLoop ((v +:+ x) :: more) failure buffer.
Proof.
  rewrite (readSseLoop_cons v), (readSseLoop_cons (v +:+ x)). cbv zeta.
  rewrite (readSseLoop_cons x). cbv zeta.
  rewrite <- append_assoc, (splitLines_append (buffer +:+ v) x).
  set (lines1 := splitLines (buffer +:+ v)).
  set (lines2 := splitLines (List.last lines1 EmptyString +:+ x)).
  assert (Hne : lines2 <> []) by apply splitLines_nonempty.
  rewrite (removelast_app_nonempty _ _ Hne), (last_app_nonempty _ _ _ Hne), dataLines_app.
  destruct (dataLines (List.removelast lines1)) as [d1 [|]]; [reflexivity|].
  destruct (dataLines (List.removelast lines2)) as [d2 [|]]; [reflexivity|].
  destruct (readSseLoop more failure (List.last lines2 EmptyString)) as [d3 f].
  rewrite app_assoc. reflexivity.
Qed.

Lemma readSseLoop_joined (v : string) (more : list string) (failure : option JsError)
    (buffer : string) :
  readSseLoop (v :: more) failure buffer
  = readSseLoop [v +:+ String.concat EmptyString more] failure buffer.
Proof.
  revert v. induction more as [|x more IH]; intros v.
  - cbn [String.concat]. rewrite append_empty. reflexivity.
  - rewrite readSseLoop_merge, IH. f_equal. f_equal.
    rewrite append_assoc. f_equal.
    destruct more as [|y more]; [cbn [String.concat]; rewrite append_empty|]; reflexivity.
Qed.

(** X21: [readSse] yields the same data however the body is cut into
    chunks: a body read in any number of pieces gives what the same bytes
    give when they come in one piece. *)
Theorem readSse_ignores_chunk_boundaries (res : Classifier.Response) :
  readSse res
  = readSse {| Classifier.res_ok := Classifier.res_ok res;
               Classifier.res_status := Classifier.res_status res;
               Classifier.res_chunks :=
                 [String.concat EmptyString (Classifier.res_chunks res)];
               Classifier.res_failure := Classifier.res_failure res |}.
Proof.
  unfold readSse. cbn [Classifier.res_chunks Classifier.res_failure].
  destruct (Classifier.res_chunks res) as [|v more].
  - reflexivity.
  - rewrite readSseLoop_joined. f_equal. f_equal.
    destruct more as [|y more]; [cbn [String.concat]; rewrite append_empty|]; reflexivity.
Qed.

End SseFacts.

(* ===================================================================== *)
(** * The adapters: relay, request bodies, texts *)
(* ===================================================================== *)

Module AdapterFacts.
Import Js Config Helpers Adapters Notions JsFacts.

(** ** openai_compatible.js: the relay of a stream *)

Section Relay.

Variable JSON_parse : string -> Result JsVal.

Lemma usageIn_truthy (lines : list string) (usage : JsVal) :
  usageIn JSON_parse lines = Some usage -> truthy usage = true.
Proof.
  induction lines as [|line more IH]; [discriminate|].
  cbn [usageIn]. cbv zeta.
  destruct (negb (startsWith (trim line) "data:")); [exact IH|].
  destruct (is_empty _ || String.eqb _ "[DONE]"); [exact IH|].
  destruct (JSON_parse _) as [json|]; [|exact IH].
  destruct (truthy (prop json "usage")) eqn:Ht; [|exact IH].
  intros [= <-]. exact Ht.
Qed.

(** What holds of the relay after any number of chunks *)
Lemma relay_invariant (chunks : list string) (st : Relay) :
  (usageRecorded st = false /\ usages st = []
   \/ exists usage, usageRecorded st = true /\ usages st = [usage] /\ truthy usage = true) ->
  let st' := fold_left (relayChunk JSON_parse) chunks st in
  written st' = written st ++ chunks
  /\ (usageRecorded st' = false /\ usages st' = []
      \/ exists usage, usageRecorded st' = true /\ usages st' = [usage]
                       /\ truthy usage = true).
Proof.
  revert st. induction chunks as [|chunk chunks IH]; intros st Hst.
  - cbn [fold_left]. rewrite app_nil_r. split; [reflexivity | exact Hst].
  - cbn [fold_left].
    assert (Hstep : written (relayChunk JSON_parse st chunk) = written st ++ [chunk]
                    /\ (usageRecorded (relayChunk JSON_parse st chunk) = false
                        /\ usages (relayChunk JSON_parse st chunk) = []
                        \/ exists usage,
                            usageRecorded (relayChunk JSON_parse st chunk) = true
                            /\ usages (relayChunk JSON_parse st chunk) = [usage]
                            /\ truthy usage = true)).
    { unfold relayChunk. cbv zeta.
      destruct Hst as [[Hflag Hnone] | (usage & Hflag & Hone & Ht)]; rewrite Hflag.
      - destruct (usageIn JSON_parse _) as [usage|] eqn:Hscan.
        + split; [reflexivity|]. right. exists usage. cbn [usageRecorded usages].
          rewrite Hnone. split; [reflexivity|]. split; [reflexivity|].
          exact (usageIn_truthy _ _ Hscan).
        + split; [reflexivity|]. left. split; [reflexivity | exact Hnone].
      - split; [reflexivity|]. right. exists usage. cbn [usageRecorded usages]. auto. }
    destruct Hstep as [Hw Hinv].
    destruct (IH _ Hinv) as [Hw' Hinv']. cbv zeta in Hw'. split; [|exact Hinv'].
    rewrite Hw', Hw, <- app_assoc. reflexivity.
Qed.

(** X22: the relay of an OpenAI-compatible stream writes every chunk of
    the upstream to the client, unchanged and in order, whatever the
    chunks hold; on the side it hands at most one usage object to the
    token tracker, a truthy one, and then stops looking. *)
Theorem relay_passes_chunks_through (chunks : list string) :
  written (relayStream JSON_parse chunks) = chunks
  /\ (usageRecorded (relayStream JSON_parse chunks) = false
      /\ usages (relayStream JSON_parse chunks) = []
      \/ exists usage,
          usageRecorded (relayStream JSON_parse chunks) = true
          /\ usages (relayStream JSON_parse chunks) = [usage]
          /\ truthy usage = true).
Proof.
  unfold relayStream.
  apply (relay_invariant chunks
           {| written := []; usages := []; pending := EmptyString; usageRecorded := false |}).
  left. split; reflexivity.
Qed.

End Relay.

(** ** anthropic.js: the request body *)

Lemma splitLoop_rest (messages : list JsVal) :
  snd (splitLoop messages) = List.filter (fun m => negb (isSystem m)) messages.
Proof.
  induction messages as [|message more IH]; [reflexivity|].
  cbn [splitLoop List.filter]. unfold isSystem at 1.
  destruct (splitLoop more) as [system rest]. cbn [snd] in IH.
  destruct (is_str (prop message "role") "system"); cbn [negb snd]; congruence.
Qed.

Lemma splitLoop_system (messages : list JsVal) :
  fst (splitLoop messages)
  = map (fun message => extractText (prop message "content"))
      (List.filter isSystem messages).
Proof.
  induction messages as [|message more IH]; [reflexivity|].
  cbn [splitLoop List.filter]. unfold isSystem at 1.
  destruct (splitLoop more) as [system rest]. cbn [fst] in IH.
  destruct (is_str (prop message "role") "system"); cbn [fst map]; congruence.
Qed.

Lemma anthropicMessages_map (rest translated : list JsVal) :
  anthropicMessages rest = Ok translated -> translated = map anthropicMessage rest.
Proof.
  revert translated. induction rest as [|message more IH]; intros translated.
  - intros [= <-]. reflexivity.
  - cbn [anthropicMessages]. unfold andThen, member.
    destruct (nullish message); [discriminate|].
    destruct (anthropicMessages more) as [others|]; [|discriminate].
    intros [= <-]. rewrite (IH others eq_refl). reflexivity.
Qed.

Lemma anthropicMessage_role (message : JsVal) :
  is_str (prop (anthropicMessage message) "role") "assistant"
  || is_str (prop (anthropicMessage message) "role") "user" = true.
Proof.
  unfold anthropicMessage. cbn [prop assoc]. rewrite String.eqb_refl.
  destruct (is_str (prop message "role") "assistant"); reflexivity.
Qed.

(** X23: in the body that the Anthropic adapter sends, the messages are
    the messages of the payload whose role is not [system], each in its
    place and translated: the role [assistant] is kept, every other role
    is sent as [user], and the content is the text of the content of the
    message.  The system messages go to the field [system]: their texts
    that are not empty, one per line, and no field when there is none. *)
Theorem anthropic_body_roles (envMaxTokens : option string) (upstream : Upstream)
    (payload : JsVal) (messages : list JsVal) (body : JsVal) :
  anthropicBody envMaxTokens upstream payload messages = Ok body ->
  prop body "messages"
  = JArr (map anthropicMessage (List.filter (fun m => negb (isSystem m)) messages))
  /\ prop body "system"
     = (if is_empty (systemPrompt messages) then JUndefined
        else JStr (systemPrompt messages))
  /\ Forall (fun m => is_str (prop m "role") "assistant" || is_str (prop m "role") "user"
                      = true)
       (map anthropicMessage (List.filter (fun m => negb (isSystem m)) messages)).
Proof.
  unfold anthropicBody, splitSystemMessages, systemPrompt.
  pose proof (splitLoop_rest messages) as Hrest.
  pose proof (splitLoop_system messages) as Hsystem.
  destruct (splitLoop messages) as [system rest]. cbn [fst snd] in Hrest, Hsystem.
  rewrite <- Hrest, <- Hsystem. unfold andThen.
  destruct (anthropicMessages rest) as [translated|] eqn:Htr; [|discriminate].
  intros [= <-]. apply anthropicMessages_map in Htr. subst translated.
  split; [reflexivity|]. split.
  - unfold optional.
    destruct (is_empty (String.concat _ _));
      destruct (is_number (prop payload "temperature"));
      destruct (is_number (prop payload "top_p"));
      destruct (truthy (prop payload "stop")); reflexivity.
  - apply List.Forall_forall. intros m Hin.
    apply List.in_map_iff in Hin as (message & <- & _).
    apply anthropicMessage_role.
Qed.

(** A conversation of five messages, two of them system messages: three
    messages are sent, as user, assistant and user, and the one system
    text that is not empty is the system prompt. *)
Lemma anthropic_body_roles_witness :
  exists body,
    anthropicBody None Samples.frontierUp Samples.payload_a MoreSamples.conversation = Ok body
    /\ prop body "messages"
       = JArr [JObj [("role", JStr "user"); ("content", JStr "2+2?")];
               JObj [("role", JStr "assistant"); ("content", JStr "4")];
               JObj [("role", JStr "user"); ("content", JStr "Hi there")]]
    /\ prop body "system" = JStr "Be brief.".
Proof.
  eexists. split; [reflexivity|].
  destruct (anthropic_body_roles None Samples.frontierUp Samples.payload_a
              MoreSamples.conversation _ eq_refl) as (Hm & Hs & _).
  split; [exact Hm | exact Hs].
Defined.

(** ** The texts of a content array *)

Lemma concat_cons (x : string) (xs : list string) :
  String.concat EmptyString (x :: xs) = x +:+ String.concat EmptyString xs.
Proof.
  destruct xs as [|y ys]; [|reflexivity].
  cbn [String.concat]. symmetry. apply SseFacts.append_empty.
Qed.

(** X24: for a content array whose parts are strings or objects with a
    non-empty string [text], both [coerceText] and [extractText] return the
    texts of the parts, joined in their order. *)
Theorem text_parts_are_joined (texts : list string) (parts : list JsVal) :
  Forall2 textPart texts parts ->
  coerceText (JArr parts) = String.concat EmptyString texts
  /\ extractText (JArr parts) = String.concat EmptyString texts.
Proof.
  induction 1 as [|text part texts parts Hpart _ [IHc IHe]]; [split; reflexivity|].
  assert (Hne : forall t, t <> EmptyString -> is_empty t = false)
    by (intros t; apply is_empty_false).
  split.
  - cbn [coerceText map]. rewrite !concat_cons. f_equal; [|exact IHc].
    destruct Hpart as [-> | (fields & -> & Htext & Hfull)].
    + destruct text; reflexivity.
    + cbn [truthy negb]. rewrite Htext. cbn [truthy]. rewrite (Hne _ Hfull). reflexivity.
  - cbn [extractText map]. rewrite !concat_cons. f_equal; [|exact IHe].
    unfold partText.
    destruct Hpart as [-> | (fields & -> & Htext & Hfull)].
    + destruct text; reflexivity.
    + cbn [truthy negb prop]. rewrite Htext. reflexivity.
Qed.

(** The content array of the examples reads [Hi there]. *)
Lemma text_parts_are_joined_witness :
  coerceText Samples.two_parts = "Hi there" /\ extractText Samples.two_parts = "Hi there".
Proof.
  apply (text_parts_are_joined ["Hi"; " there"]
           [JStr "Hi"; JObj [("type", JStr "text"); ("text", JStr " there")]]).
  constructor; [left; reflexivity|].
  constructor; [|constructor].
  right. eexists. split; [reflexivity|]. split; [reflexivity | discriminate].
Defined.

(** ** cohere.js: the URL of the chat endpoint *)

Lemma endsWith_append (a p : string) : endsWith (a +:+ p) p = true.
Proof.
  unfold endsWith. rewrite UtilsMore.length_append.
  replace (String.length a + String.length p - String.length p)%nat
    with (String.length a) by lia.
  rewrite slice_from_append, String.eqb_refl, andb_true_r.
  apply Nat.leb_le. lia.
Qed.

(** X25: [buildCohereUrl] returns a URL that ends in [/chat], and leaves
    as it is a URL that it has built: a base URL that already names the
    endpoint is not extended a second time. *)
Theorem buildCohereUrl_idempotent (baseUrl : string) :
  buildCohereUrl (buildCohereUrl baseUrl) = buildCohereUrl baseUrl
  /\ (endsWith (buildCohereUrl baseUrl) "/v2/chat" || endsWith (buildCohereUrl baseUrl) "/chat")
     = true.
Proof.
  assert (Hends : (endsWith (buildCohereUrl baseUrl) "/v2/chat"
                   || endsWith (buildCohereUrl baseUrl) "/chat") = true).
  { unfold buildCohereUrl.
    destruct (endsWith baseUrl "/v2/chat" || endsWith baseUrl "/chat") eqn:E; [exact E|].
    rewrite endsWith_append. reflexivity. }
  split; [|exact Hends].
  unfold buildCohereUrl at 1. rewrite Hends. reflexivity.
Qed.

End AdapterFacts.

(* ===================================================================== *)
(** * The translated streams: usage and the end of the stream *)
(* ===================================================================== *)

Module StreamMore.
Import Js Providers Notions StreamFacts.

Section Streams.

Variable randomSuffix : nat -> string.
Variable nowMs : nat -> Z.
Variable JSON_parse : string -> Result JsVal.

Local Abbreviation anthropicEvent := (anthropicEvent randomSuffix nowMs JSON_parse).
Local Abbreviation geminiEvent := (geminiEvent randomSuffix nowMs JSON_parse).
Local Abbreviation cohereEvent := (cohereEvent randomSuffix nowMs JSON_parse).

Local Abbreviation translating := (translating randomSuffix nowMs JSON_parse).

Lemma usageOnce_record (reply : Reply) (flag : bool) (usage : JsVal) (c : bool) :
  usageOnce (reply, flag) ->
  usageOnce (if negb flag && c then (recordUsage reply usage, true) else (reply, flag)).
Proof.
  intros [Hnone Hone]. destruct flag; cbn [negb andb]; [split; assumption|].
  destruct c; [|split; assumption].
  split; [discriminate|]. cbn [fst recordUsage recorded].
  cbn [snd fst] in Hnone. rewrite (Hnone eq_refl). cbn. lia.
Qed.

Lemma usageOnce_write (st : Reply * bool) (text model : JsVal) :
  usageOnce st -> usageOnce (writeOpenAiChunk randomSuffix nowMs (fst st) text model, snd st).
Proof. intros H. exact H. Qed.

Lemma stillOpen_record (reply : Reply) (flag : bool) (usage : JsVal) (c : bool) :
  stillOpen (reply, flag) ->
  stillOpen (if c then (recordUsage reply usage, true) else (reply, flag)).
Proof. intros H. destruct c; exact H. Qed.

Lemma translating_keeps_usageOnce step : translating step -> keeps usageOnce step.
Proof.
  intros (model & [-> | [-> | ->]]) [reply flag] data H.
  - unfold Providers.anthropicEvent.
    destruct (JSON_parse data) as [json|]; [|exact H].
    rewrite <- andb_assoc.
    pose proof (usageOnce_record reply flag (prop (prop json "message") "usage")
                  (is_str (prop json "type") "message_start"
                   && truthy (prop (prop json "message") "usage")) H) as H1.
    destruct (member json "type") as [type|]; [|exact H1].
    destruct (is_str type "content_block_delta" && _); exact H1.
  - unfold Providers.geminiEvent.
    destruct (JSON_parse data) as [json|]; [|exact H].
    pose proof (usageOnce_record reply flag (prop json "usageMetadata")
                  (truthy (prop json "usageMetadata")) H) as H1.
    destruct (extractGeminiText json) as [text|]; [|exact H1].
    destruct (truthy text); exact H1.
  - unfold Providers.cohereEvent.
    destruct (JSON_parse data) as [json|]; [|exact H]. cbv zeta.
    pose proof (usageOnce_record reply flag
                  (or_else (prop (prop (prop json "response") "meta") "tokens")
                     (prop (prop json "meta") "tokens"))
                  (truthy (or_else (prop (prop (prop json "response") "meta") "tokens")
                             (prop (prop json "meta") "tokens"))) H) as H1.
    destruct (truthy (extractCohereStreamText json)); exact H1.
Qed.

Lemma translating_keeps_stillOpen step : translating step -> keeps stillOpen step.
Proof.
  intros (model & [-> | [-> | ->]]) [reply flag] data H.
  - unfold Providers.anthropicEvent.
    destruct (JSON_parse data) as [json|]; [|exact H].
    pose proof (stillOpen_record reply flag (prop (prop json "message") "usage")
                  (negb flag && is_str (prop json "type") "message_start"
                   && truthy (prop (prop json "message") "usage")) H) as H1.
    destruct (member json "type") as [type|]; [|exact H1].
    destruct (is_str type "content_block_delta" && _); exact H1.
  - unfold Providers.geminiEvent.
    destruct (JSON_parse data) as [json|]; [|exact H].
    pose proof (stillOpen_record reply flag (prop json "usageMetadata")
                  (negb flag && truthy (prop json "usageMetadata")) H) as H1.
    destruct (extractGeminiText json) as [text|]; [|exact H1].
    destruct (truthy text); exact H1.
  - unfold Providers.cohereEvent.
    destruct (JSON_parse data) as [json|]; [|exact H]. cbv zeta.
    pose proof (stillOpen_record reply flag
                  (or_else (prop (prop (prop json "response") "meta") "tokens")
                     (prop (prop json "meta") "tokens"))
                  (negb flag && truthy (or_else (prop (prop (prop json "response") "meta") "tokens")
                                          (prop (prop json "meta") "tokens"))) H) as H1.
    destruct (truthy (extractCohereStreamText json)); exact H1.
Qed.

Lemma translating_content step : translating step -> contentStep step.
Proof.
  intros (model & [-> | [-> | ->]]).
  - apply anthropicEvent_content.
  - apply geminiEvent_content.
  - apply cohereEvent_content.
Qed.

(** The loop keeps what its steps keep, on the reply it ends with; the
    flag is that of the last state. *)
Lemma forEachEvent_keeps (P : Reply * bool -> Prop) step (events : list string) :
  keeps P step ->
  forall st, P st -> exists flag, P (fst (forEachEvent step events st), flag).
Proof.
  intros Hstep. induction events as [|data events IH]; intros st H.
  - exists (snd st). destruct st. exact H.
  - cbn [forEachEvent]. pose proof (Hstep st data H) as H'.
    destruct (step st data) as [st' [e|]].
    + exists (snd st'). destruct st'. exact H'.
    + apply IH, H'.
Qed.

(** X26: in a translated stream, of whichever of the three adapters and
    whatever the upstream sends, usage is handed to the token tracker at
    most once. *)
Theorem translated_stream_records_usage_once step (res : Classifier.Response) :
  translating step ->
  (length (recorded (fst (streamBranch step res))) <= 1)%nat.
Proof.
  intros Hstep. unfold streamBranch.
  destruct (readSse res) as [events failure].
  destruct (forEachEvent_keeps usageOnce step events (translating_keeps_usageOnce step Hstep)
              (initOpenAiStream (Classifier.res_status res), false))
    as (flag & _ & Hone).
  { split; [reflexivity | cbn; lia]. }
  cbn [fst] in Hone.
  destruct (forEachEvent step events _) as [reply [e|]]; [exact Hone|].
  destruct failure; exact Hone.
Qed.

(** X27: a translated stream that is cut short, by a read of the upstream
    body that fails or by an event that makes the loop throw, is left as it
    is: what was written are content chunks, the [data: [DONE]] line is
    not written and the response is not ended. *)
Theorem interrupted_stream_is_left_open step (res : Classifier.Response)
    (reply : Reply) (e : JsError) :
  translating step ->
  streamBranch step res = (reply, Some e) ->
  ended reply = false
  /\ Forall (fun f => isContentChunk f = true) (frames reply).
Proof.
  intros Hstep. unfold streamBranch.
  destruct (readSse res) as [events failure].
  destruct (forEachEvent_keeps stillOpen step events (translating_keeps_stillOpen step Hstep)
              (initOpenAiStream (Classifier.res_status res), false) eq_refl)
    as (flag & Hopen).
  pose proof (forEachEvent_content step events (translating_content step Hstep)
                (initOpenAiStream (Classifier.res_status res), false)
                (@List.Forall_nil _ _)) as Hcontent.
  unfold stillOpen in Hopen. cbn [fst] in Hopen.
  destruct (forEachEvent step events _) as [reply' [e'|]]; cbn [fst] in *.
  - intros [= <- _]. split; assumption.
  - destruct failure; [|discriminate]. intros [= <- _]. split; assumption.
Qed.

End Streams.

(** An Anthropic stream whose body breaks off after the first delta *)
Lemma translated_stream_records_usage_once_witness :
  (length (recorded (fst (proxyAnthropicStream Samples.fixedSuffix Samples.fixedClock
                            Samples.anthropicParse (JStr "claude") Samples.anthropicBody)))
   <= 1)%nat.
Proof.
  apply (translated_stream_records_usage_once Samples.fixedSuffix Samples.fixedClock
           Samples.anthropicParse).
  exists (JStr "claude"). left. reflexivity.
Defined.

Lemma interrupted_stream_is_left_open_witness :
  exists reply,
    proxyAnthropicStream Samples.fixedSuffix Samples.fixedClock Samples.anthropicParse
      (JStr "claude") MoreSamples.brokenBody
    = (reply, Some Samples.connectionError)
    /\ length (frames reply) = 1%nat
    /\ ended reply = false
    /\ Forall (fun f => isContentChunk f = true) (frames reply).
Proof.
  eexists. split; [vm_compute; reflexivity|]. split; [reflexivity|].
  apply (interrupted_stream_is_left_open Samples.fixedSuffix Samples.fixedClock
           Samples.anthropicParse
           (Providers.anthropicEvent Samples.fixedSuffix Samples.fixedClock
              Samples.anthropicParse (JStr "claude"))
           MoreSamples.brokenBody _ Samples.connectionError).
  - exists (JStr "claude"). left. reflexivity.
  - vm_compute. reflexivity.
Defined.

End StreamMore.

(* ===================================================================== *)
(** * providers/index.js: the choice of the adapter *)
(* ===================================================================== *)

Module ProviderFacts.
Import Js Config ProviderIndex.

Section Detect.

Variable hostname : string -> Result string.

Lemma known_tags_have_adapters :
  forallb (fun entry => match adapterOf (JStr (snd entry)) with
                        | Some _ => true
                        | None => false
                        end) knownHosts = true.
Proof. reflexivity. Qed.

Lemma byHost_adapter (host tag : string) :
  byHost host = Some tag -> adapterOf (JStr tag) <> None.
Proof.
  unfold byHost. destruct (List.find _ knownHosts) as [entry|] eqn:Hfind; [|discriminate].
  intros [= <-]. apply find_some in Hfind as [Hin _].
  pose proof (proj1 (forallb_forall _ _) known_tags_have_adapters entry Hin) as H.
  cbv beta in H. destruct (adapterOf (JStr (snd entry))); [discriminate | discriminate H].
Qed.

Lemma byKey_adapter (apiKey : JsVal) (tag : string) :
  byKey apiKey = Ok (Some tag) -> adapterOf (JStr tag) <> None.
Proof.
  unfold byKey. destruct (negb (truthy apiKey)); [discriminate|].
  destruct apiKey as [| | | |k| |]; try discriminate.
  destruct (startsWith k "sk-ant-"); [intros [= <-]; discriminate|].
  destruct (startsWith k "AIza"); [intros [= <-]; discriminate|].
  destruct (startsWith (toLowerCase k) "cohere"); [intros [= <-]; discriminate|].
  discriminate.
Qed.

Lemma detectProvider_adapter (baseUrl apiKey : JsVal) (detected : option string) :
  detectProvider hostname baseUrl apiKey = Ok detected ->
  adapterOf (JStr (default "openai_compatible" detected)) <> None.
Proof.
  unfold detectProvider.
  destruct (if is_empty (safeHost hostname baseUrl) then None
            else byHost (safeHost hostname baseUrl)) as [tag|] eqn:Hhost.
  - intros [= <-]. cbn [default from_option].
    destruct (is_empty _); [discriminate|]. exact (byHost_adapter _ _ Hhost).
  - destruct detected as [tag|]; [apply byKey_adapter|].
    intros _. discriminate.
Qed.

(** X28: an upstream whose provider is left to detection (not set, or
    [auto]) always gets one of the adapters: whatever host and key it has,
    when [getProviderAdapter] returns, it does not return the handler that
    answers 501 [provider_not_supported]. *)
Theorem detected_provider_has_adapter (upstream : Upstream) (found : option Adapter) :
  truthy (up_provider upstream) = false \/ is_str (up_provider upstream) "auto" = true ->
  getProviderAdapter hostname (Some upstream) = Ok found ->
  found <> None.
Proof.
  intros Hauto. unfold getProviderAdapter, resolveProvider, andThen.
  assert (Hguard : truthy (up_provider upstream)
                   && negb (is_str (up_provider upstream) "auto") = false).
  { destruct Hauto as [-> | ->]; [reflexivity | apply andb_false_r]. }
  rewrite Hguard.
  destruct (detectProvider _ _ _) as [detected|] eqn:Hdet; [|discriminate].
  intros [= <-]. apply detectProvider_adapter in Hdet.
  unfold or_else.
  destruct (truthy (JStr (default "openai_compatible" detected))); [exact Hdet | discriminate].
Qed.

End Detect.

(** A local engine, found by neither host nor key, is taken for
    OpenAI-compatible. *)
Lemma detected_provider_has_adapter_witness :
  getProviderAdapter MoreSamples.hostOf
    (Some (MoreSamples.detected "http://localhost:11434" EmptyString))
  = Ok (Some proxyOpenAiCompatible)
  /\ Some proxyOpenAiCompatible <> None.
Proof.
  split; [reflexivity|].
  apply (detected_provider_has_adapter MoreSamples.hostOf
           (MoreSamples.detected "http://localhost:11434" EmptyString));
    [right; reflexivity | reflexivity].
Defined.

End ProviderFacts.

(* ===================================================================== *)
(** * token_tracker.js *)
(* ===================================================================== *)

Module TrackerFacts.
Import Js TokenTracker Notions.

Lemma bucketAt_withBucket (slot : Slot) (bucket : Bucket) (updated : option Z) (b : Buckets) :
  bucketAt slot (withBucket slot bucket updated b) = bucket.
Proof. destruct slot; reflexivity. Qed.

Lemma bucketAt_withBucket_other (slot other : Slot) (bucket : Bucket) (updated : option Z)
    (b : Buckets) :
  other <> slot -> bucketAt other (withBucket slot bucket updated b) = bucketAt other b.
Proof. intros H. destruct slot, other; try reflexivity; contradiction. Qed.

Lemma requestsCounted_withBucket (slot : Slot) (bucket : Bucket) (updated : option Z)
    (b : Buckets) :
  requestsCounted (withBucket slot bucket updated b)
  = requestsCounted b - requests (bucketAt slot b) + requests bucket.
Proof. destruct slot; unfold requestsCounted; cbn; lia. Qed.

(** One call: the bucket of the route counts one request more, with usage
    or without; the other buckets stay. *)
Lemma recordUsage_step (now : Z) (route usage : JsVal) (b : Buckets) :
  requests (bucketAt (pickBucket route) (recordUsage now route usage b))
  = requests (bucketAt (pickBucket route) b) + 1
  /\ (withUsage (bucketAt (pickBucket route) (recordUsage now route usage b))
      = withUsage (bucketAt (pickBucket route) b)
        + match normalizeUsage usage with Some _ => 1 | None => 0 end)
  /\ (forall other, other <> pickBucket route ->
        bucketAt other (recordUsage now route usage b) = bucketAt other b)
  /\ requestsCounted (recordUsage now route usage b) = requestsCounted b + 1.
Proof.
  unfold recordUsage. cbv zeta.
  destruct (normalizeUsage usage) as [[[prompt completion] total]|].
  - rewrite bucketAt_withBucket, requestsCounted_withBucket. cbn [requests withUsage].
    repeat split; try lia. intros other H. apply bucketAt_withBucket_other, H.
  - rewrite bucketAt_withBucket, requestsCounted_withBucket. cbn [requests withUsage].
    repeat split; try lia. intros other H. apply bucketAt_withBucket_other, H.
Qed.

(** X29: after any sequence of calls of [recordUsage] on the fresh
    tracker, the request counters of the four buckets add up to the number
    of calls, and in each bucket the calls that carried a usage are counted
    among its requests. *)
Theorem tracker_counts_every_call (records : list Record) :
  requestsCounted (recordAll records initial) = Z.of_nat (length records)
  /\ forall slot,
       0 <= withUsage (bucketAt slot (recordAll records initial))
       <= requests (bucketAt slot (recordAll records initial)).
Proof.
  assert (H : forall b,
             (forall slot, 0 <= withUsage (bucketAt slot b) <= requests (bucketAt slot b)) ->
             requestsCounted (recordAll records b)
             = requestsCounted b + Z.of_nat (length records)
             /\ forall slot,
                  0 <= withUsage (bucketAt slot (recordAll records b))
                  <= requests (bucketAt slot (recordAll records b))).
  { induction records as [|[[now route] usage] records IH]; intros b Hb.
    - cbn [recordAll fold_left length]. split; [lia | exact Hb].
    - unfold recordAll. cbn [fold_left]. fold (recordAll records (recordUsage now route usage b)).
      destruct (recordUsage_step now route usage b) as (Hreq & Hwith & Hother & Hsum).
      destruct (IH (recordUsage now route usage b)) as [Hcount Hinv].
      + intros slot.
        assert (Hcase : slot = pickBucket route \/ slot <> pickBucket route)
          by (destruct slot, (pickBucket route); (left; reflexivity) || (right; discriminate)).
        destruct Hcase as [->|Hne].
        * rewrite Hreq, Hwith. specialize (Hb (pickBucket route)).
          destruct (normalizeUsage usage); lia.
        * rewrite (Hother slot Hne). apply Hb.
      + split; [|exact Hinv]. rewrite Hcount, Hsum. cbn [length]. lia. }
  destruct (H initial) as [Hcount Hinv].
  - intros slot. destruct slot; cbn; lia.
  - split; [exact Hcount | exact Hinv].
Qed.

(** X30: a usage object in the OpenAI schema that gives the prompt and
    the completion tokens and no total adds them, and their sum for total,
    to the counters of the bucket of its route, and stamps the tracker. *)
Theorem usage_without_total_adds_sum (now : Z) (route : JsVal)
    (fields : list (string * JsVal)) (b : Buckets) (p c P C T : Z) :
  assoc "prompt_tokens" fields = JNum p ->
  assoc "completion_tokens" fields = JNum c ->
  nullish (assoc "total_tokens" fields) = true ->
  promptTokens (bucketAt (pickBucket route) b) = JNum P ->
  completionTokens (bucketAt (pickBucket route) b) = JNum C ->
  totalTokens (bucketAt (pickBucket route) b) = JNum T ->
  let updated := recordUsage now route (JObj fields) b in
  promptTokens (bucketAt (pickBucket route) updated) = JNum (P + p)
  /\ completionTokens (bucketAt (pickBucket route) updated) = JNum (C + c)
  /\ totalTokens (bucketAt (pickBucket route) updated) = JNum (T + (p + c))
  /\ lastUpdated updated = Some now.
Proof.
  intros Hp Hc Ht HP HC HT. cbv zeta.
  unfold recordUsage, normalizeUsage, schema. cbn [prop].
  rewrite Hp, Hc. cbn [is_number orb coalesce nullish]. unfold coalesce. rewrite Ht.
  cbv zeta. rewrite bucketAt_withBucket. cbn [promptTokens completionTokens totalTokens].
  rewrite HP, HC, HT. cbn [plus numeric].
  repeat split. destruct (pickBucket route); reflexivity.
Qed.

Lemma usage_without_total_adds_sum_witness :
  let updated :=
    recordUsage 1700000000000 (JStr "cheap") (MoreSamples.usage 12 3) initial in
  promptTokens (bucketAt (pickBucket (JStr "cheap")) updated) = JNum (0 + 12)
  /\ completionTokens (bucketAt (pickBucket (JStr "cheap")) updated) = JNum (0 + 3)
  /\ totalTokens (bucketAt (pickBucket (JStr "cheap")) updated) = JNum (0 + (12 + 3))
  /\ lastUpdated updated = Some 1700000000000.
Proof.
  apply (usage_without_total_adds_sum 1700000000000 (JStr "cheap")
           [("prompt_tokens", JNum 12); ("completion_tokens", JNum 3)] initial 12 3 0 0 0);
    reflexivity.
Defined.

End TrackerFacts.
